(** * Proxy-link encoder ([tx_builders.py]): model and verification

    The encoder turns a persisted inbound record and a client record into a
    connection link ([vless://], [vmess://], [trojan://], [ss://]).  The
    source is dynamically typed Python over decoded JSON, so the model works
    on a universe of Python values and threads exceptions explicitly.

    Modelling conventions.
    - A Python [str] is a [string] whose characters are the code points of
      the text; the model covers text whose code points are below 256.
      [str.lower], [repr], [urllib.parse.quote] (which encodes to UTF-8
      first) and the JSON codec are written out for that range.
    - Python [int] is [Z].  [float] is not part of the universe.
    - A [dict] is an association list in insertion order, as CPython keeps
      it; keys are strings, as in decoded JSON.
    - A computation returns [Ok v], raises ([Raise e]) or leaves the
      modelled fragment ([Beyond]): a JSON document with a fractional
      number, a [\u] escape above U+00FF, [NaN] or [Infinity].  No theorem
      below concludes anything from [Beyond].
    - [json] is CPython's with the C scanner (strict mode, default
      arguments); interpreter resource limits (recursion depth, the digit
      limit of [int]) are not modelled. *)

From Stdlib Require Import List String Ascii ZArith Bool Arith Lia ZifyNat.
From Stdlib Require Import DecimalString DecimalZ.
Import ListNotations.
Open Scope string_scope.

(** ** Python values and outcomes *)

Unset Elimination Schemes.

Inductive value : Type :=
| VNone
| VBool (b : bool)
| VInt (z : Z)
| VStr (s : string)
| VList (l : list value)
| VDict (d : list (string * value)).

Set Elimination Schemes.

Definition dict : Type := list (string * value).

Inductive exn : Type :=
| AttributeError
| TypeError
| JSONDecodeError.

Inductive outcome (A : Type) : Type :=
| Ok (a : A)
| Raise (e : exn)
| Beyond.

Arguments Ok {A} a.
Arguments Raise {A} e.
Arguments Beyond {A}.

Definition bind {A B : Type} (m : outcome A) (k : A -> outcome B) : outcome B :=
  match m with
  | Ok a => k a
  | Raise e => Raise e
  | Beyond => Beyond
  end.

Declare Scope py_scope.
Delimit Scope py_scope with py.
Open Scope py_scope.

Notation "x <- m ;; k" := (bind m (fun x => k))
  (at level 61, m at next level, right associativity) : py_scope.
Notation "' pat <- m ;; k" := (bind m (fun x => match x with pat => k end))
  (at level 61, pat pattern, m at next level, right associativity) : py_scope.

(** [try: body  except Exception: handler] *)
Definition try_except {A : Type} (body handler : outcome A) : outcome A :=
  match body with
  | Raise _ => handler
  | r => r
  end.

(** Truth value of an object, as [if x], [not x] and [x or y] test it. *)
Definition truthy (v : value) : bool :=
  match v with
  | VNone => false
  | VBool b => b
  | VInt z => negb (z =? 0)%Z
  | VStr EmptyString => false
  | VStr _ => true
  | VList [] => false
  | VList _ => true
  | VDict [] => false
  | VDict _ => true
  end.

(** [a or b]: [b] is evaluated only when [a] is falsy. *)
Definition or_else (a b : outcome value) : outcome value :=
  v <- a ;; if truthy v then Ok v else b.

Notation "a 'orelse' b" := (or_else a b)
  (at level 58, right associativity) : py_scope.

(** ** Dictionaries *)

Fixpoint lookup (d : dict) (k : string) : option value :=
  match d with
  | [] => None
  | (k', v) :: r => if k' =? k then Some v else lookup r k
  end.

(** [d.get(k)] on a dict *)
Definition dict_get (d : dict) (k : string) : value :=
  match lookup d k with
  | Some v => v
  | None => VNone
  end.

(** [k in d] *)
Definition dict_mem (d : dict) (k : string) : bool :=
  match lookup d k with
  | Some _ => true
  | None => false
  end.

(** [d[k] = v]: an existing key keeps its place. *)
Fixpoint dict_set (d : dict) (k : string) (v : value) : dict :=
  match d with
  | [] => [(k, v)]
  | (k', v') :: r => if k' =? k then (k', v) :: r else (k', v') :: dict_set r k v
  end.

Fixpoint dict_remove (d : dict) (k : string) : dict :=
  match d with
  | [] => []
  | (k', v') :: r => if k' =? k then r else (k', v') :: dict_remove r k
  end.

(** [d.update(other)] *)
Definition dict_update (d other : dict) : dict :=
  fold_left (fun acc kv => dict_set acc (fst kv) (snd kv)) other d.

(** [x.get(k)] on an arbitrary object: only a dict has the method. *)
Definition get (x : value) (k : string) : outcome value :=
  match x with
  | VDict d => Ok (dict_get d k)
  | _ => Raise AttributeError
  end.

Definition is_dict (v : value) : bool :=
  match v with VDict _ => true | _ => false end.

Definition is_list (v : value) : bool :=
  match v with VList _ => true | _ => false end.

Definition is_str (v : value) : bool :=
  match v with VStr _ => true | _ => false end.

(** [v == s] for a string literal [s] *)
Definition eq_str (v : value) (s : string) : bool :=
  match v with VStr t => t =? s | _ => false end.

(** ** Text primitives *)

Definition dquote : ascii := "034"%char.
Definition squote : ascii := "039"%char.
Definition backslash : ascii := "092"%char.

Definition str1 (c : ascii) : string := String c EmptyString.

Definition between (lo hi n : nat) : bool := ((lo <=? n) && (n <=? hi))%nat.

Fixpoint str_map (f : ascii -> string) (s : string) : string :=
  match s with
  | EmptyString => EmptyString
  | String c r => f c ++ str_map f r
  end.

Fixpoint contains (c : ascii) (s : string) : bool :=
  match s with
  | EmptyString => false
  | String c' r => (c' =? c)%char || contains c r
  end.

(** [s.replace(a, b)] for one-character [a] and [b] *)
Definition replace_char (a b : ascii) (s : string) : string :=
  str_map (fun c => str1 (if (c =? a)%char then b else c)) s.

(** [str.lower] on code points below 256: A-Z, and the upper-case letters
    U+00C0..U+00DE except the multiplication sign U+00D7. *)
Definition lower_char (c : ascii) : ascii :=
  let n := nat_of_ascii c in
  if between 65 90 n || (between 192 222 n && negb (n =? 215)%nat)
  then ascii_of_nat (n + 32) else c.

Definition lower (s : string) : string :=
  str_map (fun c => str1 (lower_char c)) s.

Definition hex_digit (upper : bool) (n : nat) : ascii :=
  if (n <? 10)%nat then ascii_of_nat (48 + n)
  else ascii_of_nat ((if upper then 55 else 87) + n).

Definition hex2 (upper : bool) (n : nat) : string :=
  String (hex_digit upper (n / 16)) (str1 (hex_digit upper (n mod 16))).

(** [s.encode()] (UTF-8) for code points below 256 *)
Definition utf8_char (c : ascii) : string :=
  let n := nat_of_ascii c in
  if (n <? 128)%nat then str1 c
  else String (ascii_of_nat (192 + n / 64)) (str1 (ascii_of_nat (128 + n mod 64))).

Definition encode_utf8 (s : string) : string := str_map utf8_char s.

(** *** [urllib.parse.quote], [quote_plus] and [urlencode] *)

Definition always_safe (b : ascii) : bool :=
  let n := nat_of_ascii b in
  between 65 90 n || between 97 122 n || between 48 57 n
  || contains b "_.-~".

Definition quote_byte (safe : string) (b : ascii) : string :=
  if always_safe b || ((nat_of_ascii b <? 128)%nat && contains b safe) then str1 b
  else String "%" (hex2 true (nat_of_ascii b)).

Definition quote_from_bytes (safe : string) (bs : string) : string :=
  str_map (quote_byte safe) bs.

(** [quote(s, safe)] for a [str] argument *)
Definition quote_str (safe : string) (s : string) : string :=
  quote_from_bytes safe (encode_utf8 s).

(** [quote(x)]: anything but [str] (or bytes, absent here) is refused by
    [quote_from_bytes]. *)
Definition quote (x : value) : outcome string :=
  match x with
  | VStr s => Ok (quote_str "/" s)
  | _ => Raise TypeError
  end.

(** [quote_plus(s, safe='')] *)
Definition quote_plus (s : string) : string :=
  if contains " " s then replace_char " " "+" (quote_str " " s)
  else quote_str EmptyString s.

(** ** [str], [repr] and f-string conversion *)

Definition string_of_Z (z : Z) : string := NilZero.string_of_int (Z.to_int z).

(** Code points that [repr] writes as [\xNN]: controls, DEL, and the
    non-printable part of U+0080..U+00FF. *)
Definition repr_hex_escaped (n : nat) : bool :=
  (n <? 32)%nat || (n =? 127)%nat || between 128 160 n || (n =? 173)%nat.

Definition repr_char (q : ascii) (c : ascii) : string :=
  let n := nat_of_ascii c in
  if (c =? q)%char || (c =? backslash)%char then String backslash (str1 c)
  else if (n =? 9)%nat then String backslash "t"
  else if (n =? 10)%nat then String backslash "n"
  else if (n =? 13)%nat then String backslash "r"
  else if repr_hex_escaped n then String backslash (String "x" (hex2 false n))
  else str1 c.

(** [repr(s)]: single quotes unless the text has one and no double quote. *)
Definition repr_str (s : string) : string :=
  let q := if contains squote s && negb (contains dquote s) then dquote else squote in
  String q (str_map (repr_char q) s ++ str1 q).

Fixpoint py_repr (v : value) : string :=
  match v with
  | VNone => "None"
  | VBool true => "True"
  | VBool false => "False"
  | VInt z => string_of_Z z
  | VStr s => repr_str s
  | VList l => "[" ++ concat ", " (map py_repr l) ++ "]"
  | VDict d =>
      "{" ++ concat ", " (map (fun kv => repr_str (fst kv) ++ ": " ++ py_repr (snd kv)) d)
          ++ "}"
  end.

(** [str(v)], also what an f-string field [{v}] renders *)
Definition py_str (v : value) : string :=
  match v with
  | VStr s => s
  | _ => py_repr v
  end.

(** [urlencode(q)] for a dict: [quote_plus(str(k)) + '=' + quote_plus(str(v))]
    joined by [&]. *)
Definition urlencode_item (kv : string * value) : string :=
  quote_plus (fst kv) ++ "=" ++ quote_plus (py_str (snd kv)).

Definition urlencode (q : dict) : string := concat "&" (map urlencode_item q).

(** ** [base64] *)

Definition b64_char (urlsafe : bool) (n : nat) : ascii :=
  if (n <? 26)%nat then ascii_of_nat (65 + n)
  else if (n <? 52)%nat then ascii_of_nat (71 + n)
  else if (n <? 62)%nat then ascii_of_nat (n - 4)
  else if (n =? 62)%nat then (if urlsafe then "-" else "+")%char
  else (if urlsafe then "_" else "/")%char.

(** [b64encode] / [urlsafe_b64encode] on a byte string *)
Fixpoint b64encode (urlsafe : bool) (bs : string) : string :=
  match bs with
  | EmptyString => EmptyString
  | String a EmptyString =>
      let x := nat_of_ascii a in
      String (b64_char urlsafe (x / 4))
        (String (b64_char urlsafe (x mod 4 * 16)) "==")
  | String a (String b EmptyString) =>
      let x := nat_of_ascii a in
      let y := nat_of_ascii b in
      String (b64_char urlsafe (x / 4))
        (String (b64_char urlsafe (x mod 4 * 16 + y / 16))
           (String (b64_char urlsafe (y mod 16 * 4)) "="))
  | String a (String b (String c r)) =>
      let x := nat_of_ascii a in
      let y := nat_of_ascii b in
      let z := nat_of_ascii c in
      String (b64_char urlsafe (x / 4))
        (String (b64_char urlsafe (x mod 4 * 16 + y / 16))
           (String (b64_char urlsafe (y mod 16 * 4 + z / 64))
              (String (b64_char urlsafe (z mod 64)) (b64encode urlsafe r))))
  end.

(** [s.rstrip("=")] *)
Fixpoint rstrip_eq (s : string) : string :=
  match s with
  | EmptyString => EmptyString
  | String c r =>
      match rstrip_eq r with
      | EmptyString => if (c =? "=")%char then EmptyString else str1 c
      | r' => String c r'
      end
  end.

(** ** [json.dumps(v, separators=(",", ":"))] *)

Definition hex4 (n : nat) : string := "00" ++ hex2 false n.

(** [ensure_ascii] escaping of one character *)
Definition json_escape_char (c : ascii) : string :=
  let n := nat_of_ascii c in
  if (c =? dquote)%char then String backslash (str1 dquote)
  else if (c =? backslash)%char then String backslash (str1 backslash)
  else if (n =? 10)%nat then String backslash "n"
  else if (n =? 13)%nat then String backslash "r"
  else if (n =? 9)%nat then String backslash "t"
  else if (n =? 8)%nat then String backslash "b"
  else if (n =? 12)%nat then String backslash "f"
  else if between 32 126 n then str1 c
  else String backslash (String "u" (hex4 n)).

Definition json_string (s : string) : string :=
  String dquote (str_map json_escape_char s ++ str1 dquote).

Fixpoint json_dumps (v : value) : string :=
  match v with
  | VNone => "null"
  | VBool true => "true"
  | VBool false => "false"
  | VInt z => string_of_Z z
  | VStr s => json_string s
  | VList l => "[" ++ concat "," (map json_dumps l) ++ "]"
  | VDict d =>
      "{" ++ concat "," (map (fun kv => json_string (fst kv) ++ ":" ++ json_dumps (snd kv)) d)
          ++ "}"
  end.

(** ** [json.loads] *)

Definition is_ws (c : ascii) : bool :=
  let n := nat_of_ascii c in
  ((n =? 32) || (n =? 9) || (n =? 10) || (n =? 13))%nat.

Fixpoint skip_ws (s : string) : string :=
  match s with
  | EmptyString => EmptyString
  | String c r => if is_ws c then skip_ws r else s
  end.

Definition is_digit (c : ascii) : bool := between 48 57 (nat_of_ascii c).

Definition hex_val (c : ascii) : option nat :=
  let n := nat_of_ascii c in
  if between 48 57 n then Some (n - 48)
  else if between 97 102 n then Some (n - 87)
  else if between 65 70 n then Some (n - 55)
  else None.

(** The one-letter escapes of a JSON string *)
Definition backslash_escape (e : ascii) : option ascii :=
  if (e =? dquote)%char then Some dquote
  else if (e =? backslash)%char then Some backslash
  else if (e =? "/")%char then Some "/"%char
  else if (e =? "b")%char then Some "008"%char
  else if (e =? "f")%char then Some "012"%char
  else if (e =? "n")%char then Some "010"%char
  else if (e =? "r")%char then Some "013"%char
  else if (e =? "t")%char then Some "009"%char
  else None.

(** [scanstring] from just after the opening quote: the decoded text and
    what follows the closing quote. *)
Fixpoint scanstring (s : string) : outcome (string * string) :=
  match s with
  | EmptyString => Raise JSONDecodeError
  | String c r =>
      if (c =? dquote)%char then Ok (EmptyString, r)
      else if (c =? backslash)%char then
        match r with
        | EmptyString => Raise JSONDecodeError
        | String e r1 =>
            if (e =? "u")%char then
              match r1 with
              | String h1 (String h2 (String h3 (String h4 r2))) =>
                  match hex_val h1, hex_val h2, hex_val h3, hex_val h4 with
                  | Some x1, Some x2, Some x3, Some x4 =>
                      let uni := (((x1 * 16 + x2) * 16 + x3) * 16 + x4)%nat in
                      if (uni <? 256)%nat
                      then '(t, rest) <- scanstring r2 ;;
                           Ok (String (ascii_of_nat uni) t, rest)
                      else Beyond
                  | _, _, _, _ => Raise JSONDecodeError
                  end
              | _ => Raise JSONDecodeError
              end
            else
              match backslash_escape e with
              | Some ch => '(t, rest) <- scanstring r1 ;; Ok (String ch t, rest)
              | None => Raise JSONDecodeError
              end
        end
      else if (nat_of_ascii c <? 32)%nat then Raise JSONDecodeError
      else '(t, rest) <- scanstring r ;; Ok (String c t, rest)
  end.

Fixpoint span_digits (s : string) : string * string :=
  match s with
  | EmptyString => (EmptyString, EmptyString)
  | String c r =>
      if is_digit c then let '(ds, rest) := span_digits r in (String c ds, rest)
      else (EmptyString, s)
  end.

(** Whether what follows the integer part is a fraction or an exponent,
    which makes the literal a float. *)
Definition float_tail (s : string) : bool :=
  match s with
  | String "." (String d _) => is_digit d
  | String e r =>
      if (e =? "e")%char || (e =? "E")%char then
        match r with
        | String g r' =>
            if (g =? "+")%char || (g =? "-")%char
            then match r' with String d _ => is_digit d | EmptyString => false end
            else is_digit g
        | EmptyString => false
        end
      else false
  | EmptyString => false
  end.

Definition int_literal (text rest : string) : outcome (value * string) :=
  if float_tail rest then Beyond
  else match NilZero.int_of_string text with
       | Some i => Ok (VInt (Z.of_int i), rest)
       | None => Beyond
       end.

(** [_match_number]: an optional minus sign, then a single 0 or a digit
    run that starts with 1-9; then the float test. *)
Definition match_number (s : string) : outcome (value * string) :=
  let '(sign, body) :=
    match s with
    | String "-" r => ("-", r)
    | _ => (EmptyString, s)
    end in
  match body with
  | EmptyString => Raise JSONDecodeError
  | String d r =>
      if (d =? "0")%char then int_literal (sign ++ "0") r
      else if is_digit d then
        let '(ds, rest) := span_digits r in int_literal (sign ++ String d ds) rest
      else Raise JSONDecodeError
  end.

Fixpoint strip_prefix (p s : string) : option string :=
  match p, s with
  | EmptyString, _ => Some s
  | String a p', String b s' => if (a =? b)%char then strip_prefix p' s' else None
  | String _ _, EmptyString => None
  end.

(** Named constants, then numbers. *)
Definition scan_constant (s : string) : outcome (value * string) :=
  match strip_prefix "null" s with
  | Some r => Ok (VNone, r)
  | None =>
  match strip_prefix "true" s with
  | Some r => Ok (VBool true, r)
  | None =>
  match strip_prefix "false" s with
  | Some r => Ok (VBool false, r)
  | None =>
      if prefix "NaN" s || prefix "Infinity" s || prefix "-Infinity" s then Beyond
      else match_number s
  end end end.

(** [scan_once], [JSONArray] and [JSONObject].  Every call spends one unit
    of [fuel]; [json_loads] supplies more than a document can use. *)
Fixpoint scan_once (fuel : nat) (s : string) : outcome (value * string) :=
  match fuel with
  | O => Beyond
  | S f =>
      match s with
      | EmptyString => Raise JSONDecodeError
      | String c r =>
          if (c =? dquote)%char then
            '(t, rest) <- scanstring r ;; Ok (VStr t, rest)
          else if (c =? "{")%char then
            match skip_ws r with
            | String "}" r1 => Ok (VDict [], r1)
            | r1 => '(kvs, rest) <- parse_members f r1 ;;
                    Ok (VDict (fold_left (fun acc kv => dict_set acc (fst kv) (snd kv)) kvs []), rest)
            end
          else if (c =? "[")%char then
            match skip_ws r with
            | String "]" r1 => Ok (VList [], r1)
            | r1 => '(vs, rest) <- parse_elements f r1 ;; Ok (VList vs, rest)
            end
          else scan_constant s
      end
  end
with parse_elements (fuel : nat) (s : string) : outcome (list value * string) :=
  match fuel with
  | O => Beyond
  | S f =>
      '(v, r) <- scan_once f s ;;
      match skip_ws r with
      | String "]" r1 => Ok ([v], r1)
      | String "," r1 =>
          '(vs, rest) <- parse_elements f (skip_ws r1) ;; Ok (v :: vs, rest)
      | _ => Raise JSONDecodeError
      end
  end
with parse_members (fuel : nat) (s : string) : outcome (list (string * value) * string) :=
  match fuel with
  | O => Beyond
  | S f =>
      match s with
      | String c r =>
          if (c =? dquote)%char then
            '(k, r1) <- scanstring r ;;
            match skip_ws r1 with
            | String ":" r2 =>
                '(v, r3) <- scan_once f (skip_ws r2) ;;
                match skip_ws r3 with
                | String "}" r4 => Ok ([(k, v)], r4)
                | String "," r4 =>
                    '(kvs, rest) <- parse_members f (skip_ws r4) ;;
                    Ok ((k, v) :: kvs, rest)
                | _ => Raise JSONDecodeError
                end
            | _ => Raise JSONDecodeError
            end
          else Raise JSONDecodeError
      | EmptyString => Raise JSONDecodeError
      end
  end.

Definition json_fuel (s : string) : nat := 2 * length s + 1.

(** [json.loads(s)] for a [str]: one value, white space around it, and
    nothing else. *)
Definition json_loads (s : string) : outcome value :=
  '(v, r) <- scan_once (json_fuel s) (skip_ws s) ;;
  match skip_ws r with
  | EmptyString => Ok v
  | _ => Raise JSONDecodeError
  end.

(** ** The helpers of [tx_builders.py] *)

(** Pure [a or b] on values already at hand *)
Definition por (a b : value) : value := if truthy a then a else b.

Definition json_loads_any (x : value) : outcome value :=
  match x with
  | VStr s => json_loads s
  | _ => Raise TypeError
  end.

Definition _jload (x : value) : outcome value :=
  if negb (truthy x) then Ok (VDict [])
  else if is_dict x then Ok x
  else try_except (json_loads_any x)
         (try_except (json_loads (replace_char squote dquote (py_str x)))
            (Ok (VDict []))).

Definition _arr_first (x : value) : value :=
  match x with
  | VList (h :: _) => h
  | _ => x
  end.

Definition _norm (v : value) : string :=
  match v with
  | VBool true => "1"
  | VBool false => "0"
  | VNone => EmptyString
  | _ => py_str v
  end.

(** [x.lower()]: a method of [str] only *)
Definition str_lower (x : value) : outcome string :=
  match x with
  | VStr s => Ok (lower s)
  | _ => Raise AttributeError
  end.

Fixpoint mem_str (s : string) (l : list string) : bool :=
  match l with
  | [] => false
  | x :: r => (s =? x) || mem_str s r
  end.

Definition _get_network (stream : value) : outcome string :=
  n <- (get stream "network" orelse Ok (VStr "tcp")) ;; str_lower n.

Definition _get_security (stream : value) : outcome string :=
  s <- (get stream "security" orelse Ok (VStr EmptyString)) ;;
  sec <- str_lower s ;;
  Ok (if mem_str sec ["tls"; "reality"; "xtls"; "none"] then sec else "none").

Definition sub_settings (stream : value) (k : string) : outcome value :=
  get stream k orelse Ok (VDict []).

Definition _tls_settings (stream : value) := sub_settings stream "tlsSettings".
Definition _reality_settings (stream : value) := sub_settings stream "realitySettings".
Definition _ws_settings (stream : value) := sub_settings stream "wsSettings".
Definition _grpc_settings (stream : value) := sub_settings stream "grpcSettings".
Definition _tcp_settings (stream : value) := sub_settings stream "tcpSettings".
Definition _kcp_settings (stream : value) := sub_settings stream "kcpSettings".
Definition _quic_settings (stream : value) := sub_settings stream "quicSettings".
Definition _http_settings (stream : value) := sub_settings stream "httpSettings".
Definition _xhttp_settings (stream : value) := sub_settings stream "xhttpSettings".

Definition _external_proxy_dest (stream : value) : outcome value :=
  ext <- get stream "externalProxy" ;;
  match ext with
  | VList (VDict e0 :: _) =>
      let d := dict_get e0 "dest" in
      if truthy d then Ok (VStr (py_str d)) else Ok VNone
  | _ => Ok VNone
  end.

Definition _get_network_path (stream : value) (network : string) : outcome value :=
  if network =? "tcp" then
    tcp <- _tcp_settings stream ;;
    hdr <- (get tcp "header" orelse Ok (VDict [])) ;;
    ty <- get hdr "type" ;;
    if eq_str ty "http" then
      req <- (get tcp "request" orelse Ok (VDict [])) ;;
      (p <- get req "path" ;; Ok (_arr_first p)) orelse Ok (VStr "/")
    else Ok (VStr "/")
  else if network =? "ws" then
    ws <- (_ws_settings stream orelse Ok (VDict [])) ;;
    get ws "path" orelse Ok (VStr "/")
  else if mem_str network ["http"; "xhttp"] then
    hs <- _http_settings stream ;;
    xhs <- _xhttp_settings stream ;;
    hp <- get hs "path" ;;
    if truthy hp then Ok (_arr_first hp) orelse Ok (VStr "/")
    else
      xp <- get xhs "path" ;;
      if truthy xp then Ok xp orelse Ok (VStr "/")
      else Ok (VStr "/")
  else if network =? "grpc" then
    gs <- (_grpc_settings stream orelse Ok (VDict [])) ;;
    get gs "serviceName" orelse Ok (VStr EmptyString)
  else if network =? "kcp" then
    ks <- (_kcp_settings stream orelse Ok (VDict [])) ;;
    get ks "seed" orelse Ok (VStr EmptyString)
  else if network =? "quic" then
    qs <- (_quic_settings stream orelse Ok (VDict [])) ;;
    get qs "key" orelse Ok (VStr EmptyString)
  else Ok (VStr "/").

Definition _get_network_host (stream : value) (network : string) : outcome value :=
  if network =? "tcp" then
    tcp <- _tcp_settings stream ;;
    hdr <- (get tcp "header" orelse Ok (VDict [])) ;;
    ty <- get hdr "type" ;;
    if eq_str ty "http" then
      req <- (get tcp "request" orelse Ok (VDict [])) ;;
      headers <- (get req "headers" orelse Ok (VDict [])) ;;
      (h <- get headers "Host" ;; Ok (_arr_first h)) orelse Ok (VStr EmptyString)
    else Ok (VStr EmptyString)
  else if network =? "ws" then
    ws <- _ws_settings stream ;;
    get ws "host"
      orelse (hd <- (get ws "headers" orelse Ok (VDict [])) ;; get hd "Host")
      orelse Ok (VStr EmptyString)
  else if mem_str network ["http"; "xhttp"] then
    hs <- _http_settings stream ;;
    xhs <- _xhttp_settings stream ;;
    xh <- get xhs "host" ;;
    if truthy xh then Ok xh
    else
      h <- get hs "host" ;;
      if is_list h then Ok (_arr_first h) else Ok (por h (VStr EmptyString))
  else Ok (VStr EmptyString).

Definition _client_id (client : dict) : value :=
  por (dict_get client "id")
    (por (dict_get client "uuid") (por (dict_get client "password") (VStr EmptyString))).

Definition _gather_tls_params (stream : value) : outcome dict :=
  let out := [] in
  tls <- _tls_settings stream ;;
  sn <- get tls "serverName" ;;
  let out := if truthy sn then dict_set out "sni" (VStr (_norm sn)) else out in
  fp <- (get tls "fingerprint" orelse get tls "fp") ;;
  let out := if truthy fp then dict_set out "fp" (VStr (_norm fp)) else out in
  alpn <- get tls "alpn" ;;
  let out :=
    match alpn with
    | VList ((_ :: _) as l) => dict_set out "alpn" (VStr (concat "," (map py_str l)))
    | VStr ((String _ _) as s) => dict_set out "alpn" (VStr s)
    | _ => out
    end in
  ain <- (get tls "allowInsecure"
            orelse (st <- (get tls "settings" orelse Ok (VDict [])) ;; get st "allowInsecure")) ;;
  Ok (match ain with
      | VNone => out
      | _ => dict_set out "allowInsecure" (VStr (_norm ain))
      end).

Definition _gather_reality_params (stream : value) : outcome dict :=
  let out := [] in
  rs <- _reality_settings stream ;;
  pk <- get rs "publicKey" ;;
  let out := if truthy pk then dict_set out "pbk" (VStr (_norm pk)) else out in
  sid <- get rs "shortId" ;;
  let out := if truthy sid then dict_set out "sid" (VStr (_norm sid)) else out in
  spx <- get rs "spiderX" ;;
  let out := if truthy spx then dict_set out "spx" (VStr (_norm spx)) else out in
  fp <- get rs "fingerprint" ;;
  Ok (if truthy fp then dict_set out "fp" (VStr (_norm fp)) else out).

(** The parts every builder starts from. *)

Definition raw_stream (inbound : dict) : value :=
  por (dict_get inbound "stream_settings") (dict_get inbound "streamSettings").

Definition port_of (inbound : dict) : string :=
  py_str (por (dict_get inbound "port")
            (por (dict_get inbound "listen")
               (por (dict_get inbound "listen_port") (VStr EmptyString)))).

(** The operand of [quote] in [tag = quote(...)] *)
Definition tag_source (client inbound : dict) : value :=
  por (dict_get client "email") (por (dict_get inbound "remark") (VStr "node")).

(** [v not in (None, "")] *)
Definition kept (v : value) : bool :=
  match v with
  | VNone => false
  | VStr EmptyString => false
  | _ => true
  end.

(** [f"{quote(str(k))}={quote(str(v))}"] *)
Definition query_item (p : string * value) : string :=
  quote_str "/" (fst p) ++ "=" ++ quote_str "/" (py_str (snd p)).

(** The pairs that pass [if v not in (None, "")] *)
Definition emitted (kv : list (string * value)) : list (string * value) :=
  filter (fun p => kept (snd p)) kv.

(** ["&".join(... for k, v in kv if v not in (None, ""))] *)
Definition query_join (kv : list (string * value)) : string :=
  concat "&" (map query_item (emitted kv)).

(** [[(k, tmp.pop(k)) for k in ordered if k in tmp]] with what is left of
    [tmp] *)
Fixpoint pop_ordered (ordered : list string) (tmp : dict) : list (string * value) * dict :=
  match ordered with
  | [] => ([], tmp)
  | k :: ks =>
      match lookup tmp k with
      | Some v =>
          let '(kv, tmp') := pop_ordered ks (dict_remove tmp k) in ((k, v) :: kv, tmp')
      | None => pop_ordered ks tmp
      end
  end.

Definition is_none (v : value) : bool :=
  match v with VNone => true | _ => false end.

(** The blocks of [build_vless] and [build_trojan] that extend [params];
    the two builders repeat the tcp, grpc and TLS/Reality blocks word for
    word. *)

(** [if net == "tcp": ... if hdr.get("type") == "http": params["headerType"] = "http"] *)
Definition tcp_block (stream : value) (net : string) (params : dict) : outcome dict :=
  if net =? "tcp" then
    tcp <- _tcp_settings stream ;;
    hdr <- (get tcp "header" orelse Ok (VDict [])) ;;
    ty <- get hdr "type" ;;
    Ok (if eq_str ty "http" then dict_set params "headerType" (VStr "http") else params)
  else Ok params.

(** [if net == "grpc": ...] *)
Definition grpc_block (stream : value) (net : string) (params : dict) : outcome dict :=
  if net =? "grpc" then
    gs <- _grpc_settings stream ;;
    mm <- get gs "multiMode" ;;
    let params := dict_set params "mode" (VStr (if truthy mm then "multi" else "gun")) in
    sn <- get gs "serviceName" ;;
    Ok (if truthy sn then dict_set params "serviceName" sn else params)
  else Ok params.

(** [(s.get("header") or {}).get("type") or "none"] *)
Definition header_type (s : value) : outcome value :=
  (hd <- (get s "header" orelse Ok (VDict [])) ;; get hd "type") orelse Ok (VStr "none").

(** [if net == "kcp": ...] *)
Definition kcp_block (stream : value) (net : string) (params : dict) : outcome dict :=
  if net =? "kcp" then
    ks <- _kcp_settings stream ;;
    ht <- header_type ks ;;
    let params := dict_set params "headerType" ht in
    seed <- get ks "seed" ;;
    Ok (if truthy seed then dict_set params "seed" seed else params)
  else Ok params.

(** [if net == "quic": ...] *)
Definition quic_block (stream : value) (net : string) (params : dict) : outcome dict :=
  if net =? "quic" then
    qs <- _quic_settings stream ;;
    qsec <- (get qs "security" orelse Ok (VStr "none")) ;;
    let params := dict_set params "quicSecurity" qsec in
    key <- (get qs "key" orelse Ok (VStr EmptyString)) ;;
    let params := dict_set params "key" key in
    ht <- header_type qs ;;
    Ok (dict_set params "headerType" ht)
  else Ok params.

(** [if sec == "tls": ... elif sec == "reality": ...], and the [else] arm
    that only [build_vless] has. *)
Definition security_block (with_none : bool) (stream : value) (sec : string)
    (params : dict) : outcome dict :=
  if sec =? "tls" then
    t <- _gather_tls_params stream ;;
    Ok (dict_update (dict_set params "security" (VStr "tls")) t)
  else if sec =? "reality" then
    r <- _gather_reality_params stream ;;
    Ok (dict_update (dict_set params "security" (VStr "reality")) r)
  else Ok (if with_none then dict_set params "security" (VStr "none") else params).

(** The transport arm of [build_vmess]: the [if net == ... elif ...] chain
    that overlays [type], [host] and [servicename] on [vm]. *)
Definition vmess_transport_block (stream : value) (net : string) (vm : dict) : outcome dict :=
  if net =? "tcp" then
    tcp <- _tcp_settings stream ;;
    hdr <- (get tcp "header" orelse Ok (VDict [])) ;;
    ty <- get hdr "type" ;;
    if eq_str ty "http" then
      let vm := dict_set vm "type" (VStr "http") in
      req <- (get tcp "request" orelse Ok (VDict [])) ;;
      headers <- (get req "headers" orelse Ok (VDict [])) ;;
      hh <- get headers "Host" ;;
      let h := if is_list hh then _arr_first hh else hh in
      Ok (if truthy h then dict_set vm "host" h else vm)
    else Ok vm
  else if net =? "ws" then
    ws <- _ws_settings stream ;;
    h <- (get ws "host"
            orelse (hd <- (get ws "headers" orelse Ok (VDict [])) ;; get hd "Host")
            orelse Ok (VStr EmptyString)) ;;
    Ok (if truthy h then dict_set vm "host" h else vm)
  else if net =? "grpc" then
    gs <- _grpc_settings stream ;;
    mm <- get gs "multiMode" ;;
    let vm := dict_set vm "type" (VStr (if truthy mm then "multi" else "gun")) in
    sn <- get gs "serviceName" ;;
    Ok (if truthy sn then dict_set vm "servicename" sn else vm)
  else if net =? "kcp" then
    ks <- _kcp_settings stream ;;
    ht <- header_type ks ;;
    Ok (dict_set vm "type" ht)
  else if net =? "quic" then
    qs <- _quic_settings stream ;;
    ht <- header_type qs ;;
    let vm := dict_set vm "type" ht in
    qsec <- (get qs "security" orelse Ok (VStr "none")) ;;
    Ok (dict_set vm "host" qsec)
  else if mem_str net ["http"; "xhttp"] then
    hs <- _http_settings stream ;;
    xhs <- _xhttp_settings stream ;;
    let vm := dict_set vm "type" (VStr "http") in
    h <- (get xhs "host" orelse get hs "host") ;;
    let h := if is_list h then _arr_first h else h in
    Ok (if truthy h then dict_set vm "host" h else vm)
  else Ok vm.

(** [if k in tls_params: vm[k] = tls_params[k]] *)
Definition copy_key (src : dict) (k : string) (vm : dict) : dict :=
  match lookup src k with
  | Some v => dict_set vm k v
  | None => vm
  end.

(** [if r.get(k): vm[k] = r[k]] *)
Definition copy_truthy (r : dict) (k : string) (vm : dict) : dict :=
  if truthy (dict_get r k) then dict_set vm k (dict_get r k) else vm.

(** ** The four encoders *)

Section Encoders.

(** [FALLBACK_DOMAIN = os.getenv("DOMAIN", "localhost")], read once at
    import. *)
Variable FALLBACK_DOMAIN : string.

Definition _server_host (stream inbound_settings : value) : outcome value :=
  _external_proxy_dest stream
    orelse (tls <- _tls_settings stream ;; get tls "serverName")
    orelse _get_network_host stream "ws"
    orelse get inbound_settings "domain"
    orelse get inbound_settings "host"
    orelse get inbound_settings "address"
    orelse Ok (VStr FALLBACK_DOMAIN).

(** *** VLESS *)

Definition vless_ordered : list string :=
  ["type"; "security"; "encryption"; "path"; "host"; "headerType"; "mode";
   "serviceName"; "flow"; "seed"; "quicSecurity"; "key"; "alpn"; "sni"; "fp";
   "allowInsecure"].

(** The [params] dict of [build_vless] when it reaches [ordered]. *)
Definition vless_params (client : dict) (stream inbound_settings : value)
    (net sec : string) : outcome dict :=
  path <- _get_network_path stream net ;;
  let params := [("type", VStr net); ("encryption", VStr "none"); ("path", path)] in
  network_host <- _get_network_host stream net ;;
  let params := if truthy network_host then dict_set params "host" network_host else params in
  params <- tcp_block stream net params ;;
  params <- grpc_block stream net params ;;
  params <- kcp_block stream net params ;;
  params <- quic_block stream net params ;;
  params <- security_block true stream sec params ;;
  flow <- (Ok (dict_get client "flow") orelse get inbound_settings "flow") ;;
  Ok (if truthy flow then dict_set params "flow" (VStr (py_str flow)) else params).

(** [kv]: the ordered keys that are present, then whatever is left. *)
Definition vless_kv (params : dict) : list (string * value) :=
  let '(kv, tmp) := pop_ordered vless_ordered params in kv ++ tmp.

(** The [q] dict of the xhttp branch, after the [v is not None] filter. *)
Definition vless_xhttp_query (network_host : value) (double_encoded : string) : dict :=
  filter (fun kv => negb (is_none (snd kv)))
    [("security", VStr "none"); ("encryption", VStr EmptyString);
     ("headerType", VStr EmptyString); ("type", VStr "xhttp");
     ("host", network_host); ("path", VStr double_encoded)].

(** [quote(quote(raw_path)).lower()]; [str] has no [toLower], so the
    conditional takes its [else] arm. *)
Definition double_encode (raw_path : value) : outcome string :=
  once <- quote raw_path ;;
  twice <- quote (VStr once) ;;
  Ok (lower twice).

Definition build_vless (client inbound : dict) : outcome string :=
  stream <- _jload (raw_stream inbound) ;;
  inbound_settings <- _jload (dict_get inbound "settings") ;;
  net <- _get_network stream ;;
  sec <- _get_security stream ;;
  host <- _server_host stream inbound_settings ;;
  let port := port_of inbound in
  let uid := _client_id client in
  if net =? "xhttp" then
    network_host <- (_get_network_host stream "xhttp" orelse Ok host) ;;
    raw_path <- (_get_network_path stream "xhttp" orelse Ok (VStr "/")) ;;
    double_encoded <- double_encode raw_path ;;
    let q := vless_xhttp_query network_host double_encoded in
    tag <- quote (tag_source client inbound) ;;
    Ok ("vless://" ++ py_str uid ++ "@" ++ py_str host ++ ":" ++ port
          ++ "/?" ++ urlencode q ++ "#" ++ tag)
  else
    params <- vless_params client stream inbound_settings net sec ;;
    let kv := vless_kv params in
    let enc := query_join kv in
    tag <- quote (tag_source client inbound) ;;
    Ok ("vless://" ++ py_str uid ++ "@" ++ py_str host ++ ":" ++ port
          ++ "?" ++ enc ++ "#" ++ tag).

(** *** VMess *)

(** [vm] as [json.dumps] receives it. *)
Definition vmess_record (client inbound : dict) (stream : value) (host : value)
    (net sec : string) : outcome dict :=
  path <- _get_network_path stream net ;;
  let vm :=
    [("v", VStr "2");
     ("ps", tag_source client inbound);
     ("add", host);
     ("port", VStr (port_of inbound));
     ("id", _client_id client);
     ("aid", VInt 0);
     ("net", VStr net);
     ("type", VStr "none");
     ("path", path);
     ("tls", VStr (if sec =? "tls" then "tls"
                   else if sec =? "reality" then "reality" else "none"))] in
  vm <- vmess_transport_block stream net vm ;;
  tls_params <- _gather_tls_params stream ;;
  let vm :=
    copy_key tls_params "allowInsecure"
      (copy_key tls_params "alpn" (copy_key tls_params "fp" (copy_key tls_params "sni" vm))) in
  if sec =? "reality" then
    r <- _gather_reality_params stream ;;
    Ok (copy_truthy r "fp" (copy_truthy r "spx" (copy_truthy r "sid" (copy_truthy r "pbk" vm))))
  else Ok vm.

Definition build_vmess (client inbound : dict) : outcome (string * dict) :=
  stream <- _jload (raw_stream inbound) ;;
  inbound_settings <- _jload (dict_get inbound "settings") ;;
  net <- _get_network stream ;;
  sec <- _get_security stream ;;
  host <- _server_host stream inbound_settings ;;
  vm <- vmess_record client inbound stream host net sec ;;
  let b64 := b64encode false (encode_utf8 (json_dumps (VDict vm))) in
  Ok ("vmess://" ++ b64, vm).

(** *** Trojan *)

(** Declared in [build_trojan], and not used by it. *)
Definition trojan_ordered : list string :=
  ["security"; "sni"; "alpn"; "fp"; "allowInsecure"; "type"; "path"; "host";
   "mode"; "serviceName"; "headerType"].

Definition trojan_params (stream : value) (net sec : string) : outcome dict :=
  path <- _get_network_path stream net ;;
  let params := [("type", VStr net); ("path", path)] in
  h <- _get_network_host stream net ;;
  let params := if truthy h then dict_set params "host" h else params in
  params <- grpc_block stream net params ;;
  params <- tcp_block stream net params ;;
  security_block false stream sec params.

Definition build_trojan (client inbound : dict) : outcome string :=
  stream <- _jload (raw_stream inbound) ;;
  inbound_settings <- _jload (dict_get inbound "settings") ;;
  net <- _get_network stream ;;
  sec <- _get_security stream ;;
  host <- _server_host stream inbound_settings ;;
  let port := port_of inbound in
  let pwd := por (dict_get client "password") (por (dict_get client "id") (VStr EmptyString)) in
  params <- trojan_params stream net sec ;;
  let enc := query_join params in
  tag <- quote (tag_source client inbound) ;;
  Ok ("trojan://" ++ py_str pwd ++ "@" ++ py_str host ++ ":" ++ port
        ++ "?" ++ enc ++ "#" ++ tag).

(** *** Shadowsocks *)

Definition build_ss (client inbound : dict) : outcome (option string) :=
  inbound_settings <- _jload (dict_get inbound "settings") ;;
  stream <- _jload (raw_stream inbound) ;;
  host <- _server_host stream inbound_settings ;;
  let port := port_of inbound in
  method <- (Ok (dict_get client "method") orelse get inbound_settings "method") ;;
  pwd <- (Ok (dict_get client "password") orelse get inbound_settings "password") ;;
  if negb (truthy method && truthy pwd) then Ok None
  else
    let userinfo :=
      rstrip_eq (b64encode true (encode_utf8 (py_str method ++ ":" ++ py_str pwd))) in
    tag <- quote (tag_source client inbound) ;;
    Ok (Some ("ss://" ++ userinfo ++ "@" ++ py_str host ++ ":" ++ port ++ "#" ++ tag)).

End Encoders.

(** ** Scenario data *)

(** The inbound and client of the VLESS scenario of the spec (§8). *)
Definition scenario_inbound : dict :=
  [("protocol", VStr "vless");
   ("port", VInt 443);
   ("stream_settings",
    VDict
      [("network", VStr "tcp");
       ("security", VStr "none");
       ("tcpSettings",
        VDict
          [("header", VDict [("type", VStr "http")]);
           ("request",
            VDict
              [("path", VList [VStr "/"]);
               ("headers", VDict [("Host", VList [VStr "example.com"])])])])])].

Definition scenario_client : dict :=
  [("id", VStr "abc-123"); ("email", VStr "u1")].

(** The link the spec gives for the scenario. *)
Definition scenario_link_in_spec : string :=
  "vless://abc-123@example.com:443?type=tcp&security=none&encryption=none&path=%2F&host=example.com&headerType=http#u1".

(** ** The [or]-chain of [_server_host], operand by operand *)

(** The six operands before the fallback, as the source evaluates them. *)
Definition host_levels (stream inbound_settings : value) : list (outcome value) :=
  [ _external_proxy_dest stream;
    (tls <- _tls_settings stream ;; get tls "serverName");
    _get_network_host stream "ws";
    get inbound_settings "domain";
    get inbound_settings "host";
    get inbound_settings "address" ].

(** What [a or b or ... or fallback] evaluates to: an operand is
    evaluated only when every operand before it is falsy. *)
Fixpoint first_nonempty (levels : list (outcome value)) (fallback : value) : outcome value :=
  match levels with
  | [] => Ok fallback
  | c :: rest =>
      match c with
      | Ok v => if truthy v then Ok v else first_nonempty rest fallback
      | Raise e => Raise e
      | Beyond => Beyond
      end
  end.

(** An operand that evaluates to a falsy value *)
Definition empty_level (c : outcome value) : Prop :=
  exists v, c = Ok v /\ truthy v = false.

(** ** Observations used in the statements *)

Fixpoint count_char (c : ascii) (s : string) : nat :=
  match s with
  | EmptyString => 0
  | String c' r => (if (c' =? c)%char then 1 else 0) + count_char c r
  end.


Definition layered_settings : value :=
  VDict
    [("domain", VStr "domain.example");
     ("host", VStr "host.example");
     ("address", VStr "203.0.113.7")].

(** What the flag resolves to: the top-level value when truthy, else the
    nested one. *)
Definition allow_insecure_flag (tls : dict) : value :=
  por (dict_get tls "allowInsecure")
    (match dict_get tls "settings" with
     | VDict st => dict_get st "allowInsecure"
     | _ => VNone
     end).

Definition dict_or_falsy (v : value) : bool := is_dict v || negb (truthy v).

(** [keys] occur in [ordered] in the same order (a subsequence of it). *)
Fixpoint in_order (keys ordered : list string) : bool :=
  match keys, ordered with
  | [], _ => true
  | _ :: _, [] => false
  | k :: ks, o :: os => if k =? o then in_order ks os else in_order keys os
  end.

(** The keys that a declared order does not list *)
Definition undeclared (declared keys : list string) : list string :=
  filter (fun k => negb (mem_str k declared)) keys.

(** The keys Reality adds that no declared order lists *)
Definition reality_extras : list string := ["pbk"; "sid"; "spx"].

(** Reading a link back: the text between [?] and [#], cut at [&], each
    item cut at its first [=]. *)
Fixpoint before_char (c : ascii) (s : string) : string :=
  match s with
  | EmptyString => EmptyString
  | String a r => if (a =? c)%char then EmptyString else String a (before_char c r)
  end.

Fixpoint after_char (c : ascii) (s : string) : string :=
  match s with
  | EmptyString => EmptyString
  | String a r => if (a =? c)%char then r else after_char c r
  end.

Fixpoint split_on (c : ascii) (s : string) : list string :=
  match s with
  | EmptyString => [EmptyString]
  | String a r =>
      if (a =? c)%char then EmptyString :: split_on c r
      else match split_on c r with
           | [] => [str1 a]
           | h :: t => String a h :: t
           end
  end.

Definition query_of (link : string) : list (string * string) :=
  map (fun item => (before_char "=" item, after_char "=" item))
    (split_on "&" (before_char "#" (after_char "?" link))).

Definition query_keys (link : string) : list string := map fst (query_of link).

Fixpoint assoc (k : string) (l : list (string * string)) : option string :=
  match l with
  | [] => None
  | (k', v) :: r => if k' =? k then Some v else assoc k r
  end.

Definition query_value (link key : string) : option string := assoc key (query_of link).

(** Inbounds and a client for the key-order and xhttp statements. *)
Definition sample_client : dict :=
  [("id", VStr "abc-123"); ("password", VStr "pw"); ("email", VStr "u1")].

Definition xhttp_inbound : dict :=
  [("protocol", VStr "vless");
   ("port", VInt 443);
   ("stream_settings",
    VDict
      [("network", VStr "xhttp");
       ("xhttpSettings", VDict [("path", VStr "/a b"); ("host", VStr "h.example")])])].

Definition tls_inbound : dict :=
  [("port", VInt 443);
   ("stream_settings",
    VDict
      [("network", VStr "tcp");
       ("security", VStr "tls");
       ("tlsSettings", VDict [("serverName", VStr "sni.example")])])].

Definition reality_inbound : dict :=
  [("port", VInt 443);
   ("stream_settings",
    VDict
      [("network", VStr "grpc");
       ("security", VStr "reality");
       ("grpcSettings", VDict [("serviceName", VStr "svc")]);
       ("realitySettings",
        VDict [("publicKey", VStr "PK"); ("shortId", VStr "ab");
               ("fingerprint", VStr "chrome")])])].

(** [d'] is [d] after some assignments [d[k] = v] with [k] among [allowed]. *)
Inductive extends (allowed : list string) (d : dict) : dict -> Prop :=
| ext_refl : extends allowed d d
| ext_set (d' : dict) (k : string) (v : value) :
    extends allowed d d' -> In k allowed -> extends allowed d (dict_set d' k v).

(** Every key is listed in the VLESS order. *)
Definition declared_only (d : dict) : Prop :=
  NoDup (map fst d) /\ undeclared vless_ordered (map fst d) = [].

(** The keys outside the VLESS order are Reality's, in the order
    [pbk], [sid], [spx]. *)
Definition reality_only (d : dict) : Prop :=
  NoDup (map fst d)
  /\ in_order (undeclared vless_ordered (map fst d)) reality_extras = true.

(** ** Decoders the statements read links back with *)

Definition b64_val (urlsafe : bool) (c : ascii) : option nat :=
  let n := nat_of_ascii c in
  if between 65 90 n then Some (n - 65)
  else if between 97 122 n then Some (n - 71)
  else if between 48 57 n then Some (n + 4)
  else if (c =? (if urlsafe then "-" else "+"))%char then Some 62
  else if (c =? (if urlsafe then "_" else "/"))%char then Some 63
  else None.

(** Base64 decoding; the last group may be padded with [=] or cut short,
    as [rstrip("=")] leaves it. *)
Fixpoint b64decode (urlsafe : bool) (s : string) : option string :=
  match s with
  | EmptyString => Some EmptyString
  | String a (String b r) =>
      match b64_val urlsafe a, b64_val urlsafe b with
      | Some x, Some y =>
          let b1 := ascii_of_nat (x * 4 + y / 16) in
          match r with
          | EmptyString => Some (str1 b1)
          | String c r1 =>
              if (c =? "=")%char then
                match r1 with
                | String "=" EmptyString => Some (str1 b1)
                | _ => None
                end
              else
                match b64_val urlsafe c with
                | Some z =>
                    let b2 := ascii_of_nat (y mod 16 * 16 + z / 4) in
                    match r1 with
                    | EmptyString => Some (String b1 (str1 b2))
                    | String d r2 =>
                        if (d =? "=")%char then
                          match r2 with
                          | EmptyString => Some (String b1 (str1 b2))
                          | _ => None
                          end
                        else
                          match b64_val urlsafe d with
                          | Some w =>
                              let b3 := ascii_of_nat (z mod 4 * 64 + w) in
                              match b64decode urlsafe r2 with
                              | Some t => Some (String b1 (String b2 (String b3 t)))
                              | None => None
                              end
                          | None => None
                          end
                    end
                | None => None
                end
          end
      | _, _ => None
      end
  | String _ EmptyString => None
  end.

(** UTF-8 decoding of text whose code points are below 256. *)
Fixpoint decode_utf8 (bs : string) : option string :=
  match bs with
  | EmptyString => Some EmptyString
  | String b r =>
      let n := nat_of_ascii b in
      if (n <? 128)%nat then
        match decode_utf8 r with
        | Some t => Some (String b t)
        | None => None
        end
      else if between 194 195 n then
        match r with
        | String b2 r' =>
            let m := nat_of_ascii b2 in
            if between 128 191 m then
              match decode_utf8 r' with
              | Some t => Some (String (ascii_of_nat ((n - 192) * 64 + (m - 128))) t)
              | None => None
              end
            else None
        | EmptyString => None
        end
      else None
  end.

Fixpoint all_chars (f : ascii -> bool) (s : string) : bool :=
  match s with
  | EmptyString => true
  | String c r => f c && all_chars f r
  end.

(** The alphabet of base64url: letters, digits, [-] and [_]. *)
Definition b64url_char (c : ascii) : bool :=
  let n := nat_of_ascii c in
  between 65 90 n || between 97 122 n || between 48 57 n
  || (c =? "-")%char || (c =? "_")%char.

(** The Shadowsocks scenario of the spec (§8); the host is given by the
    settings-level [domain]. *)
Definition ss_inbound : dict :=
  [("protocol", VStr "shadowsocks");
   ("port", VInt 8388);
   ("settings",
    VDict [("method", VStr "aes-256-gcm"); ("password", VStr "p@ss");
           ("domain", VStr "h.example")])].

Definition ss_client : dict := [("email", VStr "u2")].

(** ** Well-typed stream settings

    The encoders call [.get] on the sub-records of the stream settings,
    [.lower()] on [network] and [security], and [quote] on the xhttp
    path; nothing checks that these are mappings and strings.  The
    predicates below say that they are, or are empty. *)

Definition str_or_falsy (v : value) : bool := is_str v || negb (truthy v).

Definition as_dict (v : value) : dict :=
  match v with
  | VDict d => d
  | _ => []
  end.

Definition wt_tls (s : dict) : bool :=
  let tls := as_dict (dict_get s "tlsSettings") in
  dict_or_falsy (dict_get s "tlsSettings") && dict_or_falsy (dict_get tls "settings").

Definition wt_ws (s : dict) : bool :=
  let ws := as_dict (dict_get s "wsSettings") in
  dict_or_falsy (dict_get s "wsSettings") && dict_or_falsy (dict_get ws "headers").

Definition wt_tcp (s : dict) : bool :=
  let tcp := as_dict (dict_get s "tcpSettings") in
  let req := as_dict (dict_get tcp "request") in
  dict_or_falsy (dict_get s "tcpSettings")
  && dict_or_falsy (dict_get tcp "header")
  && dict_or_falsy (dict_get tcp "request")
  && dict_or_falsy (dict_get req "headers").

Definition wt_header (s : dict) (k : string) : bool :=
  dict_or_falsy (dict_get s k)
  && dict_or_falsy (dict_get (as_dict (dict_get s k)) "header").

Definition wt_http (s : dict) : bool :=
  let hs := as_dict (dict_get s "httpSettings") in
  let xhs := as_dict (dict_get s "xhttpSettings") in
  dict_or_falsy (dict_get s "httpSettings")
  && dict_or_falsy (dict_get s "xhttpSettings")
  && str_or_falsy (_arr_first (dict_get hs "path"))
  && str_or_falsy (dict_get xhs "path").

Definition wt_stream (s : dict) : bool :=
  str_or_falsy (dict_get s "network")
  && str_or_falsy (dict_get s "security")
  && wt_tls s
  && dict_or_falsy (dict_get s "realitySettings")
  && wt_ws s
  && wt_tcp s
  && dict_or_falsy (dict_get s "grpcSettings")
  && wt_header s "kcpSettings"
  && wt_header s "quicSettings"
  && wt_http s.

(** An outcome that is a value *)
Definition returns {A : Type} (m : outcome A) : Prop := exists a, m = Ok a.

(** Inputs on which the encoders raise. *)
Definition tls_as_text_inbound : dict :=
  [("port", VInt 443);
   ("settings", VDict [("method", VStr "aes-256-gcm"); ("password", VStr "p@ss")]);
   ("stream_settings", VDict [("network", VStr "tcp"); ("tlsSettings", VStr "on")])].

Definition numeric_network_inbound : dict :=
  [("port", VInt 443); ("stream_settings", VDict [("network", VInt 5)])].

Definition numeric_email_client : dict := [("id", VStr "abc-123"); ("email", VInt 7)].

(** A blob that is not JSON at all, which [_jload] absorbs. *)
Definition malformed_inbound : dict :=
  [("port", VInt 443); ("remark", VStr "edge"); ("settings", VStr "{method=");
   ("stream_settings", VStr "not json")].

(** An inbound whose stream settings name no network. *)
Definition no_network_inbound : dict :=
  [("port", VInt 443);
   ("stream_settings",
    VDict [("security", VStr "tls");
           ("tlsSettings", VDict [("serverName", VStr "sni.example")])])].

(** ** Well-formed values and what may follow a number *)

Fixpoint nodup_keys (l : list string) : bool :=
  match l with
  | [] => true
  | k :: r => negb (mem_str k r) && nodup_keys r
  end.

(** A value as Python holds it: no dict, at any depth, has a repeated key. *)
Fixpoint wf (v : value) : bool :=
  match v with
  | VList l => forallb wf l
  | VDict d => nodup_keys (map fst d) && forallb (fun kv => wf (snd kv)) d
  | _ => true
  end.

(** Fuel that [scan_once] needs to read a value back. *)
Fixpoint vsize (v : value) : nat :=
  match v with
  | VList l => S (fold_right (fun x n => S (vsize x + n)) 0 l)
  | VDict d => S (fold_right (fun kv n => S (vsize (snd kv) + n)) 0 d)
  | _ => 1
  end.

(** Text that does not continue a number: not a digit, [.], [e] or [E]. *)
Definition follow_ok (rest : string) : bool :=
  match rest with
  | EmptyString => true
  | String c _ =>
      negb (is_digit c || (c =? ".")%char || (c =? "e")%char || (c =? "E")%char)
  end.

(** The characters a serialized value can start with *)
Definition value_heads : list ascii :=
  [dquote; "{"; "["; "n"; "t"; "f"; "-";
   "0"; "1"; "2"; "3"; "4"; "5"; "6"; "7"; "8"; "9"]%char.

Definition elems_size (l : list value) : nat :=
  fold_right (fun x n => S (vsize x + n)) 0 l.

Definition members_size (d : dict) : nat :=
  fold_right (fun kv n => S (vsize (snd kv) + n)) 0 d.

Definition json_member (kv : string * value) : string :=
  json_string (fst kv) ++ ":" ++ json_dumps (snd kv).

(** What [scan_once] returns on the serialization of [v] followed by
    [rest], given enough fuel. *)
Definition reads_back (v : value) : Prop :=
  wf v = true ->
  forall fuel rest,
    vsize v <= fuel -> follow_ok rest = true ->
    scan_once fuel (json_dumps v ++ rest) = Ok (v, rest).

(** An outcome that, when it is a value, satisfies [P] *)
Definition out_sat {A : Type} (P : A -> Prop) (m : outcome A) : Prop :=
  forall a, m = Ok a -> P a.

Definition wfv (v : value) : Prop := wf v = true.

Definition wfd (d : dict) : Prop := wf (VDict d) = true.

(** The [host] of the VMess record, read off the stream settings: the
    Host header of a tcp http header, the websocket host, the QUIC
    security, the xhttp or http host; the first element when it is a
    list, and no field at all when it is empty. *)
Definition vmess_expected_host (stream : dict) (net : string) : option value :=
  let present h := if truthy h then Some h else None in
  let first h := if is_list h then _arr_first h else h in
  if net =? "tcp" then
    let tcp := as_dict (dict_get stream "tcpSettings") in
    if eq_str (dict_get (as_dict (dict_get tcp "header")) "type") "http" then
      present
        (first
           (dict_get (as_dict (dict_get (as_dict (dict_get tcp "request")) "headers")) "Host"))
    else None
  else if net =? "ws" then
    let ws := as_dict (dict_get stream "wsSettings") in
    present (por (dict_get ws "host") (dict_get (as_dict (dict_get ws "headers")) "Host"))
  else if net =? "quic" then
    Some (por (dict_get (as_dict (dict_get stream "quicSettings")) "security") (VStr "none"))
  else if mem_str net ["http"; "xhttp"] then
    present
      (first
         (por (dict_get (as_dict (dict_get stream "xhttpSettings")) "host")
            (dict_get (as_dict (dict_get stream "httpSettings")) "host")))
  else None.

(** The [tls] of the VMess record for a resolved security *)
Definition vmess_tls (sec : string) : string :=
  if sec =? "tls" then "tls" else if sec =? "reality" then "reality" else "none".

(** A VMess inbound over websocket with TLS. *)
Definition vmess_inbound : dict :=
  [("protocol", VStr "vmess");
   ("port", VInt 8443);
   ("remark", VStr "edge");
   ("stream_settings",
    VDict
      [("network", VStr "ws");
       ("security", VStr "tls");
       ("wsSettings",
        VDict [("path", VStr "/ws"); ("headers", VDict [("Host", VStr "cdn.example")])]);
       ("tlsSettings",
        VDict [("serverName", VStr "sni.example"); ("alpn", VList [VStr "h2"]);
               ("allowInsecure", VBool true)])])].

(** ** The host chain in the spec's words (§4.4)

    The levels as the settings hold them, read off the stream settings
    and the inbound settings themselves, highest precedence first. *)

(** (1) the destination of the first entry of the [externalProxy] list *)
Definition proxy_dest_level (stream : dict) : value :=
  match dict_get stream "externalProxy" with
  | VList (VDict entry :: _) => dict_get entry "dest"
  | _ => VNone
  end.

(** (2) the TLS server name *)
Definition tls_name_level (stream : dict) : value :=
  dict_get (as_dict (dict_get stream "tlsSettings")) "serverName".

(** (3) the websocket host: the configured host, else the [Host] header *)
Definition ws_host_level (stream : dict) : value :=
  let ws := as_dict (dict_get stream "wsSettings") in
  por (dict_get ws "host") (dict_get (as_dict (dict_get ws "headers")) "Host").

(** (1) to (6); (4) to (6) are the inbound-level [domain], [host] and
    [address]. *)
Definition spec_host_levels (stream settings : dict) : list value :=
  [ proxy_dest_level stream;
    tls_name_level stream;
    ws_host_level stream;
    dict_get settings "domain";
    dict_get settings "host";
    dict_get settings "address" ].

(** First non-empty wins; (7) the fallback when every level is empty. *)
Fixpoint first_truthy (levels : list value) (fallback : value) : value :=
  match levels with
  | [] => fallback
  | v :: rest => if truthy v then v else first_truthy rest fallback
  end.

Definition all_empty (levels : list value) : Prop :=
  Forall (fun v => truthy v = false) levels.

(** Stream settings behind an external proxy, with every level of the
    chain filled in; and the same without the proxy. *)
Definition proxied_stream : dict :=
  [("network", VStr "ws");
   ("security", VStr "tls");
   ("externalProxy",
    VList [VDict [("dest", VStr "edge.example"); ("port", VInt 443)];
           VDict [("dest", VStr "second.example"); ("port", VInt 443)]]);
   ("tlsSettings", VDict [("serverName", VStr "sni.example")]);
   ("wsSettings", VDict [("headers", VDict [("Host", VStr "ws.example")])])].

Definition unproxied_stream : dict :=
  [("network", VStr "ws");
   ("externalProxy", VList []);
   ("tlsSettings", VDict [("serverName", VStr EmptyString)]);
   ("wsSettings", VDict [("headers", VDict [("Host", VStr "ws.example")])])].

Definition inbound_level_fields : dict :=
  [("domain", VStr "domain.example");
   ("host", VStr "host.example");
   ("address", VStr "203.0.113.7")].

(** ** The dispatcher: [build_best] and [build_links] *)





Section Dispatch.

Variable FALLBACK_DOMAIN : string.

(** The optional [qrcode] module: [None] when its import failed.  When it
    is there, the function stands for what [QRCode(border=1)], [add_data],
    [make(fit=True)], [make_image] and [save(buf, format="PNG")] leave in
    [buf] for a text: the bytes of the picture, or the exception raised on
    the way. *)
Variable qrcode : option (value -> outcome string).





End Dispatch.











(** ** Reading a query string back

    Percent-decoding as a URL parser does it: [%XX] is the byte [XX],
    [+] is a space when the text is form-encoded, the bytes are UTF-8. *)








(** [str.lower] restricted to ASCII: what is left of the case folding of
    the xhttp path once the link is decoded. *)
Definition ascii_lower_char (c : ascii) : ascii :=
  if (nat_of_ascii c <? 128)%nat then lower_char c else c.

Definition ascii_lower (s : string) : string :=
  str_map (fun c => str1 (ascii_lower_char c)) s.

(** An xhttp inbound whose path has capitals. *)
Definition xhttp_capitals_inbound : dict :=
  [("protocol", VStr "vless");
   ("port", VInt 443);
   ("stream_settings",
    VDict
      [("network", VStr "xhttp");
       ("xhttpSettings", VDict [("path", VStr "/API/v1 x"); ("host", VStr "h.example")])])].



(** ** [app.py]: the strict JSON reader of the usage route *)


(** * Theorems *)

(** ** Outcomes *)

Lemma bind_Ok {A B : Type} (m : outcome A) (k : A -> outcome B) (b : B) :
  bind m k = Ok b -> exists a, m = Ok a /\ k a = Ok b.
Proof.
  destruct m as [a| |]; simpl; intros H; try discriminate.
  exists a; split; [reflexivity | exact H].
Qed.

Lemma or_else_Ok (a b : outcome value) (v : value) :
  a orelse b = Ok v ->
  (a = Ok v /\ truthy v = true) \/
  (exists w, a = Ok w /\ truthy w = false /\ b = Ok v).
Proof.
  unfold or_else. intros H. apply bind_Ok in H. destruct H as (w & Ha & Hw).
  destruct (truthy w) eqn:T.
  - left. inversion Hw; subst. split; assumption.
  - right. exists w. repeat split; assumption.
Qed.

Lemma or_else_pure (a b : value) : Ok a orelse Ok b = Ok (por a b).
Proof. unfold or_else, por; simpl. destruct (truthy a); reflexivity. Qed.

Lemma or_else_truthy (v : value) (b : outcome value) :
  truthy v = true -> Ok v orelse b = Ok v.
Proof. intros T. unfold or_else; simpl. rewrite T. reflexivity. Qed.

Lemma or_else_falsy (v : value) (b : outcome value) :
  truthy v = false -> Ok v orelse b = b.
Proof. intros T. unfold or_else; simpl. rewrite T. reflexivity. Qed.

(** ** Text *)

Lemma count_char_app (c : ascii) (s t : string) :
  count_char c (s ++ t) = count_char c s + count_char c t.
Proof.
  induction s as [|a s IH]; simpl; [reflexivity |].
  rewrite IH. lia.
Qed.

(** ** The VLESS scenario *)

(** C1 (counterexample): with the default fallback domain the scenario
    yields a link on [localhost] whose path is [/], written as it is; the
    link of the spec is not produced under any fallback domain. *)
Lemma scenario_link_differs :
  build_vless "localhost" scenario_client scenario_inbound
    = Ok "vless://abc-123@localhost:443?type=tcp&security=none&encryption=none&path=/&host=example.com&headerType=http#u1"
  /\ (forall fb, build_vless fb scenario_client scenario_inbound <> Ok scenario_link_in_spec).
Proof.
  split; [reflexivity |].
  intros fb H.
  assert (E : build_vless fb scenario_client scenario_inbound
              = Ok ("vless://abc-123@" ++ fb
                      ++ ":443?type=tcp&security=none&encryption=none&path=/&host=example.com&headerType=http#u1"))
    by reflexivity.
  rewrite E in H. inversion H as [H1].
  apply (f_equal (count_char "/")) in H1.
  rewrite !count_char_app in H1. simpl in H1. lia.
Qed.

(** C1 (amended): the scenario yields the link below, on the host the
    fallback domain gives (no level of the host chain is configured), with
    the path [/] left as it is by [quote]. *)
Theorem build_vless_scenario (fb : string) :
  build_vless fb scenario_client scenario_inbound
    = Ok ("vless://abc-123@" ++ fb
            ++ ":443?type=tcp&security=none&encryption=none&path=/&host=example.com&headerType=http#u1").
Proof. reflexivity. Qed.

(** ** Host resolver *)

Lemma first_nonempty_selects (pre post : list (outcome value)) (v fallback : value) :
  Forall empty_level pre -> truthy v = true ->
  first_nonempty (pre ++ Ok v :: post)%list fallback = Ok v.
Proof.
  intros Hpre Hv. induction Hpre as [|c pre (w & -> & Hw) _ IH]; simpl.
  - rewrite Hv. reflexivity.
  - rewrite Hw. exact IH.
Qed.

Lemma first_nonempty_fallback (levels : list (outcome value)) (fallback : value) :
  Forall empty_level levels -> first_nonempty levels fallback = Ok fallback.
Proof.
  intros H. induction H as [|c l (w & -> & Hw) _ IH]; simpl.
  - reflexivity.
  - rewrite Hw. exact IH.
Qed.

Lemma server_host_chain (fb : string) (stream settings : value) :
  _server_host fb stream settings
  = first_nonempty (host_levels stream settings) (VStr fb).
Proof.
  unfold _server_host, host_levels, first_nonempty, or_else, bind.
  repeat match goal with
         | |- context [match ?c with Ok _ => _ | Raise _ => _ | Beyond => _ end] =>
             destruct c; try reflexivity
         | |- context [if truthy ?v then _ else _] =>
             destruct (truthy v); try reflexivity
         end.
Qed.

(** With an external proxy in front, its destination wins over all of them. *)
Example server_host_external_proxy :
  _server_host "localhost"
    (VDict [("externalProxy", VList [VDict [("dest", VStr "edge.example"); ("port", VInt 443)]]);
            ("tlsSettings", VDict [("serverName", VStr "sni.example")]);
            ("wsSettings", VDict [("host", VStr "ws.example")])])
    layered_settings
  = Ok (VStr "edge.example").
Proof. reflexivity. Qed.

Example server_host_fallback :
  _server_host "localhost" (VDict []) (VDict []) = Ok (VStr "localhost").
Proof. reflexivity. Qed.

(** ** Security resolver: [allowInsecure] *)

(** C9: a top-level [allowInsecure: false] is lost.  [False or nested]
    moves on to the nested flag, so with nothing nested the field is
    omitted although it is present, and a nested [true] overrides the
    top-level [false]; the [is not None] test that follows was meant to
    keep a false flag as ["0"], as it does for a nested one. *)
Theorem gather_tls_top_level_false :
  _gather_tls_params
    (VDict [("security", VStr "tls");
            ("tlsSettings", VDict [("allowInsecure", VBool false)])])
  = Ok []
  /\ _gather_tls_params
       (VDict [("security", VStr "tls");
               ("tlsSettings",
                VDict [("allowInsecure", VBool false);
                       ("settings", VDict [("allowInsecure", VBool true)])])])
     = Ok [("allowInsecure", VStr "1")]
  /\ _gather_tls_params
       (VDict [("security", VStr "tls");
               ("tlsSettings",
                VDict [("settings", VDict [("allowInsecure", VBool false)])])])
     = Ok [("allowInsecure", VStr "0")].
Proof. repeat split; reflexivity. Qed.

Lemma gather_tls_allow_insecure (stream tls out : dict) :
  dict_get stream "tlsSettings" = VDict tls ->
  dict_or_falsy (dict_get tls "settings") = true ->
  _gather_tls_params (VDict stream) = Ok out ->
  lookup out "allowInsecure"
  = match allow_insecure_flag tls with
    | VNone => None
    | a => Some (VStr (_norm a))
    end.
Proof.
  intros Ht Hs H. unfold _gather_tls_params, _tls_settings, sub_settings in H.
  simpl get in H. rewrite Ht in H.
  assert (E : Ok (VDict tls) orelse Ok (VDict []) = Ok (VDict tls)).
  { rewrite or_else_pure. destruct tls; reflexivity. }
  rewrite E in H. cbn [bind get] in H.
  apply bind_Ok in H. destruct H as (fp & _ & H).
  assert (A : (Ok (dict_get tls "allowInsecure")
                 orelse (st <- (Ok (dict_get tls "settings") orelse Ok (VDict [])) ;;
                         get st "allowInsecure"))
              = Ok (allow_insecure_flag tls)).
  { unfold allow_insecure_flag, por, or_else at 1. cbn [bind].
    destruct (truthy (dict_get tls "allowInsecure")); [reflexivity |].
    rewrite or_else_pure. unfold por, dict_or_falsy in *.
    destruct (dict_get tls "settings") as [| | | |l|d]; simpl in *;
      try discriminate; try reflexivity.
    - destruct b; [discriminate | reflexivity].
    - destruct (z =? 0)%Z; [reflexivity | discriminate].
    - destruct s; [reflexivity | discriminate].
    - destruct l; [reflexivity | discriminate].
    - destruct d; reflexivity. }
  rewrite A in H. cbn [bind] in H.
  set (o3 := match dict_get tls "alpn" with
             | VList ((_ :: _) as l) => _
             | VStr ((String _ _) as s) => _
             | _ => _
             end) in H.
  assert (N : lookup o3 "allowInsecure" = None).
  { subst o3.
    destruct (truthy (dict_get tls "serverName")), (truthy fp);
      destruct (dict_get tls "alpn") as [| | |[|? ?]|[|? ?]|]; reflexivity. }
  clearbody o3.
  assert (S : forall o v, lookup o "allowInsecure" = None ->
                          lookup (dict_set o "allowInsecure" v) "allowInsecure" = Some v).
  { clear. induction o as [|[k x] o IH]; simpl; intros v Hn; [reflexivity |].
    destruct (k =? "allowInsecure") eqn:K; [discriminate |].
    simpl. rewrite K. apply IH. exact Hn. }
  destruct (allow_insecure_flag tls); inversion H; subst;
    first [exact N | apply S; exact N].
Qed.

(** ** Lenient config parser *)

(** C6: a string that is valid JSON but not an object comes back as the
    decoded list or scalar, not as a mapping, against the declared return
    type [Dict[str, Any]]. *)
Theorem jload_json_array :
  _jload (VStr "[1]") = Ok (VList [VInt 1])
  /\ _jload (VStr "5") = Ok (VInt 5)
  /\ _jload (VStr "['a']") = Ok (VList [VStr "a"]).
Proof. repeat split; reflexivity. Qed.




(** A non-empty string: strict decoding, then decoding with the single
    quotes replaced, then the empty mapping. *)
Lemma jload_str (s : string) :
  s <> EmptyString ->
  _jload (VStr s)
  = try_except (json_loads s)
      (try_except (json_loads (replace_char squote dquote s)) (Ok (VDict []))).
Proof. intros H. destruct s; [contradiction | reflexivity]. Qed.

(** ** Key order of the query string *)

(** C2 (counterexample): the xhttp branch of [build_vless] writes its
    keys as the dict literal has them, [security] before [type], and
    [build_trojan] writes [params] as populated, [type] and [path] before
    [security]; neither is the declared order. *)
Lemma query_keys_out_of_declared_order :
  build_vless "localhost" sample_client xhttp_inbound
    = Ok "vless://abc-123@localhost:443/?security=none&encryption=&headerType=&type=xhttp&host=h.example&path=%2Fa%252520b#u1"
  /\ query_keys "vless://abc-123@localhost:443/?security=none&encryption=&headerType=&type=xhttp&host=h.example&path=%2Fa%252520b#u1"
     = ["security"; "encryption"; "headerType"; "type"; "host"; "path"]
  /\ in_order ["security"; "encryption"; "headerType"; "type"; "host"; "path"] vless_ordered
     = false
  /\ build_trojan "localhost" sample_client tls_inbound
     = Ok "trojan://pw@sni.example:443?type=tcp&path=/&security=tls&sni=sni.example#u1"
  /\ query_keys "trojan://pw@sni.example:443?type=tcp&path=/&security=tls&sni=sni.example#u1"
     = ["type"; "path"; "security"; "sni"]
  /\ in_order ["type"; "path"; "security"; "sni"] trojan_ordered = false.
Proof. repeat split; reflexivity. Qed.

(** *** Dictionaries *)

Lemma dict_mem_In (d : dict) (k : string) :
  dict_mem d k = true <-> In k (map fst d).
Proof.
  unfold dict_mem. induction d as [|[k' v'] d IH]; simpl.
  - split; [discriminate | contradiction].
  - destruct (k' =? k) eqn:E.
    + apply String.eqb_eq in E. split; [intros _; left; exact E | reflexivity].
    + apply String.eqb_neq in E. rewrite IH. split; [intros H; right; exact H |].
      intros [H | H]; [contradiction | exact H].
Qed.

Lemma keys_dict_set (d : dict) (k : string) (v : value) :
  map fst (dict_set d k v)
  = if dict_mem d k then map fst d else (map fst d ++ [k])%list.
Proof.
  unfold dict_mem. induction d as [|[k' v'] d IH]; simpl; [reflexivity |].
  destruct (k' =? k) eqn:E; simpl.
  - reflexivity.
  - rewrite IH. destruct (lookup d k); reflexivity.
Qed.

Lemma lookup_dict_set_same (d : dict) (k : string) (v : value) :
  lookup (dict_set d k v) k = Some v.
Proof.
  induction d as [|[k' v'] d IH]; simpl.
  - rewrite String.eqb_refl. reflexivity.
  - destruct (k' =? k) eqn:E; simpl; rewrite E; [reflexivity | exact IH].
Qed.

Lemma lookup_dict_set_other (d : dict) (k k' : string) (v : value) :
  k <> k' -> lookup (dict_set d k v) k' = lookup d k'.
Proof.
  intros N. induction d as [|[k0 v0] d IH]; simpl.
  - apply String.eqb_neq in N. rewrite N. reflexivity.
  - destruct (k0 =? k) eqn:E; simpl.
    + apply String.eqb_eq in E. subst k0.
      apply String.eqb_neq in N. rewrite N. reflexivity.
    + rewrite IH. reflexivity.
Qed.

Lemma dict_mem_set (d : dict) (k k' : string) (v : value) :
  dict_mem (dict_set d k v) k' = (k =? k') || dict_mem d k'.
Proof.
  unfold dict_mem. destruct (k =? k') eqn:E.
  - apply String.eqb_eq in E. subst. rewrite lookup_dict_set_same. reflexivity.
  - apply String.eqb_neq in E. rewrite (lookup_dict_set_other _ _ _ _ E). reflexivity.
Qed.

Lemma NoDup_dict_set (d : dict) (k : string) (v : value) :
  NoDup (map fst d) -> NoDup (map fst (dict_set d k v)).
Proof.
  intros H. rewrite keys_dict_set. destruct (dict_mem d k) eqn:M; [exact H |].
  apply NoDup_app; [exact H | repeat constructor; intros [] | ].
  intros x Hx [<- | []]. apply dict_mem_In in Hx. congruence.
Qed.

Lemma keys_dict_remove (d : dict) (k : string) :
  NoDup (map fst d) ->
  map fst (dict_remove d k) = filter (fun x => negb (x =? k)) (map fst d).
Proof.
  induction d as [|[k' v'] d IH]; simpl; intros H; [reflexivity |].
  inversion H as [|? ? Hn Hd]; subst.
  destruct (k' =? k) eqn:E; simpl.
  - apply String.eqb_eq in E. subst k'.
    symmetry. apply forallb_filter_id. apply forallb_forall.
    intros x Hx. destruct (x =? k) eqn:X; [| reflexivity].
    apply String.eqb_eq in X. subst. contradiction.
  - rewrite IH by exact Hd. reflexivity.
Qed.

Lemma NoDup_dict_remove (d : dict) (k : string) :
  NoDup (map fst d) -> NoDup (map fst (dict_remove d k)).
Proof.
  intros H. rewrite keys_dict_remove by exact H. apply NoDup_filter. exact H.
Qed.

Lemma lookup_None_notin (d : dict) (k : string) :
  lookup d k = None -> ~ In k (map fst d).
Proof.
  intros H I. apply dict_mem_In in I. unfold dict_mem in I. rewrite H in I. discriminate.
Qed.

(** *** Subsequences *)

Lemma in_order_nil (l : list string) : in_order l [] = true -> l = [].
Proof. destruct l; [reflexivity | discriminate]. Qed.

Lemma in_order_tail_skip (os : list string) :
  (forall k l, in_order (k :: l) os = true -> in_order l os = true)
  /\ (forall o l, in_order l os = true -> in_order l (o :: os) = true).
Proof.
  induction os as [|o' os [IHt IHs]].
  - split; [discriminate |].
    intros o l H. apply in_order_nil in H. subst. reflexivity.
  - assert (T : forall k l, in_order (k :: l) (o' :: os) = true ->
                            in_order l (o' :: os) = true).
    { intros k l H. simpl in H. destruct (k =? o').
      - apply IHs. exact H.
      - apply IHs. apply (IHt k). exact H. }
    split; [exact T |].
    intros o [|k l] H; [reflexivity |].
    change (in_order (k :: l) (o :: o' :: os))
      with (if k =? o then in_order l (o' :: os) else in_order (k :: l) (o' :: os)).
    destruct (k =? o); [apply (T k); exact H | exact H].
Qed.

Lemma in_order_tail (k : string) (l os : list string) :
  in_order (k :: l) os = true -> in_order l os = true.
Proof. apply in_order_tail_skip. Qed.

Lemma in_order_skip (o : string) (l os : list string) :
  in_order l os = true -> in_order l (o :: os) = true.
Proof. apply in_order_tail_skip. Qed.

Lemma in_order_filter (f : string -> bool) (os l : list string) :
  in_order l os = true -> in_order (filter f l) os = true.
Proof.
  revert l. induction os as [|o os IH]; intros l H.
  - apply in_order_nil in H. subst. reflexivity.
  - destruct l as [|k l]; [reflexivity |].
    simpl in H. destruct (k =? o) eqn:E.
    + simpl filter. destruct (f k).
      * simpl. rewrite E. apply IH. exact H.
      * apply in_order_skip. apply IH. exact H.
    + apply in_order_skip. apply IH. exact H.
Qed.

(** Filtering pairs keeps the order of their keys. *)
Lemma in_order_filter_pairs (f : string * value -> bool) (os : list string)
    (kv : list (string * value)) :
  in_order (map fst kv) os = true -> in_order (map fst (filter f kv)) os = true.
Proof.
  revert kv. induction os as [|o os IH]; intros kv H.
  - apply in_order_nil in H. destruct kv; [reflexivity | discriminate].
  - destruct kv as [|[k v] kv]; [reflexivity |].
    simpl in H. destruct (k =? o) eqn:E.
    + simpl filter. destruct (f (k, v)).
      * simpl. rewrite E. apply IH. exact H.
      * apply in_order_skip. apply IH. exact H.
    + apply in_order_skip. apply (IH ((k, v) :: kv)). exact H.
Qed.

(** *** [pop_ordered] *)

Lemma undeclared_cons_hit (k : string) (ks keys : list string) :
  undeclared (k :: ks) keys = undeclared ks (filter (fun x => negb (x =? k)) keys).
Proof.
  unfold undeclared. induction keys as [|x keys IH]; simpl in *; [reflexivity |].
  destruct (x =? k); simpl; [exact IH |].
  destruct (mem_str x ks); simpl; [exact IH | rewrite IH; reflexivity].
Qed.

Lemma undeclared_cons_miss (k : string) (ks keys : list string) :
  ~ In k keys -> undeclared (k :: ks) keys = undeclared ks keys.
Proof.
  intros N. rewrite undeclared_cons_hit. f_equal.
  apply forallb_filter_id. apply forallb_forall.
  intros x Hx. destruct (x =? k) eqn:E; [| reflexivity].
  apply String.eqb_eq in E. subst. contradiction.
Qed.

Lemma pop_ordered_keys (ordered : list string) (d : dict) :
  NoDup (map fst d) ->
  in_order (map fst (fst (pop_ordered ordered d))) ordered = true
  /\ map fst (snd (pop_ordered ordered d)) = undeclared ordered (map fst d).
Proof.
  revert d. induction ordered as [|k ks IH]; intros d H; simpl.
  - split; [reflexivity |]. unfold undeclared. simpl.
    symmetry. apply forallb_filter_id. apply forallb_forall. reflexivity.
  - destruct (lookup d k) as [v|] eqn:L.
    + destruct (IH (dict_remove d k) (NoDup_dict_remove d k H)) as [I1 I2].
      destruct (pop_ordered ks (dict_remove d k)) as [kv tmp]. simpl in *.
      rewrite String.eqb_refl. split; [exact I1 |].
      rewrite I2, keys_dict_remove by exact H.
      symmetry. apply undeclared_cons_hit.
    + destruct (IH d H) as [I1 I2]. split.
      * apply in_order_skip. exact I1.
      * rewrite I2. symmetry. apply undeclared_cons_miss.
        apply lookup_None_notin. exact L.
Qed.

(** *** What the blocks do to [params] *)

Ltac binds H :=
  repeat match type of H with
         | bind _ _ = Ok _ =>
             let x := fresh "x" in
             apply bind_Ok in H; destruct H as (x & _ & H); cbv beta zeta in H
         end.

Ltac ext_tac :=
  repeat first
    [ apply ext_refl
    | match goal with
      | |- extends _ _ (if ?b then _ else _) => destruct b
      | |- extends _ _ (dict_set _ _ _) => apply ext_set; [| simpl; tauto]
      end ].

Lemma extends_weaken (a a' : list string) (d d' : dict) :
  incl a a' -> extends a d d' -> extends a' d d'.
Proof.
  intros I H. induction H as [|d' k v _ IH Hk]; [apply ext_refl |].
  apply ext_set; [exact IH | apply I; exact Hk].
Qed.

Lemma extends_trans (a : list string) (d1 d2 d3 : dict) :
  extends a d1 d2 -> extends a d2 d3 -> extends a d1 d3.
Proof.
  intros H1 H2. induction H2 as [|d' k v _ IH Hk]; [exact H1 |].
  apply ext_set; assumption.
Qed.

Lemma extends_update (a : list string) (d t : dict) :
  Forall (fun k => In k a) (map fst t) -> extends a d (dict_update d t).
Proof.
  unfold dict_update. intros H.
  assert (G : forall d0, extends a d d0 ->
                extends a d (fold_left (fun acc kv => dict_set acc (fst kv) (snd kv)) t d0)).
  { induction t as [|[k v] t IH]; intros d0 H0; simpl; [exact H0 |].
    inversion H; subst. apply IH; [assumption |]. apply ext_set; assumption. }
  apply G. apply ext_refl.
Qed.

Lemma extends_lookup (a : list string) (d d' : dict) (k : string) :
  extends a d d' -> ~ In k a -> lookup d' k = lookup d k.
Proof.
  intros H N. induction H as [|d' k' v _ IH Hk]; [reflexivity |].
  rewrite lookup_dict_set_other; [exact IH |].
  intros ->. contradiction.
Qed.

Lemma extends_NoDup (a : list string) (d d' : dict) :
  extends a d d' -> NoDup (map fst d) -> NoDup (map fst d').
Proof.
  intros H N. induction H; [exact N |]. apply NoDup_dict_set. assumption.
Qed.

(** An assignment to another key leaves the first entry where it is. *)
Lemma extends_head (a : list string) (k0 : string) (v0 : value) (r d' : dict) :
  extends a ((k0, v0) :: r) d' -> ~ In k0 a -> exists r', d' = (k0, v0) :: r'.
Proof.
  intros H N. induction H as [|d' k v _ IH Hk]; [exists r; reflexivity |].
  destruct IH as (r' & ->). simpl.
  destruct (k0 =? k) eqn:E.
  - apply String.eqb_eq in E. subst. contradiction.
  - eexists. reflexivity.
Qed.

Lemma undeclared_app (o a b : list string) :
  undeclared o (a ++ b) = (undeclared o a ++ undeclared o b)%list.
Proof. apply filter_app. Qed.

Lemma undeclared_set (o : list string) (d : dict) (k : string) (v : value) :
  undeclared o (map fst (dict_set d k v))
  = if mem_str k o || dict_mem d k then undeclared o (map fst d)
    else (undeclared o (map fst d) ++ [k])%list.
Proof.
  rewrite keys_dict_set. destruct (dict_mem d k).
  - rewrite orb_true_r. reflexivity.
  - rewrite orb_false_r, undeclared_app. unfold undeclared at 2. simpl.
    destruct (mem_str k o); simpl; [apply app_nil_r | reflexivity].
Qed.

Lemma mem_str_In (k : string) (l : list string) : mem_str k l = true <-> In k l.
Proof.
  induction l as [|x l IH]; simpl; [split; [discriminate | contradiction] |].
  rewrite orb_true_iff, IH, String.eqb_eq. split; intros [H | H]; auto.
Qed.

Lemma extends_declared_only (a : list string) (d d' : dict) :
  incl a vless_ordered -> extends a d d' -> declared_only d -> declared_only d'.
Proof.
  intros I H [N U]. split; [eapply extends_NoDup; eassumption |].
  induction H as [|d' k v _ IH Hk]; [exact U |].
  rewrite undeclared_set.
  assert (M : mem_str k vless_ordered = true) by (apply mem_str_In, I, Hk).
  rewrite M. exact IH.
Qed.

Lemma extends_reality_only (a : list string) (d d' : dict) :
  incl a vless_ordered -> extends a d d' -> reality_only d -> reality_only d'.
Proof.
  intros I H [N U]. split; [eapply extends_NoDup; eassumption |].
  induction H as [|d' k v _ IH Hk]; [exact U |].
  rewrite undeclared_set.
  assert (M : mem_str k vless_ordered = true) by (apply mem_str_In, I, Hk).
  rewrite M. exact IH.
Qed.

Lemma declared_only_reality_only (d : dict) : declared_only d -> reality_only d.
Proof. intros [N U]. split; [exact N | rewrite U; reflexivity]. Qed.

Lemma declared_only_not_mem (d : dict) (k : string) :
  declared_only d -> mem_str k vless_ordered = false -> dict_mem d k = false.
Proof.
  intros [_ U] M. destruct (dict_mem d k) eqn:E; [| reflexivity].
  apply dict_mem_In in E.
  assert (I : In k (undeclared vless_ordered (map fst d))).
  { apply filter_In. split; [exact E | rewrite M; reflexivity]. }
  rewrite U in I. contradiction.
Qed.

Lemma tcp_block_extends (stream : value) (net : string) (p p' : dict) :
  tcp_block stream net p = Ok p' -> extends ["headerType"] p p'.
Proof.
  unfold tcp_block. intros H. destruct (net =? "tcp").
  - binds H. inversion H; subst. ext_tac.
  - inversion H; subst. apply ext_refl.
Qed.

Lemma grpc_block_extends (stream : value) (net : string) (p p' : dict) :
  grpc_block stream net p = Ok p' -> extends ["mode"; "serviceName"] p p'.
Proof.
  unfold grpc_block. intros H. destruct (net =? "grpc").
  - binds H. inversion H; subst. ext_tac.
  - inversion H; subst. apply ext_refl.
Qed.

Lemma kcp_block_extends (stream : value) (net : string) (p p' : dict) :
  kcp_block stream net p = Ok p' -> extends ["headerType"; "seed"] p p'.
Proof.
  unfold kcp_block. intros H. destruct (net =? "kcp").
  - binds H. inversion H; subst. ext_tac.
  - inversion H; subst. apply ext_refl.
Qed.

Lemma quic_block_extends (stream : value) (net : string) (p p' : dict) :
  quic_block stream net p = Ok p' ->
  extends ["quicSecurity"; "key"; "headerType"] p p'.
Proof.
  unfold quic_block. intros H. destruct (net =? "quic").
  - binds H. inversion H; subst. ext_tac.
  - inversion H; subst. apply ext_refl.
Qed.

Lemma Forall_keys_set (P : string -> Prop) (d : dict) (k : string) (v : value) :
  Forall P (map fst d) -> P k -> Forall P (map fst (dict_set d k v)).
Proof.
  intros H Hk. rewrite keys_dict_set. destruct (dict_mem d k); [exact H |].
  apply Forall_app. split; [exact H | repeat constructor; exact Hk].
Qed.

Ltac keys_tac :=
  repeat first
    [ apply Forall_nil
    | apply Forall_cons; [simpl; tauto |]
    | match goal with
      | |- Forall _ (map fst (_ :: _)) => simpl map
      | |- Forall _ (map fst (if ?b then _ else _)) => destruct b
      | |- Forall _ (map fst (match ?x with _ => _ end)) => destruct x
      | |- Forall _ (map fst (dict_set _ _ _)) =>
          apply Forall_keys_set; [| simpl; tauto]
      end ].

Lemma gather_tls_keys (stream : value) (t : dict) :
  _gather_tls_params stream = Ok t ->
  Forall (fun k => In k ["sni"; "fp"; "alpn"; "allowInsecure"]) (map fst t).
Proof.
  unfold _gather_tls_params. intros H. binds H. inversion H; subst. keys_tac.
Qed.

Lemma gather_reality_keys (stream : value) (r : dict) :
  _gather_reality_params stream = Ok r ->
  Forall (fun k => In k ["pbk"; "sid"; "spx"; "fp"]) (map fst r).
Proof.
  unfold _gather_reality_params. intros H. binds H. inversion H; subst. keys_tac.
Qed.

Lemma security_block_extends (with_none : bool) (stream : value) (sec : string)
    (p p' : dict) :
  security_block with_none stream sec p = Ok p' ->
  extends ["security"; "sni"; "fp"; "alpn"; "allowInsecure"; "pbk"; "sid"; "spx"] p p'.
Proof.
  unfold security_block. intros H. destruct (sec =? "tls"); [| destruct (sec =? "reality")].
  - apply bind_Ok in H. destruct H as (t & Ht & H). inversion H; subst.
    eapply extends_trans; [apply ext_set; [apply ext_refl | simpl; tauto] |].
    apply extends_update. eapply Forall_impl; [| apply (gather_tls_keys _ _ Ht)].
    simpl. tauto.
  - apply bind_Ok in H. destruct H as (r & Hr & H). inversion H; subst.
    eapply extends_trans; [apply ext_set; [apply ext_refl | simpl; tauto] |].
    apply extends_update. eapply Forall_impl; [| apply (gather_reality_keys _ _ Hr)].
    simpl. tauto.
  - inversion H; subst. ext_tac.
Qed.

Lemma incl_by_mem (a o : list string) :
  forallb (fun k => mem_str k o) a = true -> incl a o.
Proof.
  intros H x Hx. rewrite forallb_forall in H. apply mem_str_In. apply H. exact Hx.
Qed.

Lemma security_block_keys (stream : value) (sec : string) (p p' : dict) :
  security_block true stream sec p = Ok p' -> declared_only p -> reality_only p'.
Proof.
  unfold security_block. intros H D.
  destruct (sec =? "tls"); [| destruct (sec =? "reality")].
  - apply bind_Ok in H. destruct H as (t & Ht & H). inversion H; subst.
    apply declared_only_reality_only.
    apply (extends_declared_only ["security"; "sni"; "fp"; "alpn"; "allowInsecure"] p);
      [apply incl_by_mem; reflexivity | | exact D].
    eapply extends_trans; [apply ext_set; [apply ext_refl | simpl; tauto] |].
    apply extends_update. eapply Forall_impl; [| apply (gather_tls_keys _ _ Ht)].
    simpl. tauto.
  - apply bind_Ok in H. destruct H as (r & Hr & H). inversion H; subst. clear H.
    pose proof (declared_only_not_mem p "pbk" D eq_refl) as M1.
    pose proof (declared_only_not_mem p "sid" D eq_refl) as M2.
    pose proof (declared_only_not_mem p "spx" D eq_refl) as M3.
    destruct D as [N U].
    unfold _gather_reality_params in Hr. binds Hr.
    assert (G : forall v1 v2 v3 v4 vs (b1 b2 b3 b4 : bool),
               reality_only
                 (dict_update (dict_set p "security" vs)
                    (let o := if b1 then dict_set [] "pbk" v1 else [] in
                     let o := if b2 then dict_set o "sid" v2 else o in
                     let o := if b3 then dict_set o "spx" v3 else o in
                     if b4 then dict_set o "fp" v4 else o))).
    { intros v1 v2 v3 v4 vs b1 b2 b3 b4.
      destruct b1, b2, b3, b4; cbv zeta; unfold dict_update; simpl fold_left;
        (split; [repeat apply NoDup_dict_set; exact N |]);
        repeat (rewrite undeclared_set || rewrite dict_mem_set);
        simpl; rewrite ?M1, ?M2, ?M3, ?U; reflexivity. }
    injection Hr as <-. apply G.
  - inversion H; subst. apply declared_only_reality_only.
    apply (extends_declared_only ["security"] p);
      [apply incl_by_mem; reflexivity | ext_tac | exact D].
Qed.

Lemma vless_params_keys (client : dict) (stream settings : value) (net sec : string)
    (params : dict) :
  vless_params client stream settings net sec = Ok params -> reality_only params.
Proof.
  unfold vless_params. intros H.
  apply bind_Ok in H. destruct H as (path & _ & H). cbv zeta in H.
  apply bind_Ok in H. destruct H as (nh & _ & H).
  apply bind_Ok in H. destruct H as (p1 & H1 & H). apply tcp_block_extends in H1.
  apply bind_Ok in H. destruct H as (p2 & H2 & H). apply grpc_block_extends in H2.
  apply bind_Ok in H. destruct H as (p3 & H3 & H). apply kcp_block_extends in H3.
  apply bind_Ok in H. destruct H as (p4 & H4 & H). apply quic_block_extends in H4.
  apply bind_Ok in H. destruct H as (p5 & H5 & H).
  apply bind_Ok in H. destruct H as (flow & _ & H).
  assert (D0 : declared_only [("type", VStr net); ("encryption", VStr "none"); ("path", path)]).
  { split; [| reflexivity]. simpl.
    repeat constructor; simpl; intuition discriminate. }
  assert (D4 : declared_only p4).
  { eapply extends_declared_only; [| exact H4 |]; [apply incl_by_mem; reflexivity |].
    eapply extends_declared_only; [| exact H3 |]; [apply incl_by_mem; reflexivity |].
    eapply extends_declared_only; [| exact H2 |]; [apply incl_by_mem; reflexivity |].
    eapply extends_declared_only; [| exact H1 |]; [apply incl_by_mem; reflexivity |].
    eapply (extends_declared_only ["host"]); [apply incl_by_mem; reflexivity | | exact D0].
    ext_tac. }
  pose proof (security_block_keys _ _ _ _ H5 D4) as R5.
  inversion H; subst.
  eapply (extends_reality_only ["flow"]); [apply incl_by_mem; reflexivity | | exact R5].
  ext_tac.
Qed.

Lemma emitted_app (a b : list (string * value)) :
  emitted (a ++ b) = (emitted a ++ emitted b)%list.
Proof. apply filter_app. Qed.

(** C2 (amended): on every network but xhttp, the query of [build_vless]
    lists the keys of the declared order in that order, then the keys
    Reality adds outside it ([pbk], [sid], [spx]), in that order. *)
Theorem vless_query_key_order (fb : string) (client inbound : dict) (stream : value)
    (net link : string) :
  _jload (raw_stream inbound) = Ok stream ->
  _get_network stream = Ok net ->
  net <> "xhttp" ->
  build_vless fb client inbound = Ok link ->
  exists (host : value) (params : dict) (tag : string) (declared extra : list string),
    link = "vless://" ++ py_str (_client_id client) ++ "@" ++ py_str host ++ ":"
             ++ port_of inbound ++ "?"
             ++ concat "&" (map query_item (emitted (vless_kv params))) ++ "#" ++ tag
    /\ map fst (emitted (vless_kv params)) = (declared ++ extra)%list
    /\ in_order declared vless_ordered = true
    /\ in_order extra reality_extras = true.
Proof.
  intros Hs Hn Hx H. unfold build_vless in H. rewrite Hs in H. cbn [bind] in H.
  apply bind_Ok in H. destruct H as (settings & _ & H).
  rewrite Hn in H. cbn [bind] in H.
  apply bind_Ok in H. destruct H as (sec & _ & H).
  apply bind_Ok in H. destruct H as (host & _ & H). cbv zeta in H.
  apply String.eqb_neq in Hx. rewrite Hx in H.
  apply bind_Ok in H. destruct H as (params & Hp & H).
  apply bind_Ok in H. destruct H as (tag & _ & H).
  injection H as <-.
  apply vless_params_keys in Hp. destruct Hp as [N R].
  destruct (pop_ordered_keys vless_ordered params N) as [O1 O2].
  exists host, params, tag.
  unfold vless_kv, query_join.
  destruct (pop_ordered vless_ordered params) as [kv tmp]. simpl in O1, O2.
  exists (map fst (emitted kv)), (map fst (emitted tmp)).
  split; [reflexivity |]. split; [rewrite emitted_app, map_app; reflexivity |].
  split.
  - apply in_order_filter_pairs. exact O1.
  - apply in_order_filter_pairs. rewrite O2. exact R.
Qed.

Lemma vless_query_key_order_witness :
  exists (host : value) (params : dict) (tag : string) (declared extra : list string),
    "vless://abc-123@localhost:443?type=grpc&security=reality&encryption=none&path=svc&mode=gun&serviceName=svc&fp=chrome&pbk=PK&sid=ab#u1"
    = "vless://" ++ py_str (_client_id sample_client) ++ "@" ++ py_str host ++ ":"
        ++ port_of reality_inbound ++ "?"
        ++ concat "&" (map query_item (emitted (vless_kv params))) ++ "#" ++ tag
    /\ map fst (emitted (vless_kv params)) = (declared ++ extra)%list
    /\ in_order declared vless_ordered = true
    /\ in_order extra reality_extras = true.
Proof.
  apply (vless_query_key_order "localhost" sample_client reality_inbound
           (dict_get reality_inbound "stream_settings") "grpc").
  - reflexivity.
  - reflexivity.
  - discriminate.
  - reflexivity.
Defined.

(** ** Where the path goes *)

Lemma lookup_dict_remove_other (d : dict) (k k' : string) :
  k <> k' -> lookup (dict_remove d k) k' = lookup d k'.
Proof.
  intros N. induction d as [|[k0 v0] d IH]; simpl; [reflexivity |].
  destruct (k0 =? k) eqn:E; simpl.
  - apply String.eqb_eq in E. subst k0.
    apply String.eqb_neq in N. rewrite N. reflexivity.
  - rewrite IH. reflexivity.
Qed.

Lemma lookup_In (d : dict) (k : string) (v : value) :
  lookup d k = Some v -> In (k, v) d.
Proof.
  induction d as [|[k0 v0] d IH]; simpl; [discriminate |].
  destruct (k0 =? k) eqn:E.
  - apply String.eqb_eq in E. subst. intros [= ->]. left. reflexivity.
  - intros H. right. apply IH. exact H.
Qed.

(** A listed key that is present is popped with its value. *)
Lemma pop_ordered_In (ordered : list string) (d : dict) (k : string) (v : value) :
  In k ordered -> lookup d k = Some v -> In (k, v) (fst (pop_ordered ordered d)).
Proof.
  revert d. induction ordered as [|k0 ks IH]; intros d Hk L; [contradiction |].
  simpl. destruct (String.eqb_spec k0 k) as [-> | N].
  - rewrite L. destruct (pop_ordered ks (dict_remove d k)). left. reflexivity.
  - destruct Hk as [-> | Hk]; [contradiction |].
    destruct (lookup d k0) eqn:L0.
    + specialize (IH (dict_remove d k0) Hk).
      rewrite lookup_dict_remove_other in IH by exact N.
      specialize (IH L).
      destruct (pop_ordered ks (dict_remove d k0)). right. exact IH.
    + apply IH; assumption.
Qed.

Lemma vless_kv_In (params : dict) (k : string) (v : value) :
  In k vless_ordered -> lookup params k = Some v -> In (k, v) (vless_kv params).
Proof.
  intros Hk L. unfold vless_kv.
  pose proof (pop_ordered_In vless_ordered params k v Hk L) as H.
  destruct (pop_ordered vless_ordered params). apply in_or_app. left. exact H.
Qed.

(** [params["type"]] and [params["path"]] stay as first assigned. *)
Lemma vless_params_type_path (client : dict) (stream settings : value) (net sec : string)
    (params : dict) :
  vless_params client stream settings net sec = Ok params ->
  exists path,
    _get_network_path stream net = Ok path
    /\ lookup params "type" = Some (VStr net)
    /\ lookup params "path" = Some path.
Proof.
  unfold vless_params. intros H.
  apply bind_Ok in H. destruct H as (path & Hpath & H). cbv zeta in H.
  apply bind_Ok in H. destruct H as (nh & _ & H).
  apply bind_Ok in H. destruct H as (p1 & H1 & H). apply tcp_block_extends in H1.
  apply bind_Ok in H. destruct H as (p2 & H2 & H). apply grpc_block_extends in H2.
  apply bind_Ok in H. destruct H as (p3 & H3 & H). apply kcp_block_extends in H3.
  apply bind_Ok in H. destruct H as (p4 & H4 & H). apply quic_block_extends in H4.
  apply bind_Ok in H. destruct H as (p5 & H5 & H). apply security_block_extends in H5.
  apply bind_Ok in H. destruct H as (flow & _ & H).
  exists path. split; [exact Hpath |].
  assert (E : extends
                ["host"; "headerType"; "mode"; "serviceName"; "seed"; "quicSecurity";
                 "key"; "security"; "sni"; "fp"; "alpn"; "allowInsecure"; "pbk"; "sid";
                 "spx"; "flow"]
                [("type", VStr net); ("encryption", VStr "none"); ("path", path)] params).
  { inversion H; subst.
    apply (extends_trans _ _ p5); [| ext_tac].
    apply (extends_trans _ _ p4);
      [| eapply extends_weaken; [| exact H5]; apply incl_by_mem; reflexivity].
    apply (extends_trans _ _ p3);
      [| eapply extends_weaken; [| exact H4]; apply incl_by_mem; reflexivity].
    apply (extends_trans _ _ p2);
      [| eapply extends_weaken; [| exact H3]; apply incl_by_mem; reflexivity].
    apply (extends_trans _ _ p1);
      [| eapply extends_weaken; [| exact H2]; apply incl_by_mem; reflexivity].
    eapply extends_trans;
      [| eapply extends_weaken; [| exact H1]; apply incl_by_mem; reflexivity].
    ext_tac. }
  split.
  - rewrite (extends_lookup _ _ _ "type" E); [reflexivity |].
    simpl. intuition discriminate.
  - rewrite (extends_lookup _ _ _ "path" E); [reflexivity |].
    simpl. intuition discriminate.
Qed.

(** [build_trojan] keeps [("type", net)] at the head of [params]. *)
Lemma trojan_params_type_path (stream : value) (net sec : string) (params : dict) :
  trojan_params stream net sec = Ok params ->
  exists path rest,
    _get_network_path stream net = Ok path
    /\ params = ("type", VStr net) :: rest
    /\ lookup params "path" = Some path.
Proof.
  unfold trojan_params. intros H.
  apply bind_Ok in H. destruct H as (path & Hpath & H). cbv zeta in H.
  apply bind_Ok in H. destruct H as (nh & _ & H).
  apply bind_Ok in H. destruct H as (p1 & H1 & H). apply grpc_block_extends in H1.
  apply bind_Ok in H. destruct H as (p2 & H2 & H). apply tcp_block_extends in H2.
  apply security_block_extends in H.
  assert (E : extends
                ["host"; "headerType"; "mode"; "serviceName"; "security"; "sni"; "fp";
                 "alpn"; "allowInsecure"; "pbk"; "sid"; "spx"]
                [("type", VStr net); ("path", path)] params).
  { apply (extends_trans _ _ p2);
      [| eapply extends_weaken; [| exact H]; apply incl_by_mem; reflexivity].
    apply (extends_trans _ _ p1);
      [| eapply extends_weaken; [| exact H2]; apply incl_by_mem; reflexivity].
    eapply extends_trans;
      [| eapply extends_weaken; [| exact H1]; apply incl_by_mem; reflexivity].
    ext_tac. }
  destruct (extends_head _ _ _ _ _ E) as (rest & Hr); [simpl; intuition discriminate |].
  exists path, rest. split; [exact Hpath |]. split; [exact Hr |].
  rewrite (extends_lookup _ _ _ "path" E); [reflexivity |].
  simpl. intuition discriminate.
Qed.

Lemma vmess_transport_block_extends (stream : value) (net : string) (vm vm' : dict) :
  vmess_transport_block stream net vm = Ok vm' ->
  extends ["type"; "host"; "servicename"] vm vm'.
Proof.
  unfold vmess_transport_block. intros H.
  repeat match type of H with
         | (if ?b then _ else _) = Ok _ => destruct b
         end;
    binds H;
    repeat match type of H with
           | (if ?b then _ else _) = Ok _ => destruct b; binds H
           end;
    inversion H; subst; ext_tac.
Qed.

Lemma copy_key_extends (src : dict) (k : string) (vm : dict) :
  extends [k] vm (copy_key src k vm).
Proof.
  unfold copy_key. destruct (lookup src k); [| apply ext_refl].
  apply ext_set; [apply ext_refl | left; reflexivity].
Qed.

Lemma copy_truthy_extends (r : dict) (k : string) (vm : dict) :
  extends [k] vm (copy_truthy r k vm).
Proof.
  unfold copy_truthy. destruct (truthy (dict_get r k)); [| apply ext_refl].
  apply ext_set; [apply ext_refl | left; reflexivity].
Qed.

(** The overlays of [build_vmess] never touch [v], [aid], [net], [path] or
    [tls]. *)
Lemma vmess_record_extends (client inbound : dict) (stream host : value) (net sec : string)
    (vm : dict) :
  vmess_record client inbound stream host net sec = Ok vm ->
  exists path,
    _get_network_path stream net = Ok path
    /\ extends
         ["type"; "host"; "servicename"; "sni"; "fp"; "alpn"; "allowInsecure"; "pbk";
          "sid"; "spx"]
         [("v", VStr "2");
          ("ps", tag_source client inbound);
          ("add", host);
          ("port", VStr (port_of inbound));
          ("id", _client_id client);
          ("aid", VInt 0);
          ("net", VStr net);
          ("type", VStr "none");
          ("path", path);
          ("tls", VStr (if sec =? "tls" then "tls"
                        else if sec =? "reality" then "reality" else "none"))]
         vm.
Proof.
  unfold vmess_record. intros H.
  apply bind_Ok in H. destruct H as (path & Hpath & H). cbv zeta in H.
  apply bind_Ok in H. destruct H as (vm1 & H1 & H). apply vmess_transport_block_extends in H1.
  apply bind_Ok in H. destruct H as (t & _ & H).
  exists path. split; [exact Hpath |].
  assert (W : forall k a d d', In k a -> extends [k] d d' -> extends a d d').
  { intros k a d d' Hk. apply extends_weaken. intros x [<- | []]. exact Hk. }
  assert (E4 : extends
                 ["type"; "host"; "servicename"; "sni"; "fp"; "alpn"; "allowInsecure";
                  "pbk"; "sid"; "spx"] vm1
                 (copy_key t "allowInsecure"
                    (copy_key t "alpn" (copy_key t "fp" (copy_key t "sni" vm1))))).
  { repeat (eapply extends_trans;
            [| eapply W; [| apply copy_key_extends]; simpl; tauto]).
    apply ext_refl. }
  eapply extends_trans;
    [eapply extends_weaken; [| exact H1]; apply incl_by_mem; reflexivity |].
  destruct (sec =? "reality").
  - apply bind_Ok in H. destruct H as (r & _ & H). inversion H; subst.
    repeat (eapply extends_trans;
            [| eapply W; [| apply copy_truthy_extends]; simpl; tauto]).
    exact E4.
  - inversion H; subst. exact E4.
Qed.

Lemma first_nonempty_result (levels : list (outcome value)) (f v : value) :
  first_nonempty levels f = Ok v -> truthy v = true \/ v = f.
Proof.
  induction levels as [|c levels IH]; simpl.
  - intros [= ->]. right. reflexivity.
  - destruct c as [w| |]; try discriminate.
    destruct (truthy w) eqn:T; [| exact IH].
    intros [= <-]. left. exact T.
Qed.

Lemma server_host_result (fb : string) (stream settings host : value) :
  _server_host fb stream settings = Ok host -> truthy host = true \/ host = VStr fb.
Proof. rewrite server_host_chain. apply first_nonempty_result. Qed.

(** C8 (counterexample): for the path [/a b] the text after [path=] in
    the link is not the path quoted twice and lower-cased, [/a%2520b]:
    [urlencode] quotes that value once more, slash included. *)
Lemma xhttp_path_quoted_three_times :
  build_vless "localhost" sample_client xhttp_inbound
    = Ok "vless://abc-123@localhost:443/?security=none&encryption=&headerType=&type=xhttp&host=h.example&path=%2Fa%252520b#u1"
  /\ query_value
       "vless://abc-123@localhost:443/?security=none&encryption=&headerType=&type=xhttp&host=h.example&path=%2Fa%252520b#u1"
       "path"
     = Some "%2Fa%252520b"
  /\ lower (quote_str "/" (quote_str "/" "/a b")) = "/a%2520b"
  /\ ("%2Fa%252520b" =? "/a%2520b") = false.
Proof. repeat split; reflexivity. Qed.

(** C8 (amended): in the xhttp branch of [build_vless] the value stored
    under [path] is the path quoted twice and lower-cased, and the link
    carries it quoted once more by [urlencode] (for [/a b]:
    [path=%2Fa%252520b]).  On every other network [build_vless], and on
    every network [build_trojan], carry the transport path under [path]
    quoted once by [query_item]; [build_vmess] stores it unquoted. *)
Theorem path_encoding_by_builder (fb : string) (client inbound : dict) (stream : value)
    (net : string) :
  _jload (raw_stream inbound) = Ok stream ->
  _get_network stream = Ok net ->
  (forall link, build_vless fb client inbound = Ok link ->
     if net =? "xhttp" then
       exists (host nh : value) (p tag : string),
         (_get_network_path stream "xhttp" orelse Ok (VStr "/")) = Ok (VStr p)
         /\ link = "vless://" ++ py_str (_client_id client) ++ "@" ++ py_str host ++ ":"
                     ++ port_of inbound ++ "/?"
                     ++ concat "&"
                          ["security=none"; "encryption="; "headerType="; "type=xhttp";
                           "host=" ++ quote_plus (py_str nh);
                           "path=" ++ quote_plus (lower (quote_str "/" (quote_str "/" p)))]
                     ++ "#" ++ tag
     else
       exists (host path : value) (params : dict) (tag : string),
         _get_network_path stream net = Ok path
         /\ In ("path", path) (vless_kv params)
         /\ link = "vless://" ++ py_str (_client_id client) ++ "@" ++ py_str host ++ ":"
                     ++ port_of inbound ++ "?"
                     ++ concat "&" (map query_item (emitted (vless_kv params)))
                     ++ "#" ++ tag)
  /\ (forall link, build_trojan fb client inbound = Ok link ->
        exists (host path : value) (params : dict) (tag : string),
          _get_network_path stream net = Ok path
          /\ In ("path", path) params
          /\ link = "trojan://"
                      ++ py_str (por (dict_get client "password")
                                   (por (dict_get client "id") (VStr EmptyString)))
                      ++ "@" ++ py_str host ++ ":" ++ port_of inbound ++ "?"
                      ++ concat "&" (map query_item (emitted params)) ++ "#" ++ tag)
  /\ (forall link vm, build_vmess fb client inbound = Ok (link, vm) ->
        exists path, _get_network_path stream net = Ok path /\ lookup vm "path" = Some path).
Proof.
  intros Hs Hn. split; [| split].
  - intros link H. unfold build_vless in H. rewrite Hs in H. cbn [bind] in H.
    apply bind_Ok in H. destruct H as (settings & _ & H).
    rewrite Hn in H. cbn [bind] in H.
    apply bind_Ok in H. destruct H as (sec & _ & H).
    apply bind_Ok in H. destruct H as (host & Hhost & H). cbv zeta in H.
    destruct (net =? "xhttp").
    + apply bind_Ok in H. destruct H as (nh & Hnh & H).
      apply bind_Ok in H. destruct H as (raw & Hraw & H).
      apply bind_Ok in H. destruct H as (de & Hde & H).
      apply bind_Ok in H. destruct H as (tag & _ & H).
      unfold double_encode in Hde.
      destruct raw as [| | |p| |]; try discriminate Hde.
      cbn in Hde. injection Hde as <-.
      assert (Nn : is_none nh = false).
      { apply server_host_result in Hhost.
        apply or_else_Ok in Hnh. destruct Hnh as [[_ T] | (w & _ & _ & E)].
        - destruct nh; [discriminate | reflexivity..].
        - injection E as ->. destruct Hhost as [T | ->]; [| reflexivity].
          destruct nh; [discriminate | reflexivity..]. }
      exists host, nh, p, tag. split; [exact Hraw |].
      injection H as <-. unfold vless_xhttp_query. simpl filter. rewrite Nn. reflexivity.
    + apply bind_Ok in H. destruct H as (params & Hp & H).
      apply bind_Ok in H. destruct H as (tag & _ & H).
      destruct (vless_params_type_path _ _ _ _ _ _ Hp) as (path & Hpath & _ & Lp).
      exists host, path, params, tag. split; [exact Hpath |]. split.
      * apply vless_kv_In; [simpl; tauto | exact Lp].
      * injection H as <-. reflexivity.
  - intros link H. unfold build_trojan in H. rewrite Hs in H. cbn [bind] in H.
    apply bind_Ok in H. destruct H as (settings & _ & H).
    rewrite Hn in H. cbn [bind] in H.
    apply bind_Ok in H. destruct H as (sec & _ & H).
    apply bind_Ok in H. destruct H as (host & _ & H). cbv zeta in H.
    apply bind_Ok in H. destruct H as (params & Hp & H).
    apply bind_Ok in H. destruct H as (tag & _ & H).
    destruct (trojan_params_type_path _ _ _ _ Hp) as (path & rest & Hpath & _ & Lp).
    exists host, path, params, tag. split; [exact Hpath |]. split.
    + apply lookup_In. exact Lp.
    + injection H as <-. reflexivity.
  - intros link vm H. unfold build_vmess in H. rewrite Hs in H. cbn [bind] in H.
    apply bind_Ok in H. destruct H as (settings & _ & H).
    rewrite Hn in H. cbn [bind] in H.
    apply bind_Ok in H. destruct H as (sec & _ & H).
    apply bind_Ok in H. destruct H as (host & _ & H).
    apply bind_Ok in H. destruct H as (vm0 & Hvm & H).
    injection H as _ <-.
    destruct (vmess_record_extends _ _ _ _ _ _ _ Hvm) as (path & Hpath & E).
    exists path. split; [exact Hpath |].
    rewrite (extends_lookup _ _ _ "path" E); [reflexivity |].
    simpl. intuition discriminate.
Qed.

Lemma path_encoding_by_builder_witness :
  exists (host nh : value) (p tag : string),
    (_get_network_path (dict_get xhttp_inbound "stream_settings") "xhttp"
       orelse Ok (VStr "/")) = Ok (VStr p)
    /\ "vless://abc-123@localhost:443/?security=none&encryption=&headerType=&type=xhttp&host=h.example&path=%2Fa%252520b#u1"
       = "vless://" ++ py_str (_client_id sample_client) ++ "@" ++ py_str host ++ ":"
           ++ port_of xhttp_inbound ++ "/?"
           ++ concat "&"
                ["security=none"; "encryption="; "headerType="; "type=xhttp";
                 "host=" ++ quote_plus (py_str nh);
                 "path=" ++ quote_plus (lower (quote_str "/" (quote_str "/" p)))]
           ++ "#" ++ tag.
Proof.
  exact (proj1 (path_encoding_by_builder "localhost" sample_client xhttp_inbound
                  (dict_get xhttp_inbound "stream_settings") "xhttp" eq_refl eq_refl)
           _ eq_refl).
Defined.

(** ** Base64 and UTF-8 round trips *)

Lemma string_ind3 (P : string -> Prop) :
  P EmptyString ->
  (forall a, P (String a EmptyString)) ->
  (forall a b, P (String a (String b EmptyString))) ->
  (forall a b c r, P r -> P (String a (String b (String c r)))) ->
  forall s, P s.
Proof.
  intros H0 H1 H2 H3.
  fix IH 1. intros [|a [|b [|c r]]].
  - exact H0.
  - apply H1.
  - apply H2.
  - apply H3. apply IH.
Qed.

Lemma b64_val_char (u : bool) (n : nat) :
  n < 64 -> b64_val u (b64_char u n) = Some n.
Proof.
  intros H. do 64 (destruct n as [|n]; [destruct u; reflexivity |]). lia.
Qed.

Lemma b64_char_not_pad (u : bool) (n : nat) :
  n < 64 -> (b64_char u n =? "=")%char = false.
Proof.
  intros H. do 64 (destruct n as [|n]; [destruct u; reflexivity |]). lia.
Qed.

Lemma b64_char_urlsafe (n : nat) : n < 64 -> b64url_char (b64_char true n) = true.
Proof.
  intros H. do 64 (destruct n as [|n]; [reflexivity |]). lia.
Qed.

Lemma rstrip_eq_cons (c : ascii) (r : string) :
  (c =? "=")%char = false -> rstrip_eq (String c r) = String c (rstrip_eq r).
Proof.
  intros H. simpl. destruct (rstrip_eq r); [rewrite H |]; reflexivity.
Qed.

Lemma byte_lt (a : ascii) : nat_of_ascii a < 256.
Proof. apply nat_ascii_bounded. Qed.

Ltac dm := zify; Z.to_euclidean_division_equations; lia.

Lemma b64decode_group (u : bool) (x y z : nat) (r : string) :
  x < 256 -> y < 256 -> z < 256 ->
  b64decode u
    (String (b64_char u (x / 4))
       (String (b64_char u (x mod 4 * 16 + y / 16))
          (String (b64_char u (y mod 16 * 4 + z / 64))
             (String (b64_char u (z mod 64)) r))))
  = match b64decode u r with
    | Some t => Some (String (ascii_of_nat x) (String (ascii_of_nat y) (String (ascii_of_nat z) t)))
    | None => None
    end.
Proof.
  intros Hx Hy Hz. cbn [b64decode].
  rewrite !b64_val_char by dm. rewrite !b64_char_not_pad by dm.
  replace (x / 4 * 4 + (x mod 4 * 16 + y / 16) / 16) with x by dm.
  replace ((x mod 4 * 16 + y / 16) mod 16 * 16 + (y mod 16 * 4 + z / 64) / 4) with y by dm.
  replace ((y mod 16 * 4 + z / 64) mod 4 * 64 + z mod 64) with z by dm.
  reflexivity.
Qed.

Lemma b64decode_last1 (u : bool) (x : nat) (pad : bool) :
  x < 256 ->
  b64decode u
    (String (b64_char u (x / 4))
       (String (b64_char u (x mod 4 * 16)) (if pad then "==" else EmptyString)))
  = Some (str1 (ascii_of_nat x)).
Proof.
  intros Hx. cbn [b64decode].
  rewrite !b64_val_char by dm.
  replace (x / 4 * 4 + x mod 4 * 16 / 16) with x by dm.
  destruct pad; reflexivity.
Qed.

Lemma b64decode_last2 (u : bool) (x y : nat) (pad : bool) :
  x < 256 -> y < 256 ->
  b64decode u
    (String (b64_char u (x / 4))
       (String (b64_char u (x mod 4 * 16 + y / 16))
          (String (b64_char u (y mod 16 * 4)) (if pad then "=" else EmptyString))))
  = Some (String (ascii_of_nat x) (str1 (ascii_of_nat y))).
Proof.
  intros Hx Hy. cbn [b64decode].
  rewrite !b64_val_char by dm. rewrite !b64_char_not_pad by dm.
  replace (x / 4 * 4 + (x mod 4 * 16 + y / 16) / 16) with x by dm.
  replace ((x mod 4 * 16 + y / 16) mod 16 * 16 + y mod 16 * 4 / 4) with y by dm.
  destruct pad; reflexivity.
Qed.

(** Standard base64, as [build_vmess] writes it, decodes back. *)
Lemma b64decode_encode (u : bool) (bs : string) :
  b64decode u (b64encode u bs) = Some bs.
Proof.
  induction bs as [|a|a b|a b c r IH] using string_ind3.
  - reflexivity.
  - cbn [b64encode]. cbv zeta.
    rewrite (b64decode_last1 u _ true) by apply byte_lt.
    rewrite ascii_nat_embedding. reflexivity.
  - cbn [b64encode]. cbv zeta.
    rewrite (b64decode_last2 u _ _ true) by apply byte_lt.
    rewrite !ascii_nat_embedding. reflexivity.
  - cbn [b64encode]. cbv zeta.
    rewrite b64decode_group by apply byte_lt.
    rewrite IH, !ascii_nat_embedding. reflexivity.
Qed.

(** Base64 with the padding stripped decodes back as well. *)
Lemma b64decode_encode_stripped (u : bool) (bs : string) :
  b64decode u (rstrip_eq (b64encode u bs)) = Some bs.
Proof.
  induction bs as [|a|a b|a b c r IH] using string_ind3.
  - reflexivity.
  - cbn [b64encode]. cbv zeta.
    rewrite !rstrip_eq_cons by (apply b64_char_not_pad; pose proof (byte_lt a); dm).
    change (rstrip_eq "==") with EmptyString.
    rewrite (b64decode_last1 u _ false) by apply byte_lt.
    rewrite ascii_nat_embedding. reflexivity.
  - cbn [b64encode]. cbv zeta.
    rewrite !rstrip_eq_cons
      by (apply b64_char_not_pad; pose proof (byte_lt a); pose proof (byte_lt b); dm).
    change (rstrip_eq "=") with EmptyString.
    rewrite (b64decode_last2 u _ _ false) by apply byte_lt.
    rewrite !ascii_nat_embedding. reflexivity.
  - cbn [b64encode]. cbv zeta.
    rewrite !rstrip_eq_cons
      by (apply b64_char_not_pad;
          pose proof (byte_lt a); pose proof (byte_lt b); pose proof (byte_lt c); dm).
    rewrite b64decode_group by apply byte_lt.
    rewrite IH, !ascii_nat_embedding. reflexivity.
Qed.

(** What [urlsafe_b64encode(...).rstrip("=")] leaves is in the base64url
    alphabet: no [=], no [+], no [/]. *)
Lemma b64url_stripped_alphabet (bs : string) :
  all_chars b64url_char (rstrip_eq (b64encode true bs)) = true.
Proof.
  induction bs as [|a|a b|a b c r IH] using string_ind3.
  - reflexivity.
  - cbn [b64encode]. cbv zeta.
    rewrite !rstrip_eq_cons by (apply b64_char_not_pad; pose proof (byte_lt a); dm).
    change (rstrip_eq "==") with EmptyString. cbn [all_chars].
    rewrite !b64_char_urlsafe by (pose proof (byte_lt a); dm). reflexivity.
  - cbn [b64encode]. cbv zeta.
    rewrite !rstrip_eq_cons
      by (apply b64_char_not_pad; pose proof (byte_lt a); pose proof (byte_lt b); dm).
    change (rstrip_eq "=") with EmptyString. cbn [all_chars].
    rewrite !b64_char_urlsafe by (pose proof (byte_lt a); pose proof (byte_lt b); dm).
    reflexivity.
  - cbn [b64encode]. cbv zeta.
    rewrite !rstrip_eq_cons
      by (apply b64_char_not_pad;
          pose proof (byte_lt a); pose proof (byte_lt b); pose proof (byte_lt c); dm).
    cbn [all_chars].
    rewrite !b64_char_urlsafe
      by (pose proof (byte_lt a); pose proof (byte_lt b); pose proof (byte_lt c); dm).
    exact IH.
Qed.

Lemma decode_utf8_char (c : ascii) (r : string) :
  decode_utf8 (utf8_char c ++ r)
  = match decode_utf8 r with
    | Some t => Some (String c t)
    | None => None
    end.
Proof.
  unfold utf8_char. pose proof (byte_lt c) as B.
  destruct (nat_of_ascii c <? 128)%nat eqn:E.
  - cbn [append str1 decode_utf8]. rewrite E. reflexivity.
  - apply Nat.ltb_ge in E. cbn [append str1 decode_utf8].
    rewrite !nat_ascii_embedding by dm.
    replace (192 + nat_of_ascii c / 64 <? 128)%nat with false
      by (symmetry; apply Nat.ltb_ge; lia).
    replace (between 194 195 (192 + nat_of_ascii c / 64)) with true
      by (symmetry; unfold between; apply andb_true_iff; split; apply Nat.leb_le; dm).
    replace (between 128 191 (128 + nat_of_ascii c mod 64)) with true
      by (symmetry; unfold between; apply andb_true_iff; split; apply Nat.leb_le; dm).
    replace ((192 + nat_of_ascii c / 64 - 192) * 64 + (128 + nat_of_ascii c mod 64 - 128))
      with (nat_of_ascii c) by dm.
    rewrite ascii_nat_embedding. reflexivity.
Qed.

Lemma decode_encode_utf8 (s : string) : decode_utf8 (encode_utf8 s) = Some s.
Proof.
  unfold encode_utf8. induction s as [|c s IH]; [reflexivity |].
  cbn [str_map]. rewrite decode_utf8_char, IH. reflexivity.
Qed.

(** ** Shadowsocks *)

(** C4: with the method and password resolved from the client record,
    else from the inbound settings, [build_ss] returns [None] when either
    is empty or missing; when both are present it returns an [ss://] link
    whose userinfo is in the base64url alphabet, without padding, and
    decodes back to ["<method>:<password>"]. *)
Theorem build_ss_absence_law (fb : string) (client inbound : dict)
    (settings stream host method pwd : value) :
  _jload (dict_get inbound "settings") = Ok settings ->
  _jload (raw_stream inbound) = Ok stream ->
  _server_host fb stream settings = Ok host ->
  (Ok (dict_get client "method") orelse get settings "method") = Ok method ->
  (Ok (dict_get client "password") orelse get settings "password") = Ok pwd ->
  (truthy method && truthy pwd = false -> build_ss fb client inbound = Ok None)
  /\ (truthy method && truthy pwd = true ->
      forall tag, quote (tag_source client inbound) = Ok tag ->
      exists userinfo bytes,
        build_ss fb client inbound
        = Ok (Some ("ss://" ++ userinfo ++ "@" ++ py_str host ++ ":" ++ port_of inbound
                      ++ "#" ++ tag))
        /\ all_chars b64url_char userinfo = true
        /\ b64decode true userinfo = Some bytes
        /\ decode_utf8 bytes = Some (py_str method ++ ":" ++ py_str pwd)).
Proof.
  intros Hset Hstr Hhost Hm Hp.
  unfold build_ss. rewrite Hset, Hstr. cbn [bind]. rewrite Hhost. cbn [bind].
  rewrite Hm. cbn [bind]. rewrite Hp. cbn [bind]. cbv zeta.
  split.
  - intros E. rewrite E. reflexivity.
  - intros E tag Ht. rewrite E, Ht. cbn [negb bind].
    exists (rstrip_eq (b64encode true (encode_utf8 (py_str method ++ ":" ++ py_str pwd)))),
      (encode_utf8 (py_str method ++ ":" ++ py_str pwd)).
    split; [reflexivity |]. split; [apply b64url_stripped_alphabet |].
    split; [apply b64decode_encode_stripped | apply decode_encode_utf8].
Qed.

Lemma build_ss_absence_law_witness :
  build_ss "localhost" [("email", VStr "u2")]
    [("port", VInt 8388); ("settings", VDict [("method", VStr "aes-256-gcm")])]
  = Ok None
  /\ exists userinfo bytes,
       build_ss "localhost" ss_client ss_inbound
       = Ok (Some ("ss://" ++ userinfo ++ "@" ++ "h.example" ++ ":" ++ "8388" ++ "#" ++ "u2"))
       /\ all_chars b64url_char userinfo = true
       /\ b64decode true userinfo = Some bytes
       /\ decode_utf8 bytes = Some "aes-256-gcm:p@ss".
Proof.
  split.
  - apply (proj1 (build_ss_absence_law "localhost" [("email", VStr "u2")]
                    [("port", VInt 8388); ("settings", VDict [("method", VStr "aes-256-gcm")])]
                    (VDict [("method", VStr "aes-256-gcm")]) (VDict [])
                    (VStr "localhost") (VStr "aes-256-gcm") VNone
                    eq_refl eq_refl eq_refl eq_refl eq_refl)).
    reflexivity.
  - apply (proj2 (build_ss_absence_law "localhost" ss_client ss_inbound
                    (dict_get ss_inbound "settings") (VDict [])
                    (VStr "h.example") (VStr "aes-256-gcm") (VStr "p@ss")
                    eq_refl eq_refl eq_refl eq_refl eq_refl)).
    + reflexivity.
    + reflexivity.
Defined.

(** The link of the Shadowsocks scenario. *)
Example build_ss_scenario :
  build_ss "localhost" ss_client ss_inbound
  = Ok (Some "ss://YWVzLTI1Ni1nY206cEBzcw@h.example:8388#u2").
Proof. reflexivity. Qed.

(** ** Totality on well-typed settings *)

Lemma returns_Ok {A : Type} (a : A) : returns (Ok a).
Proof. exists a. reflexivity. Qed.

Lemma returns_bind {A B : Type} (m : outcome A) (k : A -> outcome B) :
  returns m -> (forall a, m = Ok a -> returns (k a)) -> returns (bind m k).
Proof.
  intros (a & E) H. rewrite E. simpl. apply H. exact E.
Qed.

Lemma returns_or_else (a b : outcome value) :
  returns a -> returns b -> returns (a orelse b).
Proof.
  intros (v & ->) Hb. unfold or_else. simpl. destruct (truthy v); [apply returns_Ok | exact Hb].
Qed.

Lemma returns_get (d : dict) (k : string) : returns (get (VDict d) k).
Proof. apply returns_Ok. Qed.

Lemma dict_or_empty (v : value) :
  dict_or_falsy v = true -> Ok v orelse Ok (VDict []) = Ok (VDict (as_dict v)).
Proof.
  unfold dict_or_falsy. rewrite or_else_pure. unfold por.
  destruct v as [|b|z|s|l|d]; simpl; try reflexivity.
  - destruct b; [discriminate | reflexivity].
  - destruct (z =? 0)%Z; [reflexivity | discriminate].
  - destruct s; [reflexivity | discriminate].
  - destruct l; [reflexivity | discriminate].
  - destruct d; reflexivity.
Qed.

Lemma get_or_empty (d : dict) (k : string) :
  dict_or_falsy (dict_get d k) = true ->
  (get (VDict d) k orelse Ok (VDict [])) = Ok (VDict (as_dict (dict_get d k))).
Proof. intros H. cbn [get]. apply dict_or_empty. exact H. Qed.

Lemma sub_settings_ok (s : dict) (k : string) :
  dict_or_falsy (dict_get s k) = true ->
  sub_settings (VDict s) k = Ok (VDict (as_dict (dict_get s k))).
Proof. apply get_or_empty. Qed.

Lemma or_else_dict (d : dict) : Ok (VDict d) orelse Ok (VDict []) = Ok (VDict d).
Proof. rewrite or_else_pure. destruct d; reflexivity. Qed.

Lemma str_lower_ok (v : value) :
  str_or_falsy v = true -> forall dflt, returns (s <- (Ok v orelse Ok (VStr dflt)) ;; str_lower s).
Proof.
  unfold str_or_falsy. intros H dflt. rewrite or_else_pure. unfold por.
  destruct v as [|b|z|s|l|d]; simpl in *; try apply returns_Ok.
  - destruct b; [discriminate | apply returns_Ok].
  - destruct (z =? 0)%Z; [apply returns_Ok | discriminate].
  - destruct s; apply returns_Ok.
  - destruct l; [apply returns_Ok | discriminate].
  - destruct d; [apply returns_Ok | discriminate].
Qed.

Lemma get_network_ok (s : dict) :
  str_or_falsy (dict_get s "network") = true -> returns (_get_network (VDict s)).
Proof. intros H. unfold _get_network. cbn [get]. apply str_lower_ok. exact H. Qed.

Lemma get_security_ok (s : dict) :
  str_or_falsy (dict_get s "security") = true -> returns (_get_security (VDict s)).
Proof.
  intros H. unfold _get_security. cbn [get].
  destruct (str_lower_ok _ H EmptyString) as (sec & E).
  apply bind_Ok in E. destruct E as (v & E1 & E2).
  rewrite E1. cbn [bind]. rewrite E2. cbn [bind]. apply returns_Ok.
Qed.

Ltac split_wt :=
  repeat match goal with
         | H : (_ && _) = true |- _ =>
             let H1 := fresh "W" in
             apply andb_prop in H; destruct H as [H H1]
         end.

(** Rewrites the sub-record lookups the hypotheses cover, and computes. *)
Ltac settle :=
  repeat first
    [ progress cbn [bind get]
    | match goal with
      | W : dict_or_falsy (dict_get ?d ?k) = true |- context [sub_settings (VDict ?d) ?k] =>
          rewrite (sub_settings_ok d k W)
      | W : dict_or_falsy (dict_get ?d ?k) = true
        |- context [Ok (dict_get ?d ?k) orelse Ok (VDict [])] =>
          rewrite (dict_or_empty _ W)
      end
    | rewrite or_else_dict
    | rewrite or_else_pure
    | apply returns_Ok
    | match goal with
      | |- returns (if ?b then _ else _) => destruct b
      | |- returns (bind (if ?b then _ else _) _) => destruct b
      end ].

Lemma get_network_path_ok (s : dict) (net : string) :
  wt_stream s = true -> returns (_get_network_path (VDict s) net).
Proof.
  unfold wt_stream, wt_tls, wt_ws, wt_tcp, wt_header, wt_http. cbv zeta. intros H. split_wt.
  unfold _get_network_path, _tcp_settings, _ws_settings, _http_settings, _xhttp_settings,
    _grpc_settings, _kcp_settings, _quic_settings.
  settle.
Qed.

Lemma get_network_host_ok (s : dict) (net : string) :
  wt_stream s = true -> returns (_get_network_host (VDict s) net).
Proof.
  unfold wt_stream, wt_tls, wt_ws, wt_tcp, wt_header, wt_http. cbv zeta. intros H. split_wt.
  unfold _get_network_host, _tcp_settings, _ws_settings, _http_settings, _xhttp_settings.
  settle.
Qed.

Lemma external_proxy_dest_ok (s : dict) : returns (_external_proxy_dest (VDict s)).
Proof.
  unfold _external_proxy_dest. cbn [get bind].
  destruct (dict_get s "externalProxy") as [| | | |[|[| | | | |e0] l]|]; try apply returns_Ok.
  destruct (truthy (dict_get e0 "dest")); apply returns_Ok.
Qed.

Lemma server_host_ok (fb : string) (s st : dict) :
  wt_stream s = true -> returns (_server_host fb (VDict s) (VDict st)).
Proof.
  intros H. unfold _server_host.
  apply returns_or_else; [apply external_proxy_dest_ok |].
  apply returns_or_else.
  { revert H. unfold wt_stream, wt_tls. cbv zeta. intros H. split_wt.
    unfold _tls_settings. settle. }
  apply returns_or_else; [apply get_network_host_ok; exact H |].
  repeat (apply returns_or_else; [apply returns_get |]).
  apply returns_Ok.
Qed.

(** ** Text of a truthy value *)

Lemma string_of_Z_nonempty (z : Z) : string_of_Z z <> EmptyString.
Proof.
  unfold string_of_Z. destruct (Z.to_int z) as [d|d]; [| discriminate].
  destruct d; discriminate.
Qed.

Lemma py_str_truthy (v : value) : truthy v = true -> py_str v <> EmptyString.
Proof.
  destruct v as [|b|z|s|l|d]; simpl; try discriminate.
  - intros ->. discriminate.
  - intros _. apply string_of_Z_nonempty.
  - destruct s; [discriminate | intros _; discriminate].
Qed.

(** ** Host resolver: the chain read off the settings *)

Lemma first_truthy_selects (pre post : list value) (v fallback : value) :
  all_empty pre -> truthy v = true ->
  first_truthy (pre ++ v :: post)%list fallback = v.
Proof.
  intros Hpre Hv. induction Hpre as [|w pre Hw _ IH]; simpl.
  - rewrite Hv. reflexivity.
  - rewrite Hw. exact IH.
Qed.

Lemma first_truthy_fallback (levels : list value) (fallback : value) :
  all_empty levels -> first_truthy levels fallback = fallback.
Proof.
  intros H. induction H as [|w l Hw _ IH]; simpl; [reflexivity |].
  rewrite Hw. exact IH.
Qed.

(** What the first operand of the chain evaluates to: the text of the
    destination of the first [externalProxy] entry, when there is one. *)
Lemma external_proxy_dest_level (s : dict) :
  _external_proxy_dest (VDict s)
  = Ok (if truthy (proxy_dest_level s) then VStr (py_str (proxy_dest_level s)) else VNone).
Proof.
  unfold _external_proxy_dest, proxy_dest_level. cbn [get bind].
  destruct (dict_get s "externalProxy") as [| | | |[|[| | | | |e0] l]|]; try reflexivity.
  cbv zeta. destruct (truthy (dict_get e0 "dest")); reflexivity.
Qed.

Lemma tls_name_operand (s : dict) :
  dict_or_falsy (dict_get s "tlsSettings") = true ->
  (tls <- _tls_settings (VDict s) ;; get tls "serverName") = Ok (tls_name_level s).
Proof.
  intros W. unfold _tls_settings. rewrite (sub_settings_ok s _ W). reflexivity.
Qed.

Lemma ws_host_operand (s : dict) :
  wt_ws s = true ->
  exists h,
    _get_network_host (VDict s) "ws" = Ok h
    /\ truthy h = truthy (ws_host_level s)
    /\ (truthy h = true -> h = ws_host_level s).
Proof.
  unfold wt_ws. cbv zeta. intros W. apply andb_prop in W. destruct W as [W1 W2].
  unfold _get_network_host, _ws_settings, ws_host_level.
  cbn [String.eqb Ascii.eqb Bool.eqb]. rewrite (sub_settings_ok s _ W1).
  cbn [bind get]. cbv zeta.
  set (ws := as_dict (dict_get s "wsSettings")) in *.
  rewrite (dict_or_empty _ W2). cbn [bind get]. rewrite !or_else_pure.
  eexists. split; [reflexivity |]. unfold por.
  destruct (truthy (dict_get ws "host")) eqn:T1; [rewrite T1; split; reflexivity |].
  destruct (truthy (dict_get (as_dict (dict_get ws "headers")) "Host")) eqn:T2.
  - rewrite T2. split; reflexivity.
  - split; [reflexivity | discriminate].
Qed.

(** C3: the advertised host is the first non-empty value of the chain
    read off the settings: the destination of the first [externalProxy]
    entry, the TLS server name, the websocket host (the configured host,
    else the [Host] header), the inbound-level [domain], [host] and
    [address], and the fallback domain when all of these are empty.  A
    non-empty level wins over every level after it; the proxy destination
    wins whatever the rest of the settings holds. *)
Theorem server_host_precedence (fb : string) (stream settings : dict) :
  (truthy (proxy_dest_level stream) = true ->
   _server_host fb (VDict stream) (VDict settings)
   = Ok (VStr (py_str (proxy_dest_level stream))))
  /\ (str_or_falsy (proxy_dest_level stream) = true ->
      (truthy (proxy_dest_level stream) = false ->
       dict_or_falsy (dict_get stream "tlsSettings") = true) ->
      (truthy (proxy_dest_level stream) = false ->
       truthy (tls_name_level stream) = false -> wt_ws stream = true) ->
      _server_host fb (VDict stream) (VDict settings)
      = Ok (first_truthy (spec_host_levels stream settings) (VStr fb))
      /\ (forall pre v post,
            spec_host_levels stream settings = (pre ++ v :: post)%list ->
            all_empty pre -> truthy v = true ->
            _server_host fb (VDict stream) (VDict settings) = Ok v)
      /\ (all_empty (spec_host_levels stream settings) ->
          _server_host fb (VDict stream) (VDict settings) = Ok (VStr fb))).
Proof.
  assert (P : truthy (proxy_dest_level stream) = true ->
              _server_host fb (VDict stream) (VDict settings)
              = Ok (VStr (py_str (proxy_dest_level stream)))).
  { intros T. unfold _server_host. rewrite external_proxy_dest_level, T.
    apply or_else_truthy. cbn [truthy].
    pose proof (py_str_truthy (proxy_dest_level stream) T) as N.
    destruct (py_str (proxy_dest_level stream)); [contradiction | reflexivity]. }
  split; [exact P |].
  intros S W2 W3.
  assert (E : _server_host fb (VDict stream) (VDict settings)
              = Ok (first_truthy (spec_host_levels stream settings) (VStr fb))).
  { unfold spec_host_levels. cbn [first_truthy].
    destruct (truthy (proxy_dest_level stream)) eqn:T1.
    { rewrite (P eq_refl). f_equal.
      unfold str_or_falsy in S. rewrite T1 in S.
      destruct (proxy_dest_level stream); try discriminate S. reflexivity. }
    unfold _server_host. rewrite external_proxy_dest_level, T1.
    rewrite or_else_falsy by reflexivity.
    rewrite (tls_name_operand stream (W2 eq_refl)).
    destruct (truthy (tls_name_level stream)) eqn:T2.
    { apply or_else_truthy. exact T2. }
    rewrite or_else_falsy by exact T2.
    destruct (ws_host_operand stream (W3 eq_refl eq_refl)) as (h & Eh & Th & Hh).
    rewrite Eh. destruct (truthy (ws_host_level stream)) eqn:T3.
    { rewrite or_else_truthy by exact Th. f_equal. apply Hh. exact Th. }
    rewrite or_else_falsy by exact Th.
    cbn [get]. rewrite !or_else_pure. unfold por.
    destruct (truthy (dict_get settings "domain")); [reflexivity |].
    destruct (truthy (dict_get settings "host")); [reflexivity |].
    destruct (truthy (dict_get settings "address")); reflexivity. }
  split; [exact E |]. split.
  - intros pre v post L Hpre Hv. rewrite E, L. f_equal.
    apply first_truthy_selects; assumption.
  - intros H. rewrite E. f_equal. apply first_truthy_fallback. exact H.
Qed.

Lemma server_host_precedence_witness :
  _server_host "localhost" (VDict proxied_stream) (VDict inbound_level_fields)
  = Ok (VStr "edge.example")
  /\ _server_host "localhost" (VDict unproxied_stream) (VDict inbound_level_fields)
     = Ok (VStr "ws.example")
  /\ _server_host "localhost" (VDict unproxied_stream) (VDict [("domain", VStr EmptyString)])
     = Ok (VStr "ws.example")
  /\ _server_host "localhost" (VDict [("network", VStr "tcp")]) (VDict [("host", VInt 0)])
     = Ok (VStr "localhost").
Proof.
  split; [| split; [| split]].
  - apply (proj1 (server_host_precedence "localhost" proxied_stream inbound_level_fields)).
    reflexivity.
  - apply (proj1 (proj2 (proj2 (server_host_precedence "localhost" unproxied_stream
                                  inbound_level_fields)
                           eq_refl (fun _ => eq_refl) (fun _ _ => eq_refl)))
             [VNone; VStr EmptyString] (VStr "ws.example")
             [VStr "domain.example"; VStr "host.example"; VStr "203.0.113.7"]).
    + reflexivity.
    + repeat constructor.
    + reflexivity.
  - apply (proj1 (proj2 (server_host_precedence "localhost" unproxied_stream
                           [("domain", VStr EmptyString)])
                    eq_refl (fun _ => eq_refl) (fun _ _ => eq_refl))).
  - apply (proj2 (proj2 (proj2 (server_host_precedence "localhost" [("network", VStr "tcp")]
                                  [("host", VInt 0)])
                           eq_refl (fun _ => eq_refl) (fun _ _ => eq_refl)))).
    repeat constructor.
Defined.

Lemma gather_tls_params_ok (s : dict) :
  wt_stream s = true -> returns (_gather_tls_params (VDict s)).
Proof.
  unfold wt_stream, wt_tls. cbv zeta. intros H. split_wt.
  unfold _gather_tls_params, _tls_settings. settle.
Qed.

Lemma gather_reality_params_ok (s : dict) :
  wt_stream s = true -> returns (_gather_reality_params (VDict s)).
Proof.
  unfold wt_stream. intros H. split_wt.
  unfold _gather_reality_params, _reality_settings. settle.
Qed.

Lemma header_type_ok (d : dict) :
  dict_or_falsy (dict_get d "header") = true -> returns (header_type (VDict d)).
Proof. intros W. unfold header_type. settle. Qed.

Lemma tcp_block_ok (s : dict) (net : string) (p : dict) :
  wt_stream s = true -> returns (tcp_block (VDict s) net p).
Proof.
  unfold wt_stream, wt_tcp. cbv zeta. intros H. split_wt.
  unfold tcp_block, _tcp_settings. settle.
Qed.

Lemma grpc_block_ok (s : dict) (net : string) (p : dict) :
  wt_stream s = true -> returns (grpc_block (VDict s) net p).
Proof.
  unfold wt_stream. intros H. split_wt.
  unfold grpc_block, _grpc_settings. settle.
Qed.

Lemma kcp_block_ok (s : dict) (net : string) (p : dict) :
  wt_stream s = true -> returns (kcp_block (VDict s) net p).
Proof.
  unfold wt_stream, wt_header. intros H. split_wt.
  unfold kcp_block, _kcp_settings. destruct (net =? "kcp"); [| apply returns_Ok].
  settle. apply returns_bind; [apply header_type_ok; assumption |].
  intros ht _. settle.
Qed.

Lemma quic_block_ok (s : dict) (net : string) (p : dict) :
  wt_stream s = true -> returns (quic_block (VDict s) net p).
Proof.
  unfold wt_stream, wt_header. intros H. split_wt.
  unfold quic_block, _quic_settings. destruct (net =? "quic"); [| apply returns_Ok].
  settle. apply returns_bind; [apply header_type_ok; assumption |].
  intros ht _. settle.
Qed.

Lemma security_block_ok (with_none : bool) (s : dict) (sec : string) (p : dict) :
  wt_stream s = true -> returns (security_block with_none (VDict s) sec p).
Proof.
  intros H. unfold security_block.
  destruct (sec =? "tls"); [| destruct (sec =? "reality")].
  - apply returns_bind; [apply gather_tls_params_ok; exact H |].
    intros; apply returns_Ok.
  - apply returns_bind; [apply gather_reality_params_ok; exact H |].
    intros; apply returns_Ok.
  - apply returns_Ok.
Qed.

Lemma vless_params_ok (client : dict) (s st : dict) (net sec : string) :
  wt_stream s = true -> returns (vless_params client (VDict s) (VDict st) net sec).
Proof.
  intros H. unfold vless_params.
  apply returns_bind; [apply get_network_path_ok; exact H | intros path _].
  cbv zeta.
  apply returns_bind; [apply get_network_host_ok; exact H | intros nh _].
  apply returns_bind; [apply tcp_block_ok; exact H | intros p1 _].
  apply returns_bind; [apply grpc_block_ok; exact H | intros p2 _].
  apply returns_bind; [apply kcp_block_ok; exact H | intros p3 _].
  apply returns_bind; [apply quic_block_ok; exact H | intros p4 _].
  apply returns_bind; [apply security_block_ok; exact H | intros p5 _].
  settle.
Qed.

Lemma trojan_params_ok (s : dict) (net sec : string) :
  wt_stream s = true -> returns (trojan_params (VDict s) net sec).
Proof.
  intros H. unfold trojan_params.
  apply returns_bind; [apply get_network_path_ok; exact H | intros path _].
  cbv zeta.
  apply returns_bind; [apply get_network_host_ok; exact H | intros nh _].
  apply returns_bind; [apply grpc_block_ok; exact H | intros p1 _].
  apply returns_bind; [apply tcp_block_ok; exact H | intros p2 _].
  apply security_block_ok. exact H.
Qed.

Lemma vmess_transport_block_ok (s : dict) (net : string) (vm : dict) :
  wt_stream s = true -> returns (vmess_transport_block (VDict s) net vm).
Proof.
  unfold wt_stream, wt_tcp, wt_ws, wt_header, wt_http. cbv zeta. intros H. split_wt.
  unfold vmess_transport_block, _tcp_settings, _ws_settings, _grpc_settings,
    _kcp_settings, _quic_settings, _http_settings, _xhttp_settings.
  destruct (net =? "tcp"); [settle |].
  destruct (net =? "ws"); [settle |].
  destruct (net =? "grpc"); [settle |].
  destruct (net =? "kcp").
  { settle. apply returns_bind; [apply header_type_ok; assumption |].
    intros ht _. settle. }
  destruct (net =? "quic").
  { settle. apply returns_bind; [apply header_type_ok; assumption |].
    intros ht _. settle. }
  settle.
Qed.

Lemma vmess_record_ok (client inbound : dict) (s : dict) (host : value) (net sec : string) :
  wt_stream s = true -> returns (vmess_record client inbound (VDict s) host net sec).
Proof.
  intros H. unfold vmess_record.
  apply returns_bind; [apply get_network_path_ok; exact H | intros path _].
  cbv zeta.
  apply returns_bind; [apply vmess_transport_block_ok; exact H | intros vm1 _].
  apply returns_bind; [apply gather_tls_params_ok; exact H | intros t _].
  destruct (sec =? "reality"); [| apply returns_Ok].
  apply returns_bind; [apply gather_reality_params_ok; exact H | intros r _].
  apply returns_Ok.
Qed.

Lemma quote_ok (v : value) : is_str v = true -> returns (quote v).
Proof. destruct v; try discriminate. intros _. apply returns_Ok. Qed.

Lemma por_slash_truthy (a : value) : truthy (por a (VStr "/")) = true.
Proof. unfold por. destruct (truthy a) eqn:T; [exact T | reflexivity]. Qed.

Lemma por_slash_str (a : value) :
  str_or_falsy a = true -> is_str (por a (VStr "/")) = true.
Proof.
  unfold str_or_falsy, por. destruct (truthy a); [| reflexivity].
  rewrite orb_false_r. trivial.
Qed.

(** The xhttp path is a string when the settings are well typed. *)
Lemma xhttp_raw_path_str (s : dict) (raw : value) :
  wt_stream s = true ->
  (_get_network_path (VDict s) "xhttp" orelse Ok (VStr "/")) = Ok raw ->
  is_str raw = true.
Proof.
  unfold wt_stream, wt_http. cbv zeta. intros H. split_wt.
  unfold _get_network_path, _http_settings, _xhttp_settings.
  cbn [String.eqb Ascii.eqb Bool.eqb mem_str orb].
  rewrite (sub_settings_ok s "httpSettings") by assumption.
  rewrite (sub_settings_ok s "xhttpSettings") by assumption.
  cbn [bind get].
  set (hp := dict_get (as_dict (dict_get s "httpSettings")) "path") in *.
  set (xp := dict_get (as_dict (dict_get s "xhttpSettings")) "path") in *.
  destruct (truthy hp).
  - rewrite !or_else_pure. intros [= <-].
    unfold por at 1. rewrite por_slash_truthy. apply por_slash_str. assumption.
  - destruct (truthy xp).
    + rewrite !or_else_pure. intros [= <-].
      unfold por at 1. rewrite por_slash_truthy. apply por_slash_str. assumption.
    + rewrite or_else_pure. intros [= <-]. reflexivity.
Qed.

Lemma wt_stream_network (s : dict) :
  wt_stream s = true ->
  str_or_falsy (dict_get s "network") = true /\ str_or_falsy (dict_get s "security") = true.
Proof. unfold wt_stream. intros H. split_wt. split; assumption. Qed.

Lemma double_encode_ok (raw : value) : is_str raw = true -> returns (double_encode raw).
Proof. destruct raw; try discriminate. intros _. apply returns_Ok. Qed.

(** ** No exception from the encoders? *)

(** C7 (counterexample): nothing in the encoders guards the types of the
    decoded fields.  A [tlsSettings] that is text makes all four raise
    from the host resolver; a numeric [network] makes [.lower()] raise; a
    numeric [email] makes [quote] raise. *)
Lemma builders_raise :
  build_vless "localhost" sample_client tls_as_text_inbound = Raise AttributeError
  /\ build_vmess "localhost" sample_client tls_as_text_inbound = Raise AttributeError
  /\ build_trojan "localhost" sample_client tls_as_text_inbound = Raise AttributeError
  /\ build_ss "localhost" sample_client tls_as_text_inbound = Raise AttributeError
  /\ build_vless "localhost" sample_client numeric_network_inbound = Raise AttributeError
  /\ build_vless "localhost" numeric_email_client scenario_inbound = Raise TypeError.
Proof. repeat split; reflexivity. Qed.

Section Returns.

Variables (fb : string) (client inbound stream settings : dict).
Hypothesis Hs : _jload (raw_stream inbound) = Ok (VDict stream).
Hypothesis Hst : _jload (dict_get inbound "settings") = Ok (VDict settings).
Hypothesis W : wt_stream stream = true.

Lemma build_vless_returns :
  is_str (tag_source client inbound) = true -> returns (build_vless fb client inbound).
Proof.
  intros T.
  destruct (wt_stream_network _ W) as [Wn Wsec].
  destruct (get_network_ok _ Wn) as (net & En).
  destruct (get_security_ok _ Wsec) as (sec & Es).
  destruct (server_host_ok fb _ settings W) as (host & Eh).
  unfold build_vless. rewrite Hs, Hst. cbn [bind]. rewrite En, Es. cbn [bind].
  rewrite Eh. cbn [bind]. cbv zeta.
  destruct (net =? "xhttp").
  - apply returns_bind.
    { apply returns_or_else; [apply get_network_host_ok; exact W | apply returns_Ok]. }
    intros nh _.
    apply returns_bind.
    { apply returns_or_else; [apply get_network_path_ok; exact W | apply returns_Ok]. }
    intros raw Hraw.
    apply returns_bind.
    { apply double_encode_ok. apply (xhttp_raw_path_str stream); assumption. }
    intros de _.
    apply returns_bind; [apply quote_ok; exact T |].
    intros tag _. apply returns_Ok.
  - apply returns_bind; [apply vless_params_ok; exact W |].
    intros params _. cbv zeta.
    apply returns_bind; [apply quote_ok; exact T |].
    intros tag _. apply returns_Ok.
Qed.

(** [build_vmess] never calls [quote]: the tag may be anything. *)
Lemma build_vmess_returns : returns (build_vmess fb client inbound).
Proof.
  destruct (wt_stream_network _ W) as [Wn Wsec].
  destruct (get_network_ok _ Wn) as (net & En).
  destruct (get_security_ok _ Wsec) as (sec & Es).
  destruct (server_host_ok fb _ settings W) as (host & Eh).
  unfold build_vmess. rewrite Hs, Hst. cbn [bind]. rewrite En, Es. cbn [bind].
  rewrite Eh. cbn [bind].
  apply returns_bind; [apply vmess_record_ok; exact W |].
  intros vm _. apply returns_Ok.
Qed.

Lemma build_trojan_returns :
  is_str (tag_source client inbound) = true -> returns (build_trojan fb client inbound).
Proof.
  intros T.
  destruct (wt_stream_network _ W) as [Wn Wsec].
  destruct (get_network_ok _ Wn) as (net & En).
  destruct (get_security_ok _ Wsec) as (sec & Es).
  destruct (server_host_ok fb _ settings W) as (host & Eh).
  unfold build_trojan. rewrite Hs, Hst. cbn [bind]. rewrite En, Es. cbn [bind].
  rewrite Eh. cbn [bind]. cbv zeta.
  apply returns_bind; [apply trojan_params_ok; exact W |].
  intros params _. cbv zeta.
  apply returns_bind; [apply quote_ok; exact T |].
  intros tag _. apply returns_Ok.
Qed.

Lemma build_ss_returns :
  is_str (tag_source client inbound) = true -> returns (build_ss fb client inbound).
Proof.
  intros T.
  destruct (server_host_ok fb _ settings W) as (host & Eh).
  unfold build_ss. rewrite Hs, Hst. cbn [bind]. rewrite Eh. cbn [bind]. cbv zeta.
  cbn [get]. rewrite !or_else_pure. cbn [bind].
  destruct (negb _); [apply returns_Ok |].
  apply returns_bind; [apply quote_ok; exact T |].
  intros tag _. apply returns_Ok.
Qed.

End Returns.

(** C7 (amended): when the two settings blobs decode, leniently, to
    mappings, the stream settings are well typed and the tag source
    (email, else remark, else ["node"]) is a string, each of the four
    encoders returns a value. *)
Theorem builders_return (fb : string) (client inbound : dict) (stream settings : dict) :
  _jload (raw_stream inbound) = Ok (VDict stream) ->
  _jload (dict_get inbound "settings") = Ok (VDict settings) ->
  wt_stream stream = true ->
  is_str (tag_source client inbound) = true ->
  returns (build_vless fb client inbound)
  /\ returns (build_vmess fb client inbound)
  /\ returns (build_trojan fb client inbound)
  /\ returns (build_ss fb client inbound).
Proof.
  intros Hs Hst W T. split; [| split; [| split]].
  - apply (build_vless_returns fb client inbound stream settings); assumption.
  - apply (build_vmess_returns fb client inbound stream settings); assumption.
  - apply (build_trojan_returns fb client inbound stream settings); assumption.
  - apply (build_ss_returns fb client inbound stream settings); assumption.
Qed.

(** Blobs that are not JSON are absorbed, and the encoders go through. *)
Lemma builders_return_witness :
  returns (build_vless "localhost" sample_client malformed_inbound)
  /\ returns (build_vmess "localhost" sample_client malformed_inbound)
  /\ returns (build_trojan "localhost" sample_client malformed_inbound)
  /\ returns (build_ss "localhost" sample_client malformed_inbound).
Proof.
  apply (builders_return "localhost" sample_client malformed_inbound [] []);
    reflexivity.
Defined.

Example build_vless_malformed :
  build_vless "localhost" sample_client malformed_inbound
  = Ok "vless://abc-123@localhost:443?type=tcp&security=none&encryption=none&path=/#u1".
Proof. reflexivity. Qed.

(** ** The default network *)

Lemma get_network_default (stream n : value) :
  get stream "network" = Ok n -> truthy n = false -> _get_network stream = Ok "tcp".
Proof.
  intros G T. unfold _get_network. rewrite G, or_else_falsy by exact T. reflexivity.
Qed.

Lemma pop_ordered_head (k : string) (ks : list string) (d : dict) (v : value) :
  lookup d k = Some v ->
  exists kv tmp, pop_ordered (k :: ks) d = ((k, v) :: kv, tmp).
Proof.
  intros L. cbn [pop_ordered]. rewrite L.
  destruct (pop_ordered ks (dict_remove d k)) as [kv tmp].
  exists kv, tmp. reflexivity.
Qed.

(** [type] leads the declared order, so it leads [kv]. *)
Lemma vless_kv_head (params : dict) (v : value) :
  lookup params "type" = Some v -> exists rest, vless_kv params = ("type", v) :: rest.
Proof.
  intros L. unfold vless_kv.
  destruct (pop_ordered_head "type" (tl vless_ordered) params v L) as (kv & tmp & E).
  change ("type" :: tl vless_ordered) with vless_ordered in E. rewrite E.
  eexists. reflexivity.
Qed.

(** C10: when the stream settings have no [network], or an empty one, the
    network resolves to [tcp]; on well-typed settings [build_vless] and
    [build_trojan] then return a link whose query starts with [type=tcp],
    and [build_vmess] a link whose record has [net] equal to [tcp]. *)
Theorem missing_network_is_tcp (fb : string) (client inbound : dict)
    (stream settings : dict) :
  _jload (raw_stream inbound) = Ok (VDict stream) ->
  _jload (dict_get inbound "settings") = Ok (VDict settings) ->
  wt_stream stream = true ->
  is_str (tag_source client inbound) = true ->
  truthy (dict_get stream "network") = false ->
  _get_network (VDict stream) = Ok "tcp"
  /\ (exists (host : value) (rest : list (string * value)) (tag : string),
        build_vless fb client inbound
        = Ok ("vless://" ++ py_str (_client_id client) ++ "@" ++ py_str host ++ ":"
                ++ port_of inbound ++ "?"
                ++ concat "&" ("type=tcp" :: map query_item (emitted rest))
                ++ "#" ++ tag))
  /\ (exists (vm : dict),
        build_vmess fb client inbound
        = Ok ("vmess://" ++ b64encode false (encode_utf8 (json_dumps (VDict vm))), vm)
        /\ lookup vm "net" = Some (VStr "tcp"))
  /\ (exists (host : value) (rest : list (string * value)) (tag : string),
        build_trojan fb client inbound
        = Ok ("trojan://"
                ++ py_str (por (dict_get client "password")
                             (por (dict_get client "id") (VStr EmptyString)))
                ++ "@" ++ py_str host ++ ":" ++ port_of inbound ++ "?"
                ++ concat "&" ("type=tcp" :: map query_item (emitted rest))
                ++ "#" ++ tag)).
Proof.
  intros Hs Hst W T N.
  assert (En : _get_network (VDict stream) = Ok "tcp")
    by (apply (get_network_default _ (dict_get stream "network")); [reflexivity | exact N]).
  split; [exact En |]. split; [| split].
  - destruct (build_vless_returns fb client inbound stream settings Hs Hst W T) as (link & E).
    rewrite E. unfold build_vless in E. rewrite Hs, Hst in E. cbn [bind] in E.
    rewrite En in E. cbn [bind] in E.
    apply bind_Ok in E. destruct E as (sec & _ & E).
    apply bind_Ok in E. destruct E as (host & _ & E). cbv zeta in E.
    cbn [String.eqb Ascii.eqb Bool.eqb] in E.
    apply bind_Ok in E. destruct E as (params & Hp & E).
    apply bind_Ok in E. destruct E as (tag & _ & E).
    destruct (vless_params_type_path _ _ _ _ _ _ Hp) as (path & _ & Lt & _).
    destruct (vless_kv_head _ _ Lt) as (rest & Hkv).
    exists host, rest, tag. injection E as <-.
    unfold query_join. rewrite Hkv. reflexivity.
  - destruct (build_vmess_returns fb client inbound stream settings Hs Hst W) as ([link vm] & E).
    exists vm. rewrite E. unfold build_vmess in E. rewrite Hs, Hst in E. cbn [bind] in E.
    rewrite En in E. cbn [bind] in E.
    apply bind_Ok in E. destruct E as (sec & _ & E).
    apply bind_Ok in E. destruct E as (host & _ & E).
    apply bind_Ok in E. destruct E as (vm0 & Hvm & E).
    injection E as <- <-. split; [reflexivity |].
    destruct (vmess_record_extends _ _ _ _ _ _ _ Hvm) as (path & _ & X).
    rewrite (extends_lookup _ _ _ "net" X); [reflexivity |].
    simpl. intuition discriminate.
  - destruct (build_trojan_returns fb client inbound stream settings Hs Hst W T) as (link & E).
    rewrite E. unfold build_trojan in E. rewrite Hs, Hst in E. cbn [bind] in E.
    rewrite En in E. cbn [bind] in E.
    apply bind_Ok in E. destruct E as (sec & _ & E).
    apply bind_Ok in E. destruct E as (host & _ & E). cbv zeta in E.
    apply bind_Ok in E. destruct E as (params & Hp & E).
    apply bind_Ok in E. destruct E as (tag & _ & E).
    destruct (trojan_params_type_path _ _ _ _ Hp) as (path & rest & _ & -> & _).
    exists host, rest, tag. injection E as <-. reflexivity.
Qed.

Lemma missing_network_is_tcp_witness :
  _get_network (dict_get no_network_inbound "stream_settings") = Ok "tcp"
  /\ (exists (host : value) (rest : list (string * value)) (tag : string),
        build_vless "localhost" sample_client no_network_inbound
        = Ok ("vless://" ++ py_str (_client_id sample_client) ++ "@" ++ py_str host ++ ":"
                ++ port_of no_network_inbound ++ "?"
                ++ concat "&" ("type=tcp" :: map query_item (emitted rest))
                ++ "#" ++ tag))
  /\ (exists (vm : dict),
        build_vmess "localhost" sample_client no_network_inbound
        = Ok ("vmess://" ++ b64encode false (encode_utf8 (json_dumps (VDict vm))), vm)
        /\ lookup vm "net" = Some (VStr "tcp"))
  /\ (exists (host : value) (rest : list (string * value)) (tag : string),
        build_trojan "localhost" sample_client no_network_inbound
        = Ok ("trojan://"
                ++ py_str (por (dict_get sample_client "password")
                             (por (dict_get sample_client "id") (VStr EmptyString)))
                ++ "@" ++ py_str host ++ ":" ++ port_of no_network_inbound ++ "?"
                ++ concat "&" ("type=tcp" :: map query_item (emitted rest))
                ++ "#" ++ tag)).
Proof.
  apply (missing_network_is_tcp "localhost" sample_client no_network_inbound
           (as_dict (dict_get no_network_inbound "stream_settings")) []);
    reflexivity.
Defined.

Example no_network_links :
  build_vless "localhost" sample_client no_network_inbound
  = Ok "vless://abc-123@sni.example:443?type=tcp&security=tls&encryption=none&path=/&sni=sni.example#u1"
  /\ build_trojan "localhost" sample_client no_network_inbound
     = Ok "trojan://pw@sni.example:443?type=tcp&path=/&security=tls&sni=sni.example#u1".
Proof. split; reflexivity. Qed.

(** ** JSON round trip *)

Lemma append_assoc (a b c : string) : (a ++ b) ++ c = a ++ (b ++ c).
Proof. induction a as [|x a IH]; simpl; [reflexivity | rewrite IH; reflexivity]. Qed.

Lemma scanstring_escape_char (c : ascii) (tail : string) :
  scanstring (json_escape_char c ++ tail)
  = '(t, r) <- scanstring tail ;; Ok (String c t, r).
Proof. destruct c as [[] [] [] [] [] [] [] []]; reflexivity. Qed.

Lemma scanstring_json_string (s rest : string) :
  scanstring (str_map json_escape_char s ++ String dquote rest) = Ok (s, rest).
Proof.
  induction s as [|c s IH]; [reflexivity |].
  cbn [str_map]. rewrite append_assoc, scanstring_escape_char, IH. reflexivity.
Qed.

Lemma json_string_app (s rest : string) :
  json_string s ++ rest
  = String dquote (str_map json_escape_char s ++ String dquote rest).
Proof. unfold json_string. simpl. rewrite append_assoc. reflexivity. Qed.

Lemma digits_of_uint (u : Decimal.uint) :
  all_chars is_digit (NilEmpty.string_of_uint u) = true.
Proof. induction u; simpl; try reflexivity; exact IHu. Qed.

Lemma span_digits_app (ds rest : string) :
  all_chars is_digit ds = true -> follow_ok rest = true ->
  span_digits (ds ++ rest) = (ds, rest).
Proof.
  intros D F. induction ds as [|c ds IH]; simpl in *.
  - destruct rest as [|c r]; [reflexivity |]. simpl in F. simpl.
    destruct (is_digit c); [discriminate | reflexivity].
  - apply andb_prop in D. destruct D as [Dc D]. rewrite Dc, (IH D). reflexivity.
Qed.

Lemma follow_ok_float_tail (rest : string) : follow_ok rest = true -> float_tail rest = false.
Proof.
  destruct rest as [|c r]; [reflexivity |]. simpl. intros F.
  apply negb_true_iff in F. apply orb_false_iff in F. destruct F as [F E2].
  apply orb_false_iff in F. destruct F as [F E1].
  apply orb_false_iff in F. destruct F as [_ Dot].
  destruct c as [[] [] [] [] [] [] [] []]; try reflexivity; discriminate.
Qed.

(** The digits of a positive number start with 1-9. *)
Lemma pos_uint_head (p : positive) :
  exists d ds,
    NilZero.string_of_uint (Pos.to_uint p) = String d ds
    /\ is_digit d = true /\ (d =? "0")%char = false
    /\ all_chars is_digit ds = true.
Proof.
  assert (E : Decimal.unorm (Pos.to_uint p) = Pos.to_uint p).
  { rewrite <- (DecimalPos.Unsigned.to_of (Pos.to_uint p)).
    rewrite DecimalPos.Unsigned.of_to. reflexivity. }
  pose proof (DecimalPos.Unsigned.to_uint_nonzero p) as NZ.
  pose proof (digits_of_uint (Pos.to_uint p)) as D.
  revert E NZ D. generalize (Pos.to_uint p). intros u E NZ D.
  assert (H : forall v, match Decimal.nzhead v with Decimal.D0 _ => False | _ => True end)
    by (induction v; simpl; trivial).
  specialize (H u). unfold Decimal.unorm in E.
  destruct (Decimal.nzhead u) eqn:Hn; try contradiction; subst u;
    try (exfalso; apply NZ; reflexivity);
    simpl in *; eexists; eexists; (split; [reflexivity |]); auto.
Qed.

Lemma digit_cases (d : ascii) :
  is_digit d = true ->
  In d ["0"; "1"; "2"; "3"; "4"; "5"; "6"; "7"; "8"; "9"]%char.
Proof.
  destruct d as [[] [] [] [] [] [] [] []]; intros H; try discriminate H;
    simpl; tauto.
Qed.

Lemma scan_once_number (f : nat) (d : ascii) (tail : string) :
  is_digit d = true ->
  scan_once (S f) (String d tail) = match_number (String d tail)
  /\ scan_once (S f) (String "-" (String d tail))
     = match_number (String "-" (String d tail)).
Proof.
  intros H. apply digit_cases in H. simpl in H.
  repeat (destruct H as [<- | H]; [split; reflexivity |]). contradiction.
Qed.

Lemma match_number_digits (d : ascii) (ds rest : string) :
  is_digit d = true -> (d =? "0")%char = false ->
  all_chars is_digit ds = true -> follow_ok rest = true ->
  match_number (String d (ds ++ rest)) = int_literal (String d ds) rest
  /\ match_number (String "-" (String d (ds ++ rest)))
     = int_literal (String "-" (String d ds)) rest.
Proof.
  intros H Z D F. apply digit_cases in H. simpl in H.
  repeat (destruct H as [<- | H];
          [first [discriminate Z
                 | split; unfold match_number; simpl;
                   rewrite (span_digits_app ds rest D F); reflexivity] |]).
  contradiction.
Qed.

(** An integer is read back, whatever non-numeric text follows it. *)
Lemma scan_once_int (f : nat) (z : Z) (rest : string) :
  follow_ok rest = true ->
  scan_once (S f) (string_of_Z z ++ rest) = Ok (VInt z, rest).
Proof.
  intros F. pose proof (follow_ok_float_tail rest F) as FT.
  unfold string_of_Z. destruct z as [|p|p].
  - change (scan_once (S f) (String "0" rest) = Ok (VInt 0, rest)).
    rewrite (proj1 (scan_once_number f "0" rest eq_refl)).
    unfold match_number. simpl. unfold int_literal. rewrite FT. reflexivity.
  - destruct (pos_uint_head p) as (d & ds & E & Hd & Hz & Hds).
    cbn [Z.to_int NilZero.string_of_int]. rewrite E. cbn [append].
    rewrite (proj1 (scan_once_number f d _ Hd)).
    rewrite (proj1 (match_number_digits d ds rest Hd Hz Hds F)).
    unfold int_literal. rewrite FT, <- E.
    change (NilZero.string_of_uint (Pos.to_uint p))
      with (NilZero.string_of_int (Decimal.Pos (Pos.to_uint p))).
    rewrite NilZero.isi.
    + change (Decimal.Pos (Pos.to_uint p)) with (Z.to_int (Z.pos p)).
      rewrite DecimalZ.of_to. reflexivity.
    + intros [= X]. apply (DecimalPos.Unsigned.to_uint_nonnil p). exact X.
    + discriminate.
  - destruct (pos_uint_head p) as (d & ds & E & Hd & Hz & Hds).
    cbn [Z.to_int NilZero.string_of_int]. rewrite E. cbn [append].
    rewrite (proj2 (scan_once_number f d _ Hd)).
    rewrite (proj2 (match_number_digits d ds rest Hd Hz Hds F)).
    unfold int_literal. rewrite FT, <- E.
    change (String "-" (NilZero.string_of_uint (Pos.to_uint p)))
      with (NilZero.string_of_int (Decimal.Neg (Pos.to_uint p))).
    rewrite NilZero.isi.
    + change (Decimal.Neg (Pos.to_uint p)) with (Z.to_int (Z.neg p)).
      rewrite DecimalZ.of_to. reflexivity.
    + discriminate.
    + intros [= X]. apply (DecimalPos.Unsigned.to_uint_nonnil p). exact X.
Qed.

Lemma value_ind_nested (P : value -> Prop) :
  P VNone ->
  (forall b, P (VBool b)) ->
  (forall z, P (VInt z)) ->
  (forall s, P (VStr s)) ->
  (forall l, Forall P l -> P (VList l)) ->
  (forall d, Forall (fun kv => P (snd kv)) d -> P (VDict d)) ->
  forall v, P v.
Proof.
  intros HN HB HI HS HL HD.
  fix IH 1. intros [|b|z|s|l|d].
  - exact HN.
  - apply HB.
  - apply HI.
  - apply HS.
  - apply HL. induction l as [|x l IHl]; constructor; [apply IH | exact IHl].
  - apply HD. induction d as [|[k x] d IHd]; constructor; [apply IH | exact IHd].
Qed.

Lemma json_dumps_head (v : value) :
  exists c t, json_dumps v = String c t /\ In c value_heads.
Proof.
  destruct v as [|[|]|z|s|l|d]; simpl;
    try (eexists; eexists; split; [reflexivity | simpl; tauto]).
  unfold string_of_Z. destruct z as [|p|p]; simpl.
  - eexists; eexists; split; [reflexivity | simpl; tauto].
  - destruct (pos_uint_head p) as (c & ds & E & Hd & _).
    rewrite E. exists c, ds. split; [reflexivity |].
    apply digit_cases in Hd. simpl in *. tauto.
  - eexists; eexists; split; [reflexivity | simpl; tauto].
Qed.

Lemma skip_ws_dumps (v : value) (t : string) :
  skip_ws (json_dumps v ++ t) = json_dumps v ++ t.
Proof.
  destruct (json_dumps_head v) as (c & r & -> & H). simpl in H.
  repeat (destruct H as [<- | H]; [reflexivity |]). contradiction.
Qed.

Lemma dict_set_fresh (acc : dict) (k : string) (v : value) :
  dict_mem acc k = false -> dict_set acc k v = (acc ++ [(k, v)])%list.
Proof.
  unfold dict_mem. induction acc as [|[k' v'] acc IH]; simpl; [reflexivity |].
  destruct (k' =? k); [discriminate |]. intros H. rewrite IH by exact H. reflexivity.
Qed.

Lemma dict_mem_app_fresh (acc : dict) (k k' : string) (v : value) :
  dict_mem (acc ++ [(k, v)])%list k' = dict_mem acc k' || (k =? k').
Proof.
  unfold dict_mem. induction acc as [|[k0 v0] acc IH]; simpl.
  - destruct (k =? k'); reflexivity.
  - destruct (k0 =? k'); [reflexivity | exact IH].
Qed.

(** Assigning pairs with distinct fresh keys in turn appends them. *)
Lemma fold_dict_set (d acc : dict) :
  nodup_keys (map fst d) = true ->
  forallb (fun k => negb (dict_mem acc k)) (map fst d) = true ->
  fold_left (fun a kv => dict_set a (fst kv) (snd kv)) d acc = (acc ++ d)%list.
Proof.
  revert acc. induction d as [|[k v] d IH]; intros acc N F; simpl.
  - symmetry. apply app_nil_r.
  - simpl in N, F. apply andb_prop in N. destruct N as [Nk N].
    apply andb_prop in F. destruct F as [Fk F].
    apply negb_true_iff in Fk. rewrite (dict_set_fresh _ _ _ Fk).
    rewrite IH.
    + rewrite <- app_assoc. reflexivity.
    + exact N.
    + apply forallb_forall. intros x Hx. rewrite dict_mem_app_fresh.
      rewrite forallb_forall in F. specialize (F x Hx).
      apply negb_true_iff in F. rewrite F. simpl.
      apply negb_true_iff. apply negb_true_iff in Nk.
      destruct (k =? x) eqn:E; [| reflexivity].
      apply String.eqb_eq in E. subst x.
      apply mem_str_In in Hx. congruence.
Qed.

Lemma dict_of_pairs (d : dict) :
  nodup_keys (map fst d) = true ->
  fold_left (fun a kv => dict_set a (fst kv) (snd kv)) d [] = d.
Proof.
  intros N. rewrite fold_dict_set; [reflexivity | exact N |].
  apply forallb_forall. reflexivity.
Qed.

Lemma concat_cons2 (sep x y : string) (l : list string) :
  concat sep (x :: y :: l) = x ++ sep ++ concat sep (y :: l).
Proof. reflexivity. Qed.

Lemma skip_ws_nonws (c : ascii) (t : string) :
  is_ws c = false -> skip_ws (String c t) = String c t.
Proof. intros H. simpl. rewrite H. reflexivity. Qed.

Lemma skip_ws_elems (l : list value) (t : string) :
  l <> [] -> skip_ws (concat "," (map json_dumps l) ++ t) = concat "," (map json_dumps l) ++ t.
Proof.
  destruct l as [|x [|y l]]; intros NE; [contradiction | |].
  - cbn [map concat]. apply skip_ws_dumps.
  - cbn [map]. rewrite concat_cons2, !append_assoc. apply skip_ws_dumps.
Qed.

Lemma parse_elements_dumps (l : list value) :
  Forall reads_back l -> forallb wf l = true -> l <> [] ->
  forall fuel rest,
    elems_size l <= fuel ->
    parse_elements fuel (concat "," (map json_dumps l) ++ String "]" rest) = Ok (l, rest).
Proof.
  intros HP. induction HP as [|x l Hx HP IH]; intros W NE fuel rest Hf; [contradiction |].
  simpl in W. apply andb_prop in W. destruct W as [Wx W].
  unfold elems_size in Hf. simpl in Hf. fold (elems_size l) in Hf.
  destruct fuel as [|f]; [lia |]. cbn [parse_elements].
  destruct l as [|y l].
  - cbn [map concat].
    rewrite (Hx Wx f (String "]" rest)) by (try reflexivity; lia).
    reflexivity.
  - cbn [map]. rewrite concat_cons2, !append_assoc. cbn [append].
    change (json_dumps y :: map json_dumps l) with (map json_dumps (y :: l)).
    set (tail := concat "," (map json_dumps (y :: l)) ++ String "]" rest).
    rewrite (Hx Wx f (String "," tail)) by (try reflexivity; lia).
    cbn [bind]. rewrite skip_ws_nonws by reflexivity. cbv beta iota.
    subst tail. rewrite skip_ws_elems by discriminate.
    rewrite IH by (try assumption; try discriminate; lia).
    reflexivity.
Qed.

Lemma skip_ws_members (d : dict) (t : string) :
  d <> [] -> skip_ws (concat "," (map json_member d) ++ t) = concat "," (map json_member d) ++ t.
Proof.
  destruct d as [|[k v] [|y d]]; intros NE; [contradiction | |].
  - reflexivity.
  - reflexivity.
Qed.

Lemma parse_members_dumps (d : dict) :
  Forall (fun kv => reads_back (snd kv)) d ->
  forallb (fun kv => wf (snd kv)) d = true -> d <> [] ->
  forall fuel rest,
    members_size d <= fuel ->
    parse_members fuel (concat "," (map json_member d) ++ String "}" rest) = Ok (d, rest).
Proof.
  intros HP. induction HP as [|[k x] d Hx HP IH]; intros W NE fuel rest Hf; [contradiction |].
  simpl in W. apply andb_prop in W. destruct W as [Wx W]. simpl in Hx.
  unfold members_size in Hf. simpl in Hf. fold (members_size d) in Hf.
  destruct fuel as [|f]; [lia |].
  assert (G : forall tail,
             follow_ok tail = true ->
             parse_members (S f) (json_member (k, x) ++ tail)
             = '(v, r3) <- Ok (x, tail) ;;
               match skip_ws r3 with
               | String "}" r4 => Ok ([(k, v)], r4)
               | String "," r4 =>
                   '(kvs, rest') <- parse_members f (skip_ws r4) ;; Ok ((k, v) :: kvs, rest')
               | _ => Raise JSONDecodeError
               end).
  { intros tail Ft. unfold json_member. cbn [fst snd].
    rewrite !append_assoc, json_string_app. cbn [parse_members].
    change ((dquote =? dquote)%char) with true. cbv iota.
    rewrite scanstring_json_string. cbn [bind append].
    rewrite skip_ws_nonws by reflexivity. cbv beta iota.
    rewrite skip_ws_dumps. rewrite (Hx Wx f tail) by (try assumption; lia).
    reflexivity. }
  destruct d as [|y d].
  - cbn [map concat]. rewrite G by reflexivity. reflexivity.
  - cbn [map]. rewrite concat_cons2, !append_assoc. cbn [append].
    change (json_member y :: map json_member d) with (map json_member (y :: d)).
    set (tail := concat "," (map json_member (y :: d)) ++ String "}" rest).
    rewrite G by reflexivity.
    cbn [bind]. rewrite skip_ws_nonws by reflexivity. cbv beta iota.
    subst tail. rewrite skip_ws_members by discriminate.
    rewrite IH by (try assumption; try discriminate; lia).
    reflexivity.
Qed.

(** Every well-formed value is read back from its serialization. *)
Lemma scan_once_dumps (v : value) : reads_back v.
Proof.
  induction v as [|b|z|s|l IH|d IH] using value_ind_nested; intros W fuel rest Hf F;
    (destruct fuel as [|f]; [simpl in Hf; lia |]).
  - reflexivity.
  - destruct b; reflexivity.
  - apply scan_once_int. exact F.
  - cbn [json_dumps]. rewrite json_string_app. cbn [scan_once].
    change ((dquote =? dquote)%char) with true. cbv iota.
    rewrite scanstring_json_string. reflexivity.
  - cbn [json_dumps wf vsize] in *. fold (elems_size l) in Hf.
    cbn [append]. rewrite append_assoc. cbn [append scan_once].
    change (("[" =? dquote)%char) with false.
    change (("[" =? "{")%char) with false.
    change (("[" =? "[")%char) with true. cbv iota.
    destruct l as [|x l].
    + reflexivity.
    + rewrite skip_ws_elems by discriminate.
      destruct (json_dumps_head x) as (c & t & E & Hc).
      assert (E' : exists t',
                 concat "," (map json_dumps (x :: l)) ++ String "]" rest = String c t').
      { destruct l; cbn [map concat]; [| rewrite !append_assoc];
          rewrite E; eexists; reflexivity. }
      destruct E' as (t' & E'). rewrite E'. simpl in Hc.
      repeat (destruct Hc as [<- | Hc];
              [unfold dquote in *; cbv beta iota; rewrite <- E';
               rewrite (parse_elements_dumps (x :: l) IH W) by (try discriminate; lia);
               reflexivity |]).
      contradiction.
  - cbn [json_dumps wf vsize] in *. fold (members_size d) in Hf.
    apply andb_prop in W. destruct W as [N W].
    cbn [append]. rewrite append_assoc. cbn [append scan_once].
    change (("{" =? dquote)%char) with false.
    change (("{" =? "{")%char) with true. cbv iota.
    destruct d as [|[k x] d].
    + reflexivity.
    + change (map (fun kv => json_string (fst kv) ++ ":" ++ json_dumps (snd kv)) ((k, x) :: d))
        with (map json_member ((k, x) :: d)).
      rewrite skip_ws_members by discriminate.
      assert (E' : exists t',
                 concat "," (map json_member ((k, x) :: d)) ++ String "}" rest
                 = String dquote t').
      { destruct d; eexists; reflexivity. }
      destruct E' as (t' & E'). rewrite E'. unfold dquote in E' |- *.
      cbv beta iota. rewrite <- E'.
      rewrite (parse_members_dumps ((k, x) :: d) IH W) by (try discriminate; lia).
      cbn [bind]. rewrite dict_of_pairs by exact N. reflexivity.
Qed.

Lemma append_nil (s : string) : s ++ EmptyString = s.
Proof. induction s as [|c s IH]; simpl; [reflexivity | rewrite IH; reflexivity]. Qed.

Lemma length_app (a b : string) : length (a ++ b) = length a + length b.
Proof. induction a as [|c a IH]; simpl; [reflexivity | rewrite IH; reflexivity]. Qed.

Lemma json_dumps_nonempty (v : value) : 1 <= length (json_dumps v).
Proof. destruct (json_dumps_head v) as (c & t & -> & _). simpl. lia. Qed.

Lemma elems_size_le (l : list value) :
  Forall (fun v => vsize v <= 2 * length (json_dumps v)) l ->
  elems_size l <= 2 * length (concat "," (map json_dumps l)) + 1.
Proof.
  intros H. induction H as [|x l Hx H IH]; [simpl; lia |].
  unfold elems_size in *. simpl fold_right.
  destruct l as [|y l].
  - simpl. lia.
  - cbn [map]. rewrite concat_cons2, !length_app. cbn [map] in IH.
    change (length ",") with 1. lia.
Qed.

Lemma members_size_le (d : dict) :
  Forall (fun kv => vsize (snd kv) <= 2 * length (json_dumps (snd kv))) d ->
  members_size d <= 2 * length (concat "," (map json_member d)) + 1.
Proof.
  intros H. induction H as [|[k x] d Hx H IH]; [simpl; lia |].
  unfold members_size in *. simpl fold_right. simpl in Hx.
  assert (L : length (json_dumps x) + 1 <= length (json_member (k, x))).
  { unfold json_member. cbn [fst snd]. rewrite !length_app. change (length ":") with 1. lia. }
  destruct d as [|y d].
  - cbn [map concat fold_right]. lia.
  - cbn [map]. rewrite concat_cons2, !length_app. cbn [map] in IH.
    change (length ",") with 1. lia.
Qed.

Lemma vsize_le (v : value) : vsize v <= 2 * length (json_dumps v).
Proof.
  induction v as [|b|z|s|l IH|d IH] using value_ind_nested.
  - pose proof (json_dumps_nonempty VNone). simpl vsize. lia.
  - pose proof (json_dumps_nonempty (VBool b)). simpl vsize. lia.
  - pose proof (json_dumps_nonempty (VInt z)). simpl vsize. lia.
  - pose proof (json_dumps_nonempty (VStr s)). simpl vsize. lia.
  - pose proof (elems_size_le l IH) as H. cbn [vsize json_dumps].
    fold (elems_size l). rewrite !length_app. change (length "[") with 1.
    change (length "]") with 1. lia.
  - pose proof (members_size_le d IH) as H. cbn [vsize json_dumps].
    fold (members_size d).
    change (map (fun kv => json_string (fst kv) ++ ":" ++ json_dumps (snd kv)) d)
      with (map json_member d).
    rewrite !length_app. change (length "{") with 1. change (length "}") with 1. lia.
Qed.

(** [json.loads(json.dumps(v, separators=(",", ":")))] is [v]. *)
Lemma json_loads_dumps (v : value) : wf v = true -> json_loads (json_dumps v) = Ok v.
Proof.
  intros W. unfold json_loads, json_fuel.
  pose proof (skip_ws_dumps v EmptyString) as S. rewrite append_nil in S. rewrite S.
  pose proof (scan_once_dumps v W (2 * length (json_dumps v) + 1) EmptyString) as R.
  rewrite append_nil in R. rewrite R; [reflexivity | | reflexivity].
  pose proof (vsize_le v). lia.
Qed.

(** ** Well-formedness is preserved *)

Lemma nodup_keys_NoDup (l : list string) : nodup_keys l = true <-> NoDup l.
Proof.
  induction l as [|k l IH]; simpl.
  - split; [constructor | reflexivity].
  - rewrite andb_true_iff, negb_true_iff, IH. split.
    + intros [M N]. constructor; [| exact N].
      intros I. apply mem_str_In in I. congruence.
    + intros H. inversion H as [|? ? M N]; subst. split; [| exact N].
      destruct (mem_str k l) eqn:E; [| reflexivity].
      apply mem_str_In in E. contradiction.
Qed.

Lemma wfd_split (d : dict) :
  wfd d <-> NoDup (map fst d) /\ Forall (fun kv => wfv (snd kv)) d.
Proof.
  unfold wfd, wfv. cbn [wf]. rewrite andb_true_iff, nodup_keys_NoDup, forallb_forall, Forall_forall.
  reflexivity.
Qed.

Lemma wf_dict_get (d : dict) (k : string) : wfd d -> wfv (dict_get d k).
Proof.
  intros H. apply wfd_split in H. destruct H as [_ F]. unfold dict_get.
  destruct (lookup d k) as [v|] eqn:L; [| reflexivity].
  apply lookup_In in L. rewrite Forall_forall in F. apply (F _ L).
Qed.

Lemma wf_lookup (d : dict) (k : string) (v : value) : wfd d -> lookup d k = Some v -> wfv v.
Proof.
  intros H L. apply wfd_split in H. destruct H as [_ F].
  apply lookup_In in L. rewrite Forall_forall in F. apply (F _ L).
Qed.

Lemma vals_dict_set (P : value -> Prop) (d : dict) (k : string) (v : value) :
  Forall (fun kv => P (snd kv)) d -> P v -> Forall (fun kv => P (snd kv)) (dict_set d k v).
Proof.
  intros F Hv. induction F as [|[k' v'] d Hx F IH]; simpl.
  - repeat constructor. exact Hv.
  - destruct (k' =? k); constructor; auto.
Qed.

Lemma wf_dict_set (d : dict) (k : string) (v : value) :
  wfd d -> wfv v -> wfd (dict_set d k v).
Proof.
  intros H Hv. apply wfd_split in H. destruct H as [N F]. apply wfd_split. split.
  - apply NoDup_dict_set. exact N.
  - apply vals_dict_set; assumption.
Qed.

Lemma wf_arr_first (x : value) : wfv x -> wfv (_arr_first x).
Proof.
  unfold wfv. destruct x as [| | | |[|h l]|]; simpl; trivial.
  intros H. apply andb_prop in H. apply H.
Qed.

Lemma wf_por (a b : value) : wfv a -> wfv b -> wfv (por a b).
Proof. unfold por. destruct (truthy a); trivial. Qed.

Lemma wf_get (x : value) (k : string) : wfv x -> out_sat wfv (get x k).
Proof.
  intros H v E. destruct x; try discriminate E. injection E as <-.
  apply wf_dict_get. exact H.
Qed.

Lemma out_sat_Ok {A : Type} (P : A -> Prop) (a : A) : P a -> out_sat P (Ok a).
Proof. intros H b [= <-]. exact H. Qed.

Lemma out_sat_bind {A B : Type} (P : A -> Prop) (Q : B -> Prop) (m : outcome A)
    (k : A -> outcome B) :
  out_sat P m -> (forall a, P a -> out_sat Q (k a)) -> out_sat Q (bind m k).
Proof.
  intros Hm Hk b E. apply bind_Ok in E. destruct E as (a & Ea & Eb).
  apply (Hk a (Hm a Ea) b Eb).
Qed.

Lemma out_sat_or_else (P : value -> Prop) (a b : outcome value) :
  out_sat P a -> out_sat P b -> out_sat P (a orelse b).
Proof.
  intros Ha Hb v E. apply or_else_Ok in E.
  destruct E as [[E _] | (w & _ & _ & E)]; [apply Ha | apply Hb]; exact E.
Qed.

(** Reduces a goal on the outcome of a helper to goals on its parts. *)
Ltac sat :=
  repeat first
    [ assumption
    | reflexivity
    | apply out_sat_or_else
    | apply wf_get
    | apply wf_dict_get
    | apply wf_dict_set
    | apply wf_arr_first
    | apply wf_por
    | apply out_sat_Ok
    | eapply (out_sat_bind wfv); [| intros ? ?]
    | match goal with
      | |- out_sat _ (if ?b then _ else _) => destruct b
      | |- wfv (if ?b then _ else _) => destruct b
      | |- wfd (if ?b then _ else _) => destruct b
      | |- wfv (VStr _) => reflexivity
      | |- wfv (VDict ?d) => change (wfd d)
      | |- wfd [] => reflexivity
      end ].

Lemma wf_sub_settings (stream : value) (k : string) :
  wfv stream -> out_sat wfv (sub_settings stream k).
Proof. intros H. unfold sub_settings. sat. Qed.

Lemma wf_get_network_path (stream : value) (net : string) :
  wfv stream -> out_sat wfv (_get_network_path stream net).
Proof.
  intros H. unfold _get_network_path, _tcp_settings, _ws_settings, _http_settings,
    _xhttp_settings, _grpc_settings, _kcp_settings, _quic_settings, sub_settings.
  sat.
Qed.

Lemma wf_get_network_host (stream : value) (net : string) :
  wfv stream -> out_sat wfv (_get_network_host stream net).
Proof.
  intros H. unfold _get_network_host, _tcp_settings, _ws_settings, _http_settings,
    _xhttp_settings, sub_settings.
  sat.
Qed.

Lemma wf_external_proxy_dest (stream : value) : out_sat wfv (_external_proxy_dest stream).
Proof.
  intros v E. unfold _external_proxy_dest in E.
  apply bind_Ok in E. destruct E as (ext & _ & E).
  destruct ext as [| | | |[|[| | | | |e0] l]|]; try (injection E as <-; reflexivity).
  destruct (truthy (dict_get e0 "dest")); injection E as <-; reflexivity.
Qed.

Lemma wf_server_host (fb : string) (stream settings : value) :
  wfv stream -> wfv settings -> out_sat wfv (_server_host fb stream settings).
Proof.
  intros H1 H2. unfold _server_host.
  apply out_sat_or_else; [apply wf_external_proxy_dest |].
  apply out_sat_or_else; [unfold _tls_settings, sub_settings; sat |].
  apply out_sat_or_else; [apply wf_get_network_host; exact H1 |].
  sat.
Qed.
Lemma wf_header_type (s : value) : wfv s -> out_sat wfv (header_type s).
Proof. intros H. unfold header_type. sat. Qed.

Lemma wf_vmess_transport_block (stream : value) (net : string) (vm : dict) :
  wfv stream -> wfd vm -> out_sat wfd (vmess_transport_block stream net vm).
Proof.
  intros H1 H2.
  unfold vmess_transport_block, header_type, _tcp_settings, _ws_settings, _grpc_settings,
    _kcp_settings, _quic_settings, _http_settings, _xhttp_settings, sub_settings.
  cbv zeta. sat.
Qed.

Lemma wf_gather_tls_params (stream : value) : out_sat wfd (_gather_tls_params stream).
Proof.
  intros t E. unfold _gather_tls_params in E. binds E. injection E as <-.
  repeat first
    [ reflexivity
    | apply wf_dict_set
    | match goal with
      | |- wfd (if ?b then _ else _) => destruct b
      | |- wfd (match ?x with _ => _ end) => destruct x
      | |- wfd [] => reflexivity
      end ].
Qed.

Lemma wf_gather_reality_params (stream : value) : out_sat wfd (_gather_reality_params stream).
Proof.
  intros t E. unfold _gather_reality_params in E. binds E. injection E as <-.
  repeat first
    [ reflexivity
    | apply wf_dict_set
    | match goal with
      | |- wfd (if ?b then _ else _) => destruct b
      | |- wfd [] => reflexivity
      end ].
Qed.

Lemma wf_copy_key (src : dict) (k : string) (vm : dict) :
  wfd src -> wfd vm -> wfd (copy_key src k vm).
Proof.
  intros Hs Hv. unfold copy_key. destruct (lookup src k) eqn:L; [| exact Hv].
  apply wf_dict_set; [exact Hv | apply (wf_lookup src k); assumption].
Qed.

Lemma wf_copy_truthy (r : dict) (k : string) (vm : dict) :
  wfd r -> wfd vm -> wfd (copy_truthy r k vm).
Proof.
  intros Hr Hv. unfold copy_truthy. destruct (truthy (dict_get r k)); [| exact Hv].
  apply wf_dict_set; [exact Hv | apply wf_dict_get; exact Hr].
Qed.

Lemma wf_client_id (client : dict) : wfd client -> wfv (_client_id client).
Proof. intros H. unfold _client_id. sat. Qed.

Lemma wf_tag_source (client inbound : dict) :
  wfd client -> wfd inbound -> wfv (tag_source client inbound).
Proof. intros H1 H2. unfold tag_source. sat. Qed.

Lemma wf_vmess_record (client inbound : dict) (stream host : value) (net sec : string) :
  wfd client -> wfd inbound -> wfv stream -> wfv host ->
  out_sat wfd (vmess_record client inbound stream host net sec).
Proof.
  intros Hc Hi Hs Hh. unfold vmess_record.
  eapply (out_sat_bind wfv); [apply wf_get_network_path; exact Hs |].
  intros path Hp. cbv zeta.
  eapply (out_sat_bind wfd).
  { apply wf_vmess_transport_block; [exact Hs |].
    apply wfd_split. split.
    - simpl. repeat constructor; simpl; intuition discriminate.
    - repeat constructor; cbn [snd]; try reflexivity; try assumption.
      + apply wf_tag_source; assumption.
      + apply wf_client_id; assumption. }
  intros vm1 H1.
  eapply (out_sat_bind wfd); [apply wf_gather_tls_params |].
  intros t Ht.
  assert (H4 : wfd (copy_key t "allowInsecure"
                      (copy_key t "alpn" (copy_key t "fp" (copy_key t "sni" vm1)))))
    by (repeat apply wf_copy_key; assumption).
  destruct (sec =? "reality"); [| apply out_sat_Ok; exact H4].
  eapply (out_sat_bind wfd); [apply wf_gather_reality_params |].
  intros r Hr. apply out_sat_Ok. repeat apply wf_copy_truthy; assumption.
Qed.

(** ** The VMess record *)

Lemma lookup_set_host_other (d : dict) (k : string) (v : value) :
  k <> "host" -> lookup (dict_set d k v) "host" = lookup d "host".
Proof. apply lookup_dict_set_other. Qed.

Lemma present_host (vm : dict) (h : value) :
  lookup vm "host" = None ->
  lookup (if truthy h then dict_set vm "host" h else vm) "host"
  = (if truthy h then Some h else None).
Proof.
  intros N. destruct (truthy h); [apply lookup_dict_set_same | exact N].
Qed.

Lemma vmess_transport_host (s : dict) (net : string) (vm vm1 : dict) :
  wt_stream s = true ->
  lookup vm "host" = None ->
  vmess_transport_block (VDict s) net vm = Ok vm1 ->
  lookup vm1 "host" = vmess_expected_host s net.
Proof.
  unfold wt_stream, wt_tcp, wt_ws, wt_header, wt_http. cbv zeta. intros H N. split_wt.
  revert vm1.
  unfold vmess_transport_block, vmess_expected_host, _tcp_settings, _ws_settings,
    _grpc_settings, _kcp_settings, _quic_settings, _http_settings, _xhttp_settings.
  cbv zeta.
  assert (T : forall v, lookup (dict_set vm "type" v) "host" = None)
    by (intros v; rewrite lookup_set_host_other by discriminate; exact N).
  destruct (String.eqb_spec net "tcp") as [-> | N1].
  { rewrite (sub_settings_ok s "tcpSettings") by assumption. cbn [bind get].
    rewrite dict_or_empty by assumption. cbn [bind get].
    destruct (eq_str _ "http"); [| intros vm1 [= <-]; exact N].
    rewrite dict_or_empty by assumption. cbn [bind get].
    rewrite dict_or_empty by assumption. cbn [bind get].
    intros vm1 [= <-]. apply present_host. apply T. }
  destruct (String.eqb_spec net "ws") as [-> | N2].
  { rewrite (sub_settings_ok s "wsSettings") by assumption. cbn [bind get].
    rewrite dict_or_empty by assumption. cbn [bind get].
    rewrite !or_else_pure. cbn [bind].
    intros vm1 [= <-]. rewrite present_host by exact N.
    unfold por.
    destruct (truthy (dict_get (as_dict (dict_get s "wsSettings")) "host")) eqn:A;
      [rewrite A; reflexivity |].
    destruct (truthy (dict_get (as_dict (dict_get (as_dict (dict_get s "wsSettings")) "headers"))
                        "Host")) eqn:B; [rewrite B |]; reflexivity. }
  destruct (String.eqb_spec net "grpc") as [-> | N3].
  { rewrite (sub_settings_ok s "grpcSettings") by assumption. cbn [bind get].
    intros vm1 [= <-]. cbn [String.eqb Ascii.eqb Bool.eqb mem_str orb].
    destruct (truthy (dict_get (as_dict (dict_get s "grpcSettings")) "serviceName"));
      repeat rewrite lookup_dict_set_other by discriminate; exact N. }
  destruct (String.eqb_spec net "kcp") as [-> | N4].
  { rewrite (sub_settings_ok s "kcpSettings") by assumption. cbn [bind get].
    intros vm1 E. apply bind_Ok in E. destruct E as (ht & _ & [= <-]).
    cbn [String.eqb Ascii.eqb Bool.eqb mem_str orb]. apply T. }
  destruct (String.eqb_spec net "quic") as [-> | N5].
  { rewrite (sub_settings_ok s "quicSettings") by assumption. cbn [bind get].
    intros vm1 E. apply bind_Ok in E. destruct E as (ht & _ & E).
    rewrite or_else_pure in E. cbn [bind] in E. injection E as <-.
    apply lookup_dict_set_same. }
  destruct (mem_str net ["http"; "xhttp"]); [| intros vm1 [= <-]; exact N].
  rewrite (sub_settings_ok s "httpSettings") by assumption.
  rewrite (sub_settings_ok s "xhttpSettings") by assumption. cbn [bind get].
  rewrite or_else_pure. cbn [bind].
  intros vm1 [= <-]. apply present_host. apply T.
Qed.
(** ** What [json.loads] returns is well formed *)

Lemma wf_fold_set (kvs acc : dict) :
  wfd acc -> Forall (fun kv => wfv (snd kv)) kvs ->
  wfd (fold_left (fun a kv => dict_set a (fst kv) (snd kv)) kvs acc).
Proof.
  intros Ha F. revert acc Ha. induction F as [|[k v] kvs Hv F IH]; intros acc Ha; simpl.
  - exact Ha.
  - apply IH. apply wf_dict_set; assumption.
Qed.

Lemma wf_scan_constant (s : string) :
  out_sat (fun p => wfv (fst p)) (scan_constant s).
Proof.
  intros [v r] E. unfold scan_constant in E.
  destruct (strip_prefix "null" s); [injection E as <- _; reflexivity |].
  destruct (strip_prefix "true" s); [injection E as <- _; reflexivity |].
  destruct (strip_prefix "false" s); [injection E as <- _; reflexivity |].
  destruct (_ || _); [discriminate |].
  unfold match_number in E.
  destruct (match s with String "-" r0 => _ | _ => _ end) as [sign body].
  destruct body as [|d r0]; [discriminate |].
  assert (I : forall text rest, int_literal text rest = Ok (v, r) -> wfv (fst (v, r))).
  { intros text rest. unfold int_literal. destruct (float_tail rest); [discriminate |].
    destruct (NilZero.int_of_string text); [| discriminate].
    intros [= <- _]. reflexivity. }
  destruct (d =? "0")%char; [apply (I _ _ E) |].
  destruct (is_digit d); [| discriminate].
  destruct (span_digits r0). apply (I _ _ E).
Qed.

Ltac by_char c :=
  destruct c as [[] [] [] [] [] [] [] []]; cbv beta iota in *; try discriminate.

Lemma wf_scan (fuel : nat) :
  (forall s, out_sat (fun p => wfv (fst p)) (scan_once fuel s))
  /\ (forall s, out_sat (fun p => Forall wfv (fst p)) (parse_elements fuel s))
  /\ (forall s, out_sat (fun p => Forall (fun kv => wfv (snd kv)) (fst p))
                  (parse_members fuel s)).
Proof.
  induction fuel as [|f (IH1 & IH2 & IH3)];
    [repeat split; intros s p E; discriminate E |].
  split; [| split].
  - intros s [v r] E. cbn [scan_once] in E.
    destruct s as [|c t]; [discriminate |].
    destruct (c =? dquote)%char.
    { apply bind_Ok in E. destruct E as ([x y] & _ & E). injection E as <- _. reflexivity. }
    destruct (c =? "{")%char.
    { destruct (skip_ws t) as [|c1 t1] eqn:S.
      - apply bind_Ok in E. destruct E as ([kvs y] & Ek & E). injection E as <- _.
        apply (wf_fold_set kvs []); [reflexivity | apply (IH3 _ _ Ek)].
      - assert (G : forall m, m = Ok (v, r) ->
                      (m = Ok (VDict [], t1)
                       \/ m = ('(kvs, rest) <- parse_members f (String c1 t1) ;;
                               Ok (VDict (fold_left (fun acc kv => dict_set acc (fst kv) (snd kv))
                                            kvs []), rest))) ->
                      wfv (fst (v, r))).
        { intros m Em [X | X]; rewrite X in Em.
          - injection Em as <- _. reflexivity.
          - apply bind_Ok in Em. destruct Em as ([kvs y] & Ek & Em). injection Em as <- _.
            apply (wf_fold_set kvs []); [reflexivity | apply (IH3 _ _ Ek)]. }
        apply (G _ E). clear. by_char c1; auto. }
    destruct (c =? "[")%char.
    { destruct (skip_ws t) as [|c1 t1] eqn:S.
      - apply bind_Ok in E. destruct E as ([vs y] & Ek & E). injection E as <- _.
        unfold wfv. cbn [fst wf]. apply forallb_forall. apply Forall_forall. apply (IH2 _ _ Ek).
      - assert (G : forall m, m = Ok (v, r) ->
                      (m = Ok (VList [], t1)
                       \/ m = ('(vs, rest) <- parse_elements f (String c1 t1) ;;
                               Ok (VList vs, rest))) ->
                      wfv (fst (v, r))).
        { intros m Em [X | X]; rewrite X in Em.
          - injection Em as <- _. reflexivity.
          - apply bind_Ok in Em. destruct Em as ([vs y] & Ek & Em). injection Em as <- _.
            unfold wfv. cbn [fst wf]. apply forallb_forall. apply Forall_forall.
            apply (IH2 _ _ Ek). }
        apply (G _ E). clear. by_char c1; auto. }
    apply (wf_scan_constant _ _ E).
  - intros s [vs r] E. cbn [parse_elements] in E.
    apply bind_Ok in E. destruct E as ([v r0] & Ev & E).
    pose proof (IH1 _ _ Ev) as Hv. cbn [fst] in Hv.
    destruct (skip_ws r0) as [|c1 t1]; [discriminate |].
    by_char c1;
      first
        [ injection E as <- _; repeat constructor; exact Hv
        | apply bind_Ok in E; destruct E as ([vs' y] & Ek & E); injection E as <- _;
          constructor; [exact Hv | apply (IH2 _ _ Ek)] ].
  - intros s [kvs r] E. cbn [parse_members] in E.
    destruct s as [|c t]; [discriminate |].
    destruct (c =? dquote)%char; [| discriminate].
    apply bind_Ok in E. destruct E as ([k r1] & _ & E).
    destruct (skip_ws r1) as [|c1 t1]; [discriminate |].
    by_char c1.
    apply bind_Ok in E. destruct E as ([v r3] & Ev & E).
    pose proof (IH1 _ _ Ev) as Hv. cbn [fst] in Hv.
    destruct (skip_ws r3) as [|c2 t2]; [discriminate |].
    by_char c2;
      first
        [ injection E as <- _; repeat constructor; exact Hv
        | apply bind_Ok in E; destruct E as ([kvs' y] & Ek & E); injection E as <- _;
          constructor; [exact Hv | apply (IH3 _ _ Ek)] ].
Qed.

Lemma wf_json_loads (s : string) : out_sat wfv (json_loads s).
Proof.
  intros v E. unfold json_loads in E.
  apply bind_Ok in E. destruct E as ([v0 r] & Es & E).
  destruct (skip_ws r); [| discriminate]. injection E as <-.
  apply (proj1 (wf_scan _) _ _ Es).
Qed.

Lemma out_sat_try {A : Type} (P : A -> Prop) (a b : outcome A) :
  out_sat P a -> out_sat P b -> out_sat P (try_except a b).
Proof.
  intros Ha Hb x E. unfold try_except in E. destruct a; [apply Ha; exact E | | discriminate].
  apply Hb. exact E.
Qed.

Lemma wf_jload (x : value) : wfv x -> out_sat wfv (_jload x).
Proof.
  intros H. unfold _jload.
  destruct (negb (truthy x)); [apply out_sat_Ok; reflexivity |].
  destruct (is_dict x); [apply out_sat_Ok; exact H |].
  apply out_sat_try.
  - destruct x; try (intros v E; discriminate E). apply wf_json_loads.
  - apply out_sat_try; [apply wf_json_loads | apply out_sat_Ok; reflexivity].
Qed.

Lemma wf_raw_stream (inbound : dict) : wfd inbound -> wfv (raw_stream inbound).
Proof. intros H. unfold raw_stream. sat. Qed.

(** C5: the payload of the [vmess://] link decodes from base64 and UTF-8
    to JSON text that parses to the record [build_vmess] built, in which
    [v] is ["2"], [aid] is the integer 0, [net] and [tls] are the network
    and security resolved from the stream settings, [path] is the
    transport path and [host] the transport host. *)
Theorem vmess_round_trip (fb : string) (client inbound stream settings : dict) :
  wf (VDict client) = true ->
  wf (VDict inbound) = true ->
  _jload (raw_stream inbound) = Ok (VDict stream) ->
  _jload (dict_get inbound "settings") = Ok (VDict settings) ->
  wt_stream stream = true ->
  exists (payload bytes text : string) (vm : dict) (net sec : string) (path : value),
    build_vmess fb client inbound = Ok ("vmess://" ++ payload, vm)
    /\ b64decode false payload = Some bytes
    /\ decode_utf8 bytes = Some text
    /\ json_loads text = Ok (VDict vm)
    /\ _get_network (VDict stream) = Ok net
    /\ _get_security (VDict stream) = Ok sec
    /\ _get_network_path (VDict stream) net = Ok path
    /\ lookup vm "v" = Some (VStr "2")
    /\ lookup vm "aid" = Some (VInt 0)
    /\ lookup vm "net" = Some (VStr net)
    /\ lookup vm "tls" = Some (VStr (vmess_tls sec))
    /\ lookup vm "path" = Some path
    /\ lookup vm "host" = vmess_expected_host stream net.
Proof.
  intros Wc Wi Hs Hst W.
  assert (Ws : wfd stream) by (apply (wf_jload _ (wf_raw_stream _ Wi) _ Hs)).
  assert (Wst : wfd settings) by (apply (wf_jload _ (wf_dict_get _ "settings" Wi) _ Hst)).
  destruct (wt_stream_network _ W) as [Wn Wsec].
  destruct (get_network_ok _ Wn) as (net & En).
  destruct (get_security_ok _ Wsec) as (sec & Es).
  destruct (server_host_ok fb _ settings W) as (host & Eh).
  pose proof (wf_server_host fb _ _ Ws Wst _ Eh) as Wh.
  destruct (vmess_record_ok client inbound stream host net sec W) as (vm & Ev).
  pose proof (wf_vmess_record _ _ _ _ net sec Wc Wi Ws Wh _ Ev) as Wvm.
  destruct (vmess_record_extends _ _ _ _ _ _ _ Ev) as (path & Ep & X).
  exists (b64encode false (encode_utf8 (json_dumps (VDict vm)))),
    (encode_utf8 (json_dumps (VDict vm))), (json_dumps (VDict vm)), vm, net, sec, path.
  split.
  { unfold build_vmess. rewrite Hs, Hst. cbn [bind]. rewrite En, Es. cbn [bind].
    rewrite Eh. cbn [bind]. rewrite Ev. reflexivity. }
  split; [apply b64decode_encode |].
  split; [apply decode_encode_utf8 |].
  split; [apply json_loads_dumps; exact Wvm |].
  split; [exact En |]. split; [exact Es |]. split; [exact Ep |].
  assert (L : forall k, ~ In k ["type"; "host"; "servicename"; "sni"; "fp"; "alpn";
                                "allowInsecure"; "pbk"; "sid"; "spx"] ->
                        lookup vm k = lookup _ k)
    by (intros k Hk; apply (extends_lookup _ _ _ k X Hk)).
  repeat (split; [rewrite L by (simpl; intuition discriminate); reflexivity |]).
  (* the host is set by the transport block alone *)
  unfold vmess_record in Ev. rewrite Ep in Ev. cbn [bind] in Ev. cbv zeta in Ev.
  apply bind_Ok in Ev. destruct Ev as (vm1 & E1 & Ev).
  pose proof (fun N => vmess_transport_host stream net _ vm1 W N E1) as Hh.
  specialize (Hh eq_refl).
  apply bind_Ok in Ev. destruct Ev as (t & _ & Ev).
  assert (K : forall k a d d', In k a -> extends [k] d d' -> extends a d d').
  { intros k a d d' Hk. apply extends_weaken. intros x [<- | []]. exact Hk. }
  assert (E4 : extends ["sni"; "fp"; "alpn"; "allowInsecure"; "pbk"; "sid"; "spx"] vm1
                 (copy_key t "allowInsecure"
                    (copy_key t "alpn" (copy_key t "fp" (copy_key t "sni" vm1))))).
  { repeat (eapply extends_trans;
            [| eapply K; [| apply copy_key_extends]; simpl; tauto]).
    apply ext_refl. }
  assert (E5 : extends ["sni"; "fp"; "alpn"; "allowInsecure"; "pbk"; "sid"; "spx"] vm1 vm).
  { destruct (sec =? "reality").
    - apply bind_Ok in Ev. destruct Ev as (r & _ & Ev). injection Ev as <-.
      repeat (eapply extends_trans;
              [| eapply K; [| apply copy_truthy_extends]; simpl; tauto]).
      exact E4.
    - injection Ev as <-. exact E4. }
  rewrite (extends_lookup _ _ _ "host" E5) by (simpl; intuition discriminate).
  exact Hh.
Qed.

Lemma vmess_round_trip_witness :
  exists (payload bytes text : string) (vm : dict) (net sec : string) (path : value),
    build_vmess "localhost" sample_client vmess_inbound = Ok ("vmess://" ++ payload, vm)
    /\ b64decode false payload = Some bytes
    /\ decode_utf8 bytes = Some text
    /\ json_loads text = Ok (VDict vm)
    /\ _get_network (VDict (as_dict (dict_get vmess_inbound "stream_settings"))) = Ok net
    /\ _get_security (VDict (as_dict (dict_get vmess_inbound "stream_settings"))) = Ok sec
    /\ _get_network_path (VDict (as_dict (dict_get vmess_inbound "stream_settings"))) net
       = Ok path
    /\ lookup vm "v" = Some (VStr "2")
    /\ lookup vm "aid" = Some (VInt 0)
    /\ lookup vm "net" = Some (VStr net)
    /\ lookup vm "tls" = Some (VStr (vmess_tls sec))
    /\ lookup vm "path" = Some path
    /\ lookup vm "host"
       = vmess_expected_host (as_dict (dict_get vmess_inbound "stream_settings")) net.
Proof.
  apply (vmess_round_trip "localhost" sample_client vmess_inbound
           (as_dict (dict_get vmess_inbound "stream_settings")) []);
    reflexivity.
Defined.

(** The record of that inbound, as computed. *)
Example vmess_record_sample :
  option_map snd
    (match build_vmess "localhost" sample_client vmess_inbound with
     | Ok p => Some p
     | _ => None
     end)
  = Some
      [("v", VStr "2"); ("ps", VStr "u1"); ("add", VStr "sni.example");
       ("port", VStr "8443"); ("id", VStr "abc-123"); ("aid", VInt 0);
       ("net", VStr "ws"); ("type", VStr "none"); ("path", VStr "/ws");
       ("tls", VStr "tls"); ("host", VStr "cdn.example"); ("sni", VStr "sni.example");
       ("alpn", VStr "h2"); ("allowInsecure", VStr "1")].
Proof. reflexivity. Qed.

(** ** The dispatcher *)




















(** ** The lenient parser, once more *)








(** ** Network and security names *)





(** ** The [security] parameter *)




(** ** TLS parameters of the VMess record *)





(** ** The transport path *)





(** ** What the gatherers hand over *)





(** ** Reading a query string back *)

























(** ** The case of the xhttp path *)













Example xhttp_path_capitals :
  build_vless "localhost" sample_client xhttp_capitals_inbound
  = Ok "vless://abc-123@localhost:443/?security=none&encryption=&headerType=&type=xhttp&host=h.example&path=%2Fapi%2Fv1%252520x#u1"
  /\ ascii_lower "/API/v1 x" = "/api/v1 x".
Proof. split; reflexivity. Qed.

(** ** The label of a link *)






(** ** Identity fields of the VMess record *)



(** ** The strict reader of [app.py] *)


